(** * react-pin-input: the PinInput container and its PinItem cells

    A shallow embedding of [PinInput] (the container) and [PinItem] (one
    cell) as state transformers over an explicit world: the container's
    refs, the state and refs of every cell, the document's focus, the
    timer queue of the event loop and the log of calls made to the
    external [onChange] / [onComplete] callbacks. *)

From Stdlib Require Import ZArith String Ascii.
From stdpp Require Import base numbers list option.

Local Open Scope Z_scope.
Local Open Scope nat_scope.

(** ** JavaScript strings and values *)

(** A JavaScript string is a sequence of UTF-16 code units; [.length],
    indexing and [charCodeAt] all count code units. *)
Abbreviation jsstring := (list Z).

Definition code_of_ascii (a : ascii) : Z := Z.of_N (N_of_ascii a).

(** An ASCII literal as a JavaScript string. *)
Fixpoint js (s : string) : jsstring :=
  match s with
  | EmptyString => []
  | String a s' => code_of_ascii a :: js s'
  end.

(** The values that reach a parameter typed [string]: a string or, for an
    array or string read out of range, [undefined]. *)
Variant jsvalue :=
  | undefined
  | str (s : jsstring).

(** [Boolean(v)]. *)
Definition Boolean (v : jsvalue) : bool :=
  match v with
  | undefined => false
  | str [] => false
  | str (_ :: _) => true
  end.

(** [String(v)], the conversion [RegExp.prototype.test] applies. *)
Definition ToString (v : jsvalue) : jsstring :=
  match v with
  | undefined => js "undefined"
  | str s => s
  end.

(** [s[i]]: the one-unit string at [i], or [undefined] out of range. *)
Definition char_at (s : jsstring) (i : nat) : jsvalue :=
  match s !! i with
  | Some c => str [c]
  | None => undefined
  end.

Definition is_digit (c : Z) : bool := (48 <=? c)%Z && (c <=? 57)%Z.
Definition is_upper (c : Z) : bool := (65 <=? c)%Z && (c <=? 90)%Z.
Definition is_lower (c : Z) : bool := (97 <=? c)%Z && (c <=? 122)%Z.
Definition is_alnum (c : Z) : bool := is_lower c || is_upper c || is_digit c.
Definition is_ascii (c : Z) : bool := (0 <=? c)%Z && (c <=? 127)%Z.

Definition ascii_upper (c : Z) : Z := if is_lower c then (c - 32)%Z else c.

(** What the host's [String.prototype.toUpperCase] does outside ASCII (the
    Unicode case mappings) is left to the host. *)
Class Host := { unicodeUpper : jsstring -> jsstring }.

(** [s.toUpperCase()]. *)
Definition toUpperCase `{Host} (s : jsstring) : jsstring :=
  if forallb is_ascii s then map ascii_upper s else unicodeUpper s.

(** A regular expression without the [g] or [y] flag, as its [test]. *)
Record RegExp := { test : jsstring -> bool }.

(** [/^[a-zA-Z0-9]+$/]. *)
Definition default_regexCriteria : RegExp :=
  {| test s := match s with [] => false | _ => forallb is_alnum s end |}.

(** [a[i] = v] on a JavaScript array: in range the slot is overwritten, out
    of range the array grows; the holes it leaves join as empty strings. *)
Definition array_set (i : nat) (v : jsstring) (a : list jsstring)
  : list jsstring :=
  if decide (i < length a) then <[i:=v]> a
  else a ++ replicate (i - length a) [] ++ [v].

(** [a.join("")]. *)
Definition join (a : list jsstring) : jsstring := concat a.

(** ** Props *)

Variant InputType :=
  | numeric
  | other.

(** The props after their defaults are applied. [PinInput] hands its own
    [type], [validate], [secret], [secretDelay], [disabled], [autoSelect]
    and [regexCriteria] to every [PinItem] unchanged. *)
Module Props.
Record t := {
  length : nat;
  type : InputType;
  validate : option (jsvalue -> jsstring);
  secret : bool;
  secretDelay : nat;
  disabled : bool;
  focus : bool;
  autoSelect : bool;
  regexCriteria : option RegExp   (* [None]: [null] was passed *)
}.
End Props.

(** ** State *)

(** What one [PinItem] holds: its three [useState] cells and its three
    refs. [inputRef] tells whether [inputRef.current] is the [<input>]
    (the item is in the tree) or [null]. A handler sees the state of the
    render it comes from; no handler of these components reads a state
    that was set earlier in the same turn of the event loop, so a setter
    writes the state at once. *)
Module Cell.
Record t := {
  value : jsstring;
  showSecret : bool;
  focus : bool;
  secretTimeoutRef : option positive;
  inputTimeoutRef : option positive;
  inputRef : bool
}.

Definition set_value (v : jsstring) (c : t) : t :=
  {| value := v; showSecret := showSecret c; focus := focus c;
     secretTimeoutRef := secretTimeoutRef c;
     inputTimeoutRef := inputTimeoutRef c; inputRef := inputRef c |}.
Definition set_showSecret (b : bool) (c : t) : t :=
  {| value := value c; showSecret := b; focus := focus c;
     secretTimeoutRef := secretTimeoutRef c;
     inputTimeoutRef := inputTimeoutRef c; inputRef := inputRef c |}.
Definition set_focus (b : bool) (c : t) : t :=
  {| value := value c; showSecret := showSecret c; focus := b;
     secretTimeoutRef := secretTimeoutRef c;
     inputTimeoutRef := inputTimeoutRef c; inputRef := inputRef c |}.
Definition set_secretTimeoutRef (r : option positive) (c : t) : t :=
  {| value := value c; showSecret := showSecret c; focus := focus c;
     secretTimeoutRef := r;
     inputTimeoutRef := inputTimeoutRef c; inputRef := inputRef c |}.
Definition set_inputTimeoutRef (r : option positive) (c : t) : t :=
  {| value := value c; showSecret := showSecret c; focus := focus c;
     secretTimeoutRef := secretTimeoutRef c;
     inputTimeoutRef := r; inputRef := inputRef c |}.

(** A [useState] setter: React drops the update of an item that is no
    longer in the tree. *)
Definition setState (f : t -> t) (c : t) : t :=
  if inputRef c then f c else c.
End Cell.

(** The callbacks a timer holds, each with the item that started it:
    [() => setShowSecret(Boolean(val))] of [setSecretDelayed], and
    [() => onChange(validated, isPasting)] of [update], where [onChange]
    is the container's [onItemChange] for that item. The props are taken
    not to change between the start of a timer and its run. *)
Variant Job :=
  | HideSecret (item : nat) (hide : bool)
  | Notify (item : nat) (validated : jsstring) (isPasting : bool).

Record Timer := { tid : positive; due : nat; job : Job }.

(** A call made to one of the external callbacks. *)
Variant Call :=
  | OnChange (pin : jsstring) (currentIndex : nat)
  | OnComplete (pin : jsstring) (currentIndex : nat).

(** The world. [elementsRef] is [elementsRef.current]: slot [i] holds the
    handle of cell [i], hence the cell itself, or nothing ([null],
    [undefined] or past the end). [timers] is in creation order, [calls]
    is oldest first, [now] is the clock in milliseconds. *)
Record World := {
  valuesRef : list jsstring;
  elementsRef : list (option Cell.t);
  activeElement : option nat;
  now : nat;
  nextTimer : positive;
  timers : list Timer;
  calls : list Call
}.

Definition set_valuesRef (f : list jsstring -> list jsstring) (w : World) :=
  {| valuesRef := f (valuesRef w); elementsRef := elementsRef w;
     activeElement := activeElement w; now := now w;
     nextTimer := nextTimer w; timers := timers w; calls := calls w |}.
Definition set_elementsRef
    (f : list (option Cell.t) -> list (option Cell.t)) (w : World) :=
  {| valuesRef := valuesRef w; elementsRef := f (elementsRef w);
     activeElement := activeElement w; now := now w;
     nextTimer := nextTimer w; timers := timers w; calls := calls w |}.
Definition set_activeElement (a : option nat) (w : World) :=
  {| valuesRef := valuesRef w; elementsRef := elementsRef w;
     activeElement := a; now := now w;
     nextTimer := nextTimer w; timers := timers w; calls := calls w |}.
Definition set_now (t : nat) (w : World) :=
  {| valuesRef := valuesRef w; elementsRef := elementsRef w;
     activeElement := activeElement w; now := t;
     nextTimer := nextTimer w; timers := timers w; calls := calls w |}.
Definition set_nextTimer (n : positive) (w : World) :=
  {| valuesRef := valuesRef w; elementsRef := elementsRef w;
     activeElement := activeElement w; now := now w;
     nextTimer := n; timers := timers w; calls := calls w |}.
Definition set_timers (f : list Timer -> list Timer) (w : World) :=
  {| valuesRef := valuesRef w; elementsRef := elementsRef w;
     activeElement := activeElement w; now := now w;
     nextTimer := nextTimer w; timers := f (timers w); calls := calls w |}.
Definition set_calls (f : list Call -> list Call) (w : World) :=
  {| valuesRef := valuesRef w; elementsRef := elementsRef w;
     activeElement := activeElement w; now := now w;
     nextTimer := nextTimer w; timers := timers w; calls := f (calls w) |}.

(** The cell behind slot [i], when there is one. *)
Definition cell (w : World) (i : nat) : option Cell.t :=
  match elementsRef w !! i with
  | Some (Some c) => Some c
  | _ => None
  end.

Definition modify_cell (i : nat) (f : Cell.t -> Cell.t) : World -> World :=
  set_elementsRef (alter (fmap f) i).

(** ** Handlers: state, and exceptions *)

Variant Error := TypeError | ReferenceError.

Variant Completion (A : Type) :=
  | Normal (a : A)
  | Throw (e : Error).
Arguments Normal {A} a.
Arguments Throw {A} e.

Definition M (A : Type) : Type := World -> World * Completion A.

Definition ret {A} (a : A) : M A := fun w => (w, Normal a).
Definition throw {A} (e : Error) : M A := fun w => (w, Throw e).
Definition bind {A B} (m : M A) (k : A -> M B) : M B :=
  fun w =>
    match m w with
    | (w', Normal a) => k a w'
    | (w', Throw e) => (w', Throw e)
    end.
Definition gets {A} (f : World -> A) : M A := fun w => (w, Normal (f w)).
Definition modify (f : World -> World) : M unit := fun w => (f w, Normal tt).
Definition when (b : bool) (m : M unit) : M unit := if b then m else ret tt.
Definition complete {A} (c : Completion A) : M A := fun w => (w, c).

Declare Scope handler_scope.
Delimit Scope handler_scope with handler.
Notation "x <- m ;; k" := (bind m (fun x => k))
  (at level 100, m at next level, right associativity) : handler_scope.
Notation "m ;; k" := (bind m (fun _ => k))
  (at level 100, right associativity) : handler_scope.
Local Open Scope handler_scope.

(** [arr.forEach(f)] over the indices [lo, lo + n). *)
Fixpoint forEach (f : nat -> M unit) (lo n : nat) : M unit :=
  match n with
  | O => ret tt
  | S n' => f lo ;; forEach f (S lo) n'
  end.

(** ** Timers *)

(** [setTimeout(job, delay)]. *)
Definition setTimeout (j : Job) (delay : nat) : M positive :=
  fun w =>
    let id := nextTimer w in
    (set_nextTimer (Pos.succ id)
       (set_timers (fun ts => ts ++ [{| tid := id; due := now w + delay;
                                        job := j |}]) w),
     Normal id).

(** [clearTimeout(id)]. *)
Definition clearTimeout (id : positive) : M unit :=
  modify (set_timers (filter (fun t => tid t <> id))).

(** ** PinItem *)

Module PinItem.
Section Item.
Context `{Host}.
(** The props of the item; [i] below is the item's position in the row,
    under which the container keeps its handle. *)
Variable props : Props.t.

Definition value (i : nat) : M jsstring :=
  gets (fun w => default [] (Cell.value <$> cell w i)).

Definition setValue (i : nat) (v : jsstring) : M unit :=
  modify (modify_cell i (Cell.setState (Cell.set_value v))).

Definition setShowSecret (i : nat) (b : bool) : M unit :=
  modify (modify_cell i (Cell.setState (Cell.set_showSecret b))).

Definition setFocus (i : nat) (b : bool) : M unit :=
  modify (modify_cell i (Cell.setState (Cell.set_focus b))).

(** [setSecretDelayed]: show the typed character, drop the pending hide,
    and decide [secretDelay] ms from now, from the value handed in. *)
Definition setSecretDelayed (i : nat) (val : jsvalue) : M unit :=
  setShowSecret i false ;;
  pending <- gets (fun w => cell w i ≫= Cell.secretTimeoutRef) ;;
  match pending with
  | Some id => clearTimeout id
  | None => ret tt
  end ;;
  id <- setTimeout (HideSecret i (Boolean val)) (Props.secretDelay props) ;;
  modify (modify_cell i (Cell.set_secretTimeoutRef (Some id))).

(** The checks of [validateValue], which touch no state: the custom
    validator, else the digit test, else the regular expression. *)
Definition validation (rawValue : jsvalue) : Completion jsstring :=
  match Props.validate props with
  | Some validate => Normal (validate rawValue)
  | None =>
      match Props.type props with
      | numeric =>
          match rawValue with
          | undefined | str [] => Normal []
          | str ((numCode :: _) as s) =>
              Normal (if is_digit numCode then s else [])
          end
      | other =>
          match Props.regexCriteria props with
          | Some re =>
              if test re (ToString rawValue) then
                match rawValue with
                | str s => Normal (toUpperCase s)
                | undefined => Throw TypeError
                end
              else Normal []
          | None => Normal []
          end
      end
  end.

Definition validateValue (i : nat) (rawValue : jsvalue) : M jsstring :=
  when (negb (Props.secretDelay props =? 0)) (setSecretDelayed i rawValue) ;;
  complete (validation rawValue).

(** The first render: [useState(() => validateValue(initialValue))] runs
    [validateValue] at once, when [const setSecretDelayed], declared
    further down, is not initialised yet. With a secret delay the call of
    [setSecretDelayed] therefore throws; without one the item starts from
    the validated initial value, masked when [secret] is set. *)
Definition initialState (initialValue : jsstring) : Completion Cell.t :=
  if negb (Props.secretDelay props =? 0) then Throw ReferenceError
  else
    match validation (str initialValue) with
    | Normal v =>
        Normal {| Cell.value := v; Cell.showSecret := Props.secret props;
                  Cell.focus := false; Cell.secretTimeoutRef := None;
                  Cell.inputTimeoutRef := None; Cell.inputRef := true |}
    | Throw e => Throw e
    end.

(** The cleanup of the item's effect, run when it leaves the tree: the
    timers whose ids the two refs hold are cleared. *)
Definition cleanup (i : nat) : M unit :=
  c <- gets (fun w => cell w i) ;;
  match c ≫= Cell.secretTimeoutRef with
  | Some id => clearTimeout id
  | None => ret tt
  end ;;
  match c ≫= Cell.inputTimeoutRef with
  | Some id => clearTimeout id
  | None => ret tt
  end.

Definition clear (i : nat) : M unit := setValue i [].

Definition handleBlur (i : nat) : M unit := setFocus i false.

(** [e.target.select()] only moves the text selection of the element, which
    no handler reads. *)
Definition handleFocus (i : nat) : M unit := setFocus i true.

(** [HTMLElement.focus()] on the [<input>] of item [i]: a disabled input
    and the input that has the focus already are left alone; otherwise the
    input that had the focus gets its blur event, then this one its focus
    event. *)
Definition input_focus (i : nat) : M unit :=
  active <- gets activeElement ;;
  if Props.disabled props || bool_decide (active = Some i) then ret tt
  else
    match active with
    | Some k => handleBlur k
    | None => ret tt
    end ;;
    modify (set_activeElement (Some i)) ;;
    handleFocus i.

(** [inputRef.current?.focus()]. *)
Definition focusInput (i : nat) : M unit :=
  c <- gets (fun w => cell w i) ;;
  match c with
  | Some c => if Cell.inputRef c then input_focus i else ret tt
  | None => ret tt
  end.

Definition update (i : nat) (updatedValue : jsvalue) (isPasting : bool)
  : M unit :=
  validated <- validateValue i updatedValue ;;
  value <- value i ;;
  if bool_decide (validated = value) && negb isPasting then ret tt
  else if length validated <? 2 then
    setValue i validated ;;
    id <- setTimeout (Notify i validated isPasting) 0 ;;
    modify (modify_cell i (Cell.set_inputTimeoutRef (Some id)))
  else ret tt.

Definition handleChange (i : nat) (targetValue : jsstring) : M unit :=
  update i (str targetValue) false.

Definition handleKeyDown (onBackspace : M unit) (i : nat) (keyCode : nat)
  : M unit :=
  value <- value i ;;
  if (keyCode =? 8) && bool_decide (value = []) then onBackspace
  else ret tt.

Definition handlePaste (onPaste : option (jsstring -> M unit)) (i : nat)
    (clipboardText : jsstring) : M unit :=
  match onPaste with
  | None => ret tt
  | Some onPaste => onPaste clipboardText
  end.

End Item.
End PinItem.

(** ** PinInput *)

Module PinInput.
Section Container.
Context `{Host}.
Variable props : Props.t.

(** [elementsRef.current[i]] as a handle: the index of the cell, when the
    slot holds one. *)
Definition element (i : nat) : M (option nat) :=
  gets (fun w => match cell w i with Some _ => Some i | None => None end).

(** [elementsRef.current.forEach(f)]: the length is read once, each slot
    when its turn comes. *)
Definition forEach_element (f : option nat -> nat -> M unit) : M unit :=
  n <- gets (fun w => length (elementsRef w)) ;;
  forEach (fun index => el <- element index ;; f el index) 0 n.

(** [elementsRef.current[i]?.focus()]. *)
Definition focus_element (i : nat) : M unit :=
  el <- element i ;;
  match el with
  | Some el => PinItem.focusInput props el
  | None => ret tt
  end.

(** The effect run after mount, and again when [focus] or [length]
    changes: the first slot is dereferenced as it is. *)
Definition focusOnMount : M unit :=
  if Props.focus props && negb (Props.length props =? 0) then
    el <- element 0 ;;
    match el with
    | Some el => PinItem.focusInput props el
    | None => throw TypeError
    end
  else ret tt.

Definition clear : M unit :=
  forEach_element (fun el _ =>
    match el with
    | Some el => PinItem.clear el
    | None => ret tt
    end) ;;
  modify (set_valuesRef (map (fun _ => []))) ;;
  focus_element 0.

Definition focusFirstInput : M unit :=
  if 0 <? Props.length props then focus_element 0 else ret tt.

Definition onItemChange (value : jsstring) (isPasting : bool) (index : nat)
  : M unit :=
  modify (set_valuesRef (array_set index value)) ;;
  let advance :=
    (length value =? 1) &&
    (Z.of_nat index <? Z.of_nat (Props.length props) - 1)%Z in
  let currentIndex := if advance then index + 1 else index in
  when advance (focus_element currentIndex) ;;
  pin <- gets (fun w => join (valuesRef w)) ;;
  when (negb isPasting) (modify (set_calls (.++ [OnChange pin currentIndex]))) ;;
  if length pin =? Props.length props then
    if isPasting && (Z.of_nat index <? Z.of_nat (Props.length props) - 1)%Z
    then ret tt
    else modify (set_calls (.++ [OnComplete pin currentIndex]))
  else ret tt.

Definition handleBackspace (index : nat) : M unit :=
  if 0 <? index then focus_element (index - 1) else ret tt.

Definition handlePaste (pastedValue : jsstring) : M unit :=
  if negb (length pastedValue =? Props.length props) then ret tt
  else
    forEach_element (fun el index =>
      match el with
      | Some el => PinItem.update props el (char_at pastedValue index) true
      | None => ret tt
      end).

(** [Array(length).fill("").map((_, i) => initialValue.toString()[i] || "")],
    for [initialValue] already a string. *)
Definition initial_values (initialValue : jsstring) : list jsstring :=
  (fun i => match initialValue !! i with
            | Some c => [c]
            | None => []
            end) <$> seq 0 (Props.length props).

(** The first render of every item, in order. *)
Fixpoint render_items (values : list jsstring) : Completion (list Cell.t) :=
  match values with
  | [] => Normal []
  | val :: values' =>
      match PinItem.initialState props val with
      | Normal c =>
          match render_items values' with
          | Normal cs => Normal (c :: cs)
          | Throw e => Throw e
          end
      | Throw e => Throw e
      end
  end.

(** Mounting at time [clock]: the items are rendered from the initial
    values, their handles stored, and the focus effect runs. *)
Definition mount (initialValue : jsstring) (clock : nat) : Completion World :=
  let values := initial_values initialValue in
  match render_items values with
  | Normal cs =>
      match focusOnMount {| valuesRef := values; elementsRef := Some <$> cs;
                            activeElement := None; now := clock;
                            nextTimer := 1%positive; timers := [];
                            calls := [] |} with
      | (w, Normal _) => Normal w
      | (_, Throw e) => Throw e
      end
  | Throw e => Throw e
  end.

(** Item [i] leaves the tree: its cleanup runs, the document loses the
    focus if the item had it, and React calls the ref callback of the
    render with [null], that is [elementsRef.current[i] = null]. *)
Definition unmount_item (i : nat) : M unit :=
  PinItem.cleanup i ;;
  active <- gets activeElement ;;
  when (bool_decide (active = Some i)) (modify (set_activeElement None)) ;;
  modify (set_elementsRef (<[i:=None]>)).

(** The handlers the render gives to item [i]. *)
Definition onBackspace (i : nat) : M unit := handleBackspace i.

Definition onPaste (i : nat) : option (jsstring -> M unit) :=
  if i =? 0 then Some handlePaste else None.

(** ** The event loop *)

(** The events a user raises on the row, and the handler React runs for
    each. A disabled [<input>] raises none of them. *)
Variant Event :=
  | Change (i : nat) (targetValue : jsstring)
  | KeyDown (i : nat) (keyCode : nat)
  | Paste (i : nat) (clipboardText : jsstring)
  | Focus (i : nat)
  | Blur (i : nat).

Definition dispatch (e : Event) : M unit :=
  match e with
  | Change i v => PinItem.handleChange props i v
  | KeyDown i k => PinItem.handleKeyDown (onBackspace i) i k
  | Paste i text => PinItem.handlePaste (onPaste i) i text
  | Focus i => PinItem.input_focus props i
  | Blur i =>
      active <- gets activeElement ;;
      if bool_decide (active = Some i) then
        modify (set_activeElement None) ;; PinItem.handleBlur i
      else ret tt
  end.

(** A timer's callback. *)
Definition run_job (j : Job) : M unit :=
  match j with
  | HideSecret i masked => PinItem.setShowSecret i masked
  | Notify i validated isPasting => onItemChange validated isPasting i
  end.

(** The pending timer that is due first; of two due together, the one
    created first. *)
Fixpoint earliest (ts : list Timer) : option Timer :=
  match ts with
  | [] => None
  | t :: ts' =>
      match earliest ts' with
      | Some t' => if due t' <? due t then Some t' else Some t
      | None => Some t
      end
  end.

(** One turn of the timer loop up to time [limit]: the earliest timer due
    by then is taken off the queue and run at its time. *)
Definition turn (limit : nat) (w : World) : option World :=
  match earliest (timers w) with
  | Some t =>
      if due t <=? limit then
        let w1 := set_timers (filter (fun t' => tid t' <> tid t)) w in
        let w2 := set_now (now w1 `max` due t) w1 in
        Some (fst (run_job (job t) w2))
      else None
  | None => None
  end.

Fixpoint turns (fuel : nat) (limit : nat) (w : World) : World :=
  match fuel with
  | O => w
  | S fuel' =>
      match turn limit w with
      | Some w' => turns fuel' limit w'
      | None => w
      end
  end.

(** No timer is due by [limit]. *)
Definition idle (limit : nat) (w : World) : Prop := turn limit w = None.

(** Every timer due at the current time runs; no callback starts a timer,
    so one turn per pending timer is enough. *)
Definition settle (w : World) : World :=
  turns (length (timers w)) (now w) w.

(** [ms] milliseconds pass. *)
Definition elapse (ms : nat) (w : World) : World :=
  let limit := now w + ms in
  set_now limit (turns (length (timers w)) limit w).

End Container.
End PinInput.

(** * Properties *)

(** ** Observations *)

(** The character cell [i] shows, and whether it is masked. *)
Definition value_of (w : World) (i : nat) : option jsstring :=
  Cell.value <$> cell w i.

Definition masked (w : World) (i : nat) : option bool :=
  Cell.showSecret <$> cell w i.

(** The cell behind slot [i] is in the tree. *)
Definition mounted (w : World) (i : nat) : bool :=
  match cell w i with
  | Some c => Cell.inputRef c
  | None => false
  end.

Definition is_notify (t : Timer) : bool :=
  match job t with
  | Notify _ _ _ => true
  | HideSecret _ _ => false
  end.

Definition currentIndex_of (c : Call) : nat :=
  match c with
  | OnChange _ k | OnComplete _ k => k
  end.

Definition single_digit (s : jsstring) : Prop :=
  exists c, s = [c] /\ (48 <= c <= 57)%Z.

(** One character as a string: one code unit, or the two surrogates of a
    character beyond U+FFFF. *)
Definition surrogate_pair (s : jsstring) : Prop :=
  exists hi lo, s = [hi; lo] /\
    (55296 <= hi <= 56319)%Z /\ (56320 <= lo <= 57343)%Z.

Definition one_character (s : jsstring) : Prop :=
  (exists c, s = [c]) \/ surrogate_pair s.

Definition at_most_one_character (s : jsstring) : Prop :=
  s = [] \/ one_character s.

(** The world once cell [i] has adopted [v] in [update]: the state is
    set, the notification is queued with no delay and its timer kept in
    [inputTimeoutRef]. *)
Definition commit (i : nat) (v : jsstring) (isPasting : bool) (w : World)
  : World :=
  {| valuesRef := valuesRef w;
     elementsRef :=
       alter (fmap (fun c =>
         Cell.set_inputTimeoutRef (Some (nextTimer w))
           (Cell.setState (Cell.set_value v) c))) i (elementsRef w);
     activeElement := activeElement w;
     now := now w;
     nextTimer := Pos.succ (nextTimer w);
     timers := timers w ++ [{| tid := nextTimer w; due := now w + 0;
                               job := Notify i v isPasting |}];
     calls := calls w |}.

(** The world once the [<input>] of cell [i] has taken the focus. *)
Definition focused (i : nat) (w : World) : World :=
  modify_cell i (Cell.setState (Cell.set_focus true))
    (set_activeElement (Some i)
       match activeElement w with
       | Some k => modify_cell k (Cell.setState (Cell.set_focus false)) w
       | None => w
       end).

(** A world with the focus forgotten: what it shares with another world
    is everything but where the focus is. *)
Definition blur_all (w : World) : World :=
  set_activeElement None
    (set_elementsRef (map (fmap (Cell.set_focus false))) w).

(** What a cell makes of one pasted or typed code unit. *)
Definition validated `{Host} (props : Props.t) (c : Z) : jsstring :=
  match PinItem.validation props (str [c]) with
  | Normal v => v
  | Throw _ => []
  end.

(** The pending hide of cell [i], the one [setSecretDelayed] drops. *)
Definition pending_hide (w : World) (i : nat) : option positive :=
  cell w i ≫= Cell.secretTimeoutRef.

Definition drop_timer (id : option positive) (ts : list Timer) : list Timer :=
  match id with
  | Some id => filter (fun t => tid t <> id) ts
  | None => ts
  end.

(** Every slot of [elementsRef] holds a cell that is in the tree. *)
Definition all_mounted (w : World) : bool :=
  forallb (fun el => match el with
                     | Some c => Cell.inputRef c
                     | None => false
                     end) (elementsRef w).

(** Nothing of an earlier keystroke is still to be delivered: no
    notification is pending, and the timer ids in the queue and in the
    cells' [secretTimeoutRef] are distinct and were all handed out
    already. *)
Definition quiet (w : World) : bool :=
  forallb (fun t => negb (is_notify t) && (tid t <? nextTimer w)%positive)
    (timers w)
  && bool_decide (NoDup (tid <$> timers w))
  && forallb (fun el => match el ≫= Cell.secretTimeoutRef with
                        | Some id => (id <? nextTimer w)%positive
                        | None => true
                        end) (elementsRef w).

(** The notifications a paste queues, cell by cell. *)
Definition notify_jobs (vs : list jsstring) : list Job :=
  imap (fun j v => Notify j v true) vs.

(** The state of a paste cascade that has delivered the notifications of
    the first [k] cells: [vs] are the validated characters, [V0] and
    [calls0] the Code array and the log the paste started from. *)
Definition delivering (vs V0 : list jsstring) (calls0 : list Call)
    (k : nat) (w : World) : Prop :=
  k <= length vs /\
  valuesRef w = take k vs ++ drop k V0 /\
  calls w = calls0 ++ (if decide (k = length vs)
                       then [OnComplete (join vs) (length vs - 1)]
                       else []) /\
  NoDup (tid <$> timers w) /\
  job <$> filter (fun t => is_notify t = true) (timers w)
  = drop k (notify_jobs vs) /\
  Forall (fun t => is_notify t = true -> due t = now w) (timers w).

(** The state of [handlePaste] that has updated the first [lo] cells of
    the world [w0] it was called in: their notifications are queued in
    cell order under fresh timer ids, due at once; nothing is written to
    the Code array or called back yet. *)
Definition distributing (w0 : World) (vs : list jsstring) (lo : nat)
    (w : World) : Prop :=
  valuesRef w = valuesRef w0 /\ calls w = calls w0 /\ now w = now w0 /\
  length (elementsRef w) = length (elementsRef w0) /\
  (nextTimer w0 <= nextTimer w)%positive /\
  Forall (fun t => (tid t < nextTimer w)%positive) (timers w) /\
  NoDup (tid <$> timers w) /\
  Forall (fun t => is_notify t = true ->
                   (nextTimer w0 <= tid t)%positive /\ due t = now w0)
    (timers w) /\
  job <$> filter (fun t => is_notify t = true) (timers w)
  = take lo (notify_jobs vs) /\
  (forall j id, lo <= j -> pending_hide w j = Some id ->
                (id < nextTimer w0)%positive) /\
  (forall j, j < lo -> value_of w j = vs !! j) /\
  (forall j, mounted w j = mounted w0 j).

(** The body of the loop of [handlePaste]. *)
Definition paste_cell `{Host} (props : Props.t) (pastedValue : jsstring)
    (index : nat) : M unit :=
  el <- PinInput.element index ;;
  match el with
  | Some el => PinItem.update props el (char_at pastedValue index) true
  | None => ret tt
  end.

(** ** Invariants and views *)

Definition upper_or_digit (c : Z) : bool := is_upper c || is_digit c.

(** No slot of the Code array, no cell and no pending notification holds
    more than one code unit. *)
Definition row_short (w : World) : Prop :=
  Forall (fun s => length s <= 1) (valuesRef w) /\
  Forall (fun el => match el with
                    | Some c => length (Cell.value c) <= 1
                    | None => True
                    end) (elementsRef w) /\
  Forall (fun t => match job t with
                   | Notify _ v _ => length v <= 1
                   | HideSecret _ _ => True
                   end) (timers w).

(** The callbacks of the timers [js] run one after another. *)
Definition run_all (props : Props.t) (js : list Job) (w : World) : World :=
  foldl (fun w j => fst (PinInput.run_job props j w)) w js.

(** The notifications that wait in the queue, oldest first. *)
Definition pending_notifications (w : World) : list Job :=
  job <$> filter (fun t => is_notify t = true) (timers w).

(** A world with the masks, the timer queue and the clock forgotten. *)
Definition unmasked (w : World) : World :=
  set_now 0
    (set_timers (fun _ => [])
       (set_elementsRef (map (fmap (Cell.set_showSecret false))) w)).

Definition is_notification (j : Job) : bool :=
  match j with
  | Notify _ _ _ => true
  | HideSecret _ _ => false
  end.

(** What a timer's callback writes to the Code array. *)
Definition write_slot (V : list jsstring) (j : Job) : list jsstring :=
  match j with
  | Notify i v _ => array_set i v V
  | HideSecret _ _ => V
  end.

(** The Code array once the notifications that wait have been
    delivered. *)
Definition eventual_values (w : World) : list jsstring :=
  foldl write_slot (valuesRef w) (pending_notifications w).

(** The timer ids the cells remember were all handed out already. *)
Definition refs_fresh (w : World) : Prop :=
  forall j id, pending_hide w j = Some id -> (id < nextTimer w)%positive.

(** Every hide that waits in the queue is the one its cell remembers in
    [secretTimeoutRef]; timer ids are distinct and were handed out
    already. *)
Definition hides_tracked (w : World) : Prop :=
  NoDup (tid <$> timers w) /\
  Forall (fun t => (tid t < nextTimer w)%positive) (timers w) /\
  forall t i b, t ∈ timers w -> job t = HideSecret i b ->
                pending_hide w i = Some (tid t).

(** The cell an event comes from. *)
Definition event_cell (e : PinInput.Event) : nat :=
  match e with
  | PinInput.Change i _ | PinInput.KeyDown i _ | PinInput.Paste i _
  | PinInput.Focus i | PinInput.Blur i => i
  end.

(** The reveal of cell [i] that the hide [t0] will end: the cell is in
    the tree and remembers [t0]; either [t0] still waits and the cell is
    unmasked, or [t0] has run and the cell is masked as [t0] decided. *)
Definition revealing (i : nat) (t0 : Timer) (hide : bool) (w : World)
  : Prop :=
  hides_tracked w /\ mounted w i = true /\
  pending_hide w i = Some (tid t0) /\
  ((t0 ∈ timers w /\ masked w i = Some false) \/
   ((forall t, t ∈ timers w -> tid t <> tid t0) /\
    masked w i = Some hide)).

(** The state a cell is rendered with first. *)
Definition initial_cell (props : Props.t) (v : jsstring) : Cell.t :=
  {| Cell.value := v; Cell.showSecret := Props.secret props;
     Cell.focus := false; Cell.secretTimeoutRef := None;
     Cell.inputTimeoutRef := None; Cell.inputRef := true |}.

(** Two worlds mask the same cells, and the second has no hide waiting. *)
Definition masks_kept (w w' : World) : Prop :=
  (forall j, masked w' j = masked w j) /\
  Forall (fun t => is_notify t = true) (timers w').

(** A notification that is on its way: it is due at once, its cell is one
    of the row, and no cell takes its timer for a pending hide. *)
Definition in_flight (w : World) (t : Timer) : Prop :=
  match job t with
  | Notify i _ _ =>
      due t = now w /\ i < length (valuesRef w) /\
      forall k, pending_hide w k <> Some (tid t)
  | HideSecret _ _ => True
  end.

(** The Code array mirrors the cells: every slot has its cell in the
    tree, and what the cell shows is what its slot will hold once the
    notifications that are pending have been delivered. The timer ids
    are distinct and were all handed out already. *)
Definition mirrored (w : World) : Prop :=
  length (elementsRef w) = length (valuesRef w) /\
  (forall i, i < length (valuesRef w) -> mounted w i = true) /\
  NoDup (tid <$> timers w) /\
  Forall (fun t => (tid t < nextTimer w)%positive) (timers w) /\
  refs_fresh w /\
  Forall (in_flight w) (timers w) /\
  (forall i, i < length (valuesRef w) ->
             value_of w i = eventual_values w !! i).

(** A cell's [focus] state is set only for the cell that has the focus of
    the document, and that cell is in the tree. *)
Definition focus_tracked (w : World) : Prop :=
  forall k c, cell w k = Some c -> Cell.focus c = true ->
              activeElement w = Some k /\ Cell.inputRef c = true.

(** What the focus invariant reads of a cell. *)
Definition focus_view (c : Cell.t) : bool * bool :=
  (Cell.focus c, Cell.inputRef c).


(** ** Sample rows *)

(** A host for the samples, which stay within ASCII. *)
Definition ascii_host : Host := {| unicodeUpper s := s |}.

Definition empty_cell (secret : bool) : Cell.t :=
  {| Cell.value := []; Cell.showSecret := secret; Cell.focus := false;
     Cell.secretTimeoutRef := None; Cell.inputTimeoutRef := None;
     Cell.inputRef := true |}.

Definition cell_with (v : jsstring) : Cell.t :=
  {| Cell.value := v; Cell.showSecret := false; Cell.focus := false;
     Cell.secretTimeoutRef := None; Cell.inputTimeoutRef := None;
     Cell.inputRef := true |}.

(** A row of [n] empty cells just mounted, nothing pending. *)
Definition row (n : nat) (secret : bool) : World :=
  {| valuesRef := replicate n [];
     elementsRef := replicate n (Some (empty_cell secret));
     activeElement := None; now := 0; nextTimer := 1%positive;
     timers := []; calls := [] |}.

(** A row of four cells holding the pin 1234, the focus on the last. *)
Definition row_1234 : World :=
  {| valuesRef := [js "1"; js "2"; js "3"; js "4"];
     elementsRef := [Some (cell_with (js "1")); Some (cell_with (js "2"));
                     Some (cell_with (js "3"));
                     Some (Cell.set_focus true (cell_with (js "4")))];
     activeElement := Some 3; now := 0; nextTimer := 1%positive;
     timers := []; calls := [] |}.

(** A row whose cells have all left the tree: every handle is reset. *)
Definition row_unmounted (n : nat) : World :=
  {| valuesRef := replicate n [];
     elementsRef := replicate n None;
     activeElement := None; now := 0; nextTimer := 1%positive;
     timers := []; calls := [] |}.

Definition numeric_props (n : nat) : Props.t :=
  {| Props.length := n; Props.type := numeric; Props.validate := None;
     Props.secret := false; Props.secretDelay := 0;
     Props.disabled := false; Props.focus := false;
     Props.autoSelect := true;
     Props.regexCriteria := Some default_regexCriteria |}.

Definition regex_props (n : nat) : Props.t :=
  {| Props.length := n; Props.type := other; Props.validate := None;
     Props.secret := false; Props.secretDelay := 0;
     Props.disabled := false; Props.focus := false;
     Props.autoSelect := true;
     Props.regexCriteria := Some default_regexCriteria |}.

(** Numeric, masked, with half a second of reveal. *)
Definition secret_props (n : nat) : Props.t :=
  {| Props.length := n; Props.type := numeric; Props.validate := None;
     Props.secret := true; Props.secretDelay := 500;
     Props.disabled := false; Props.focus := false;
     Props.autoSelect := true;
     Props.regexCriteria := Some default_regexCriteria |}.

(** Numeric and masked, no reveal. *)
Definition masked_props (n : nat) : Props.t :=
  {| Props.length := n; Props.type := numeric; Props.validate := None;
     Props.secret := true; Props.secretDelay := 0;
     Props.disabled := false; Props.focus := false;
     Props.autoSelect := true;
     Props.regexCriteria := Some default_regexCriteria |}.

(** A custom validator that answers two characters whatever it gets. *)
Definition doubling_props (n : nat) : Props.t :=
  {| Props.length := n; Props.type := numeric;
     Props.validate := Some (fun _ => js "AB");
     Props.secret := false; Props.secretDelay := 0;
     Props.disabled := false; Props.focus := false;
     Props.autoSelect := true;
     Props.regexCriteria := Some default_regexCriteria |}.

(** Numeric, with the focus asked for on mount. *)
Definition autofocus_props (n : nat) : Props.t :=
  {| Props.length := n; Props.type := numeric; Props.validate := None;
     Props.secret := false; Props.secretDelay := 0;
     Props.disabled := false; Props.focus := true;
     Props.autoSelect := true;
     Props.regexCriteria := Some default_regexCriteria |}.

(** ** The cells of a world *)

Lemma cell_modify_cell w i j f :
  cell (modify_cell i f w) j
  = if decide (i = j) then f <$> cell w i else cell w j.
Proof.
  unfold cell, modify_cell; cbn.
  rewrite list_lookup_alter. destruct (decide (i = j)) as [->|]; [|done].
  by destruct (elementsRef w !! j) as [[c|]|].
Qed.

Lemma cell_Some_lookup w i c :
  cell w i = Some c <-> elementsRef w !! i = Some (Some c).
Proof.
  unfold cell. destruct (elementsRef w !! i) as [[c'|]|]; naive_solver.
Qed.

Lemma mounted_cell w i :
  mounted w i = true -> exists c, cell w i = Some c /\ Cell.inputRef c = true.
Proof. unfold mounted. destruct (cell w i); naive_solver. Qed.

(** ** Validation *)

Section Validation.
Context `{Host}.
Variable props : Props.t.

Lemma validateValue_snd i raw w :
  snd (PinItem.validateValue props i raw w) = PinItem.validation props raw.
Proof.
  unfold PinItem.validateValue, PinItem.setSecretDelayed, bind, when, complete.
  destruct (negb _); cbn; [|done].
  by destruct (_ ≫= _).
Qed.

(** [setSecretDelayed] spelled out on the world. *)
Lemma setSecretDelayed_run i val w :
  PinItem.setSecretDelayed props i val w =
  ({| valuesRef := valuesRef w;
      elementsRef :=
        alter (fmap (fun c =>
          Cell.set_secretTimeoutRef (Some (nextTimer w))
            (Cell.setState (Cell.set_showSecret false) c))) i (elementsRef w);
      activeElement := activeElement w;
      now := now w;
      nextTimer := Pos.succ (nextTimer w);
      timers := drop_timer (pending_hide w i) (timers w)
                ++ [{| tid := nextTimer w;
                       due := now w + Props.secretDelay props;
                       job := HideSecret i (Boolean val) |}];
      calls := calls w |}, Normal tt).
Proof.
  unfold PinItem.setSecretDelayed, PinItem.setShowSecret, bind, gets, modify,
    setTimeout, clearTimeout, ret, pending_hide.
  rewrite cell_modify_cell, decide_True by done.
  assert (Hp : (Cell.setState (Cell.set_showSecret false) <$> cell w i)
               ≫= Cell.secretTimeoutRef = cell w i ≫= Cell.secretTimeoutRef).
  { destruct (cell w i) as [c|]; [|done]. cbn. unfold Cell.setState.
    by destruct (Cell.inputRef c). }
  rewrite Hp.
  destruct (cell w i ≫= Cell.secretTimeoutRef) as [id|]; cbn;
    unfold modify_cell, set_elementsRef; cbn;
    rewrite list_alter_alter_eq; f_equal; f_equal;
    apply list_alter_ext; [|done| |done]; intros [c|] _; done.
Qed.

Lemma validateValue_fst i raw w :
  fst (PinItem.validateValue props i raw w)
  = if Props.secretDelay props =? 0 then w
    else fst (PinItem.setSecretDelayed props i raw w).
Proof.
  unfold PinItem.validateValue, bind, when, complete.
  destruct (Props.secretDelay props =? 0); cbn [negb]; [done|].
  by rewrite setSecretDelayed_run.
Qed.

(** Validation leaves every cell's character, and which cells are in the
    tree, as they were. *)
Lemma validateValue_cell i raw w j :
  exists g,
    cell (fst (PinItem.validateValue props i raw w)) j = g <$> cell w j /\
    (forall c, Cell.value (g c) = Cell.value c) /\
    (forall c, Cell.inputRef (g c) = Cell.inputRef c) /\
    (forall c, Cell.focus (g c) = Cell.focus c).
Proof.
  rewrite validateValue_fst.
  destruct (Props.secretDelay props =? 0).
  { exists id. by rewrite option_fmap_id. }
  rewrite setSecretDelayed_run; cbn.
  change (cell ?w j) with
    (match elementsRef w !! j with Some (Some c) => Some c | _ => None end).
  cbn. rewrite list_lookup_alter.
  destruct (decide (i = j)) as [->|].
  - exists (fun c => Cell.set_secretTimeoutRef (Some (nextTimer w))
                 (Cell.setState (Cell.set_showSecret false) c)).
    split; [by destruct (elementsRef w !! j) as [[c|]|]|].
    unfold Cell.setState.
    split_and!; intros [? ? ? ? ? []]; reflexivity.
  - exists id. by rewrite option_fmap_id.
Qed.

Lemma validateValue_value_of i raw w j :
  value_of (fst (PinItem.validateValue props i raw w)) j = value_of w j.
Proof.
  unfold value_of.
  destruct (validateValue_cell i raw w j) as (g & -> & Hg & _).
  destruct (cell w j); cbn; by rewrite ?Hg.
Qed.

Lemma validateValue_mounted i raw w j :
  mounted (fst (PinItem.validateValue props i raw w)) j = mounted w j.
Proof.
  unfold mounted.
  destruct (validateValue_cell i raw w j) as (g & -> & _ & Hg & _).
  destruct (cell w j); cbn; by rewrite ?Hg.
Qed.

Lemma validateValue_frame i raw w :
  let w1 := fst (PinItem.validateValue props i raw w) in
  valuesRef w1 = valuesRef w /\ calls w1 = calls w /\
  activeElement w1 = activeElement w /\ now w1 = now w /\
  length (elementsRef w1) = length (elementsRef w).
Proof.
  cbn. rewrite validateValue_fst.
  destruct (Props.secretDelay props =? 0); [done|].
  rewrite setSecretDelayed_run; cbn. by rewrite length_alter.
Qed.

(** [update] spelled out: validation, then either nothing or [commit]. *)
Lemma update_run i raw isPasting w :
  PinItem.update props i raw isPasting w =
  let w1 := fst (PinItem.validateValue props i raw w) in
  match PinItem.validation props raw with
  | Throw e => (w1, Throw e)
  | Normal v =>
      if bool_decide (v = default [] (value_of w1 i)) && negb isPasting
      then (w1, Normal tt)
      else if length v <? 2 then (commit i v isPasting w1, Normal tt)
      else (w1, Normal tt)
  end.
Proof.
  unfold PinItem.update, bind at 1.
  rewrite (surjective_pairing (PinItem.validateValue props i raw w)).
  rewrite validateValue_snd. cbn zeta.
  destruct (PinItem.validation props raw) as [v|e]; [|done].
  unfold bind, PinItem.value, gets, value_of.
  destruct (_ && _); [done|].
  destruct (length v <? 2); [|done].
  unfold PinItem.setValue, setTimeout, modify, ret, commit, modify_cell,
    set_elementsRef; cbn.
  rewrite list_alter_alter_eq. f_equal. f_equal.
  apply list_alter_ext; [|done]. by intros [c|] _.
Qed.

Lemma commit_value_of i v b w :
  mounted w i = true -> value_of (commit i v b w) i = Some v.
Proof.
  intros (c & Hc & Hm)%mounted_cell. unfold value_of, cell, commit; cbn.
  rewrite list_lookup_alter_eq.
  apply cell_Some_lookup in Hc as ->. cbn. unfold Cell.setState.
  by rewrite Hm.
Qed.

Lemma update_value_of i raw b w v :
  mounted w i = true ->
  PinItem.validation props raw = Normal v ->
  length v < 2 ->
  value_of (fst (PinItem.update props i raw b w)) i = Some v.
Proof.
  intros Hm Hv Hlen. rewrite update_run, Hv. cbn zeta.
  pose proof (validateValue_value_of i raw w i) as Hval.
  pose proof (validateValue_mounted i raw w i) as Hmo.
  rewrite Hm in Hmo.
  destruct (bool_decide _ && _) eqn:E.
  - apply andb_true_iff in E as [E _]. apply bool_decide_eq_true in E.
    destruct (mounted_cell _ _ Hm) as (c & Hc & _).
    cbn [fst]. rewrite Hval in *. unfold value_of in *. rewrite Hc in *.
    cbn in *. by subst.
  - apply Nat.ltb_lt in Hlen as ->. cbn [fst]. by apply commit_value_of.
Qed.

Lemma handleChange_rejected i raw w :
  mounted w i = true ->
  PinItem.validation props (str raw) = Normal [] ->
  value_of (fst (PinItem.handleChange props i raw w)) i = Some [].
Proof.
  intros Hm Hv. unfold PinItem.handleChange.
  apply update_value_of; [done|done|cbn; lia].
Qed.

Lemma single_digit_dec raw :
  at_most_one_character raw ->
  single_digit raw \/
  (~ single_digit raw /\
   (raw = [] \/ (exists c, raw = [c] /\ is_digit c = false) \/
    surrogate_pair raw)).
Proof.
  intros [->|[[c ->]|Hpair]].
  - right. split; [intros (c & ? & _); done|by left].
  - destruct (is_digit c) eqn:E.
    + left. exists c. split; [done|]. unfold is_digit in E. lia.
    + right. split; [|right; left; by exists c].
      intros (c' & [= <-] & Hc). unfold is_digit in E. lia.
  - right. split; [|by right; right].
    destruct Hpair as (hi & lo & -> & _). by intros (c & ? & _).
Qed.

(** C2. In numeric mode with no custom validator, [validateValue] on a raw
    input of at most one character returns the input itself when it is a
    single code unit in 0x30-0x39 and the empty string otherwise. So the
    result is non-empty exactly for a digit; it is the input again exactly
    for a digit and for the empty input, where the two answers are one;
    and a keystroke that is not a digit leaves the cell empty. *)
Theorem numeric_validateValue_digits_only i (raw : jsstring) w :
  Props.validate props = None ->
  Props.type props = numeric ->
  at_most_one_character raw ->
  let returned := snd (PinItem.validateValue props i (str raw) w) in
  (single_digit raw -> returned = Normal raw) /\
  (~ single_digit raw -> returned = Normal []) /\
  (returned <> Normal [] <-> single_digit raw) /\
  (returned = Normal raw <-> single_digit raw \/ raw = []) /\
  (~ single_digit raw -> mounted w i = true ->
   value_of (fst (PinItem.handleChange props i raw w)) i = Some []).
Proof.
  intros Hval Hty Hone. cbn zeta. rewrite validateValue_snd.
  assert (Hv : PinItem.validation props (str raw)
               = Normal (match raw with
                         | c :: _ => if is_digit c then raw else []
                         | [] => []
                         end)).
  { unfold PinItem.validation. rewrite Hval, Hty. by destruct raw. }
  destruct (single_digit_dec raw Hone)
    as [Hd|[Hnd [->|[(c & -> & Hc)|(hi & lo & -> & Hhi & _)]]]].
  - destruct Hd as (c & -> & Hc).
    assert (is_digit c = true) as Hdc by (unfold is_digit; lia).
    rewrite Hv, Hdc. split_and!; [done|by intros []; exists c| | |].
    + split; [by exists c|done].
    + split; [left; by exists c|done].
    + intros []. by exists c.
  - rewrite Hv. split_and!; [by intros (c & ? & _)|done| | |].
    + split; [done|by intros (c & ? & _)].
    + split; [by right|done].
    + intros _ Hm. by apply handleChange_rejected.
  - rewrite Hv, Hc. split_and!; [done|done| | |].
    + split; [done|by intros ?].
    + split; [done|by intros [?|?]].
    + intros _ Hm. apply handleChange_rejected; [done|]. by rewrite Hv, Hc.
  - assert (is_digit hi = false) as Hc by (unfold is_digit; lia).
    rewrite Hv, Hc. split_and!; [done|done| | |].
    + split; [done|by intros ?].
    + split; [done|by intros [?|?]].
    + intros _ Hm. apply handleChange_rejected; [done|]. by rewrite Hv, Hc.
Qed.

Lemma toUpperCase_alnum c :
  is_alnum c = true -> toUpperCase [c] = [ascii_upper c].
Proof.
  intros Hc. unfold toUpperCase. cbn.
  replace (is_ascii c) with true; [done|].
  unfold is_alnum, is_lower, is_upper, is_digit, is_ascii in *. lia.
Qed.

(** C3. In default regex mode (no custom validator, a type other than
    numeric, the default [/^[a-zA-Z0-9]+$/]), [validateValue] on a single
    character returns it in upper case when it is alphanumeric, that is a
    code unit [c] among a-z, A-Z and 0-9: a lower-case letter moved down
    by 32, a capital or a digit as it is; for any other character it
    returns the empty string and the cell that received the keystroke ends
    up empty. *)
Theorem default_regex_validateValue_uppercases i (raw : jsstring) w :
  Props.validate props = None ->
  Props.type props = other ->
  Props.regexCriteria props = Some default_regexCriteria ->
  one_character raw ->
  let returned := snd (PinItem.validateValue props i (str raw) w) in
  (forall c, raw = [c] -> is_alnum c = true ->
   returned = Normal (toUpperCase raw) /\
   toUpperCase raw = [if is_lower c then (c - 32)%Z else c]) /\
  ((forall c, raw = [c] -> is_alnum c = false) ->
   returned = Normal [] /\
   (mounted w i = true ->
    value_of (fst (PinItem.handleChange props i raw w)) i = Some [])).
Proof.
  intros Hval Hty Hre Hone. cbn zeta. rewrite validateValue_snd.
  assert (Hv : PinItem.validation props (str raw)
               = Normal (if forallb is_alnum raw then toUpperCase raw
                         else [])).
  { unfold PinItem.validation. rewrite Hval, Hty, Hre. cbn.
    destruct Hone as [[c ->]|(hi & lo & -> & _)];
      by destruct (forallb _ _). }
  split.
  - intros c -> Hc. rewrite Hv. cbn. rewrite Hc. cbn.
    split; [done|]. by rewrite toUpperCase_alnum.
  - intros Hnot.
    assert (forallb is_alnum raw = false) as Hno.
    { destruct Hone as [[c ->]|(hi & lo & -> & Hhi & _)].
      - cbn. by rewrite (Hnot c eq_refl).
      - cbn. replace (is_alnum hi) with false; [done|].
        unfold is_alnum, is_lower, is_upper, is_digit. lia. }
    rewrite Hv, Hno. split; [done|].
    intros Hm. apply handleChange_rejected; [done|]. by rewrite Hv, Hno.
Qed.

End Validation.

(** ** Focus *)

Section Focus.
Context `{Host}.
Variable props : Props.t.

Lemma blur_all_modify_focus i f w :
  (forall c, Cell.set_focus false (f c) = Cell.set_focus false c) ->
  blur_all (modify_cell i f w) = blur_all w.
Proof.
  intros Hf. unfold blur_all, modify_cell, set_activeElement, set_elementsRef.
  cbn. f_equal. apply list_eq; intros j.
  rewrite !list_lookup_fmap, list_lookup_alter.
  destruct (decide (i = j)) as [->|]; [|done].
  destruct (elementsRef w !! j) as [[c|]|]; cbn; by rewrite ?Hf.
Qed.

Lemma set_focus_setState b c :
  Cell.set_focus false (Cell.setState (Cell.set_focus b) c)
  = Cell.set_focus false c.
Proof. unfold Cell.setState. by destruct (Cell.inputRef c). Qed.

Lemma blur_all_focused i w : blur_all (focused i w) = blur_all w.
Proof.
  unfold focused.
  rewrite blur_all_modify_focus by apply set_focus_setState.
  destruct (activeElement w) as [k|] eqn:E.
  - transitivity (blur_all
      (modify_cell k (Cell.setState (Cell.set_focus false)) w)); [done|].
    apply blur_all_modify_focus, set_focus_setState.
  - done.
Qed.

Lemma blur_all_cell w w' j :
  blur_all w' = blur_all w ->
  Cell.set_focus false <$> cell w' j = Cell.set_focus false <$> cell w j.
Proof.
  intros E. apply (f_equal elementsRef) in E. cbn in E.
  apply (f_equal (.!! j)) in E. rewrite !list_lookup_fmap in E.
  unfold cell.
  destruct (elementsRef w' !! j) as [[c'|]|], (elementsRef w !! j) as [[c|]|];
    cbn in *; congruence.
Qed.

Lemma blur_all_proj {A} (proj : Cell.t -> A) w w' j :
  (forall c, proj (Cell.set_focus false c) = proj c) ->
  blur_all w' = blur_all w -> proj <$> cell w' j = proj <$> cell w j.
Proof.
  intros Hp E%(blur_all_cell _ _ j).
  destruct (cell w' j) as [c'|], (cell w j) as [c|]; cbn in *;
    congruence.
Qed.

Lemma blur_all_value_of w w' j :
  blur_all w' = blur_all w -> value_of w' j = value_of w j.
Proof. by apply blur_all_proj. Qed.

Lemma blur_all_mounted w w' j :
  blur_all w' = blur_all w -> mounted w' j = mounted w j.
Proof.
  intros E%(blur_all_proj Cell.inputRef _ _ j); [|done]. unfold mounted.
  destruct (cell w' j), (cell w j); cbn in *; congruence.
Qed.

Lemma blur_all_masked w w' j :
  blur_all w' = blur_all w -> masked w' j = masked w j.
Proof. by apply blur_all_proj. Qed.

Lemma blur_all_fields w w' :
  blur_all w' = blur_all w ->
  valuesRef w' = valuesRef w /\ calls w' = calls w /\
  timers w' = timers w /\ nextTimer w' = nextTimer w /\ now w' = now w /\
  length (elementsRef w') = length (elementsRef w).
Proof.
  intros E. split_and!;
    [exact (f_equal valuesRef E)|exact (f_equal calls E)
    |exact (f_equal timers E)|exact (f_equal nextTimer E)
    |exact (f_equal now E)|].
  apply (f_equal (fun w => length (elementsRef w))) in E. cbn in E.
  by rewrite !length_fmap in E.
Qed.

Lemma input_focus_run i w :
  PinItem.input_focus props i w =
  (if Props.disabled props || bool_decide (activeElement w = Some i)
   then w else focused i w, Normal tt).
Proof.
  unfold PinItem.input_focus, bind, gets.
  destruct (_ || _); [done|].
  unfold focused, PinItem.handleBlur, PinItem.handleFocus, PinItem.setFocus,
    modify, ret.
  by destruct (activeElement w).
Qed.

(** [elementsRef.current[k]?.focus()] never throws, and moves the focus
    when cell [k] is there, in the tree and enabled. *)
Lemma focus_element_run k w :
  PinInput.focus_element props k w =
  (if mounted w k && negb (Props.disabled props)
      && negb (bool_decide (activeElement w = Some k))
   then focused k w else w, Normal tt).
Proof.
  unfold PinInput.focus_element, PinInput.element, bind, gets, mounted.
  destruct (cell w k) as [c|] eqn:E; [|reflexivity].
  unfold PinItem.focusInput, bind, gets. rewrite E.
  destruct (Cell.inputRef c); [|reflexivity].
  rewrite input_focus_run.
  by destruct (Props.disabled props), (bool_decide _).
Qed.

Lemma focus_element_blur_all k w :
  blur_all (fst (PinInput.focus_element props k w)) = blur_all w.
Proof.
  rewrite focus_element_run. cbn. destruct (_ && _); [|done].
  apply blur_all_focused.
Qed.

Lemma focus_element_absent k w :
  mounted w k = false -> PinInput.focus_element props k w = (w, Normal tt).
Proof. intros Hk. by rewrite focus_element_run, Hk. Qed.

Lemma focus_element_active k w :
  mounted w k = true -> Props.disabled props = false ->
  let w' := fst (PinInput.focus_element props k w) in
  activeElement w' = Some k /\
  (activeElement w <> Some k -> Cell.focus <$> cell w' k = Some true).
Proof.
  intros Hm Hd. cbn zeta. rewrite focus_element_run, Hm, Hd. cbn.
  destruct (bool_decide_reflect (activeElement w = Some k)) as [E|E]; cbn.
  { done. }
  split; [done|]. intros _. unfold focused.
  rewrite cell_modify_cell, decide_True by done.
  apply mounted_cell in Hm as (c & Hc & Hi).
  assert (exists c', cell
    (set_activeElement (Some k)
       match activeElement w with
       | Some k0 => modify_cell k0 (Cell.setState (Cell.set_focus false)) w
       | None => w
       end) k = Some c' /\ Cell.inputRef c' = true) as (c' & -> & Hi').
  { change (cell (set_activeElement ?a ?w) k) with (cell w k).
    destruct (activeElement w) as [k0|]; [|by exists c].
    rewrite cell_modify_cell. destruct (decide (k0 = k)) as [->|].
    - rewrite Hc. eexists. split; [done|]. unfold Cell.setState.
      by rewrite Hi.
    - by exists c. }
  cbn. unfold Cell.setState. by rewrite Hi'.
Qed.

End Focus.

(** ** Change aggregation *)

Section Aggregation.
Context `{Host}.
Variable props : Props.t.

Lemma before_last index L :
  (Z.of_nat index <? Z.of_nat L - 1)%Z = (S index <? L).
Proof.
  destruct (Nat.ltb_spec (S index) L); [apply Z.ltb_lt|apply Z.ltb_ge]; lia.
Qed.

Lemma set_calls_app (new : list Call) w :
  calls (set_calls (.++ new) w) = calls w ++ new.
Proof. done. Qed.

(** [onItemChange] spelled out: the slot is written, the focus moves on
    after a single character short of the last cell, and the calls [new]
    are made. *)
Lemma onItemChange_run value (isPasting : bool) index w :
  let L := Props.length props in
  let advance := (length value =? 1) && (S index <? L) in
  let currentIndex := if advance then index + 1 else index in
  let w1 := set_valuesRef (array_set index value) w in
  let w2 :=
    if advance then fst (PinInput.focus_element props currentIndex w1)
    else w1 in
  let pin := join (array_set index value (valuesRef w)) in
  let new :=
    (if isPasting then [] else [OnChange pin currentIndex]) ++
    (if (length pin =? L) && negb (isPasting && (S index <? L))
     then [OnComplete pin currentIndex] else []) in
  PinInput.onItemChange props value isPasting index w
  = (set_calls (.++ new) w2, Normal tt).
Proof.
  cbn zeta. unfold PinInput.onItemChange.
  rewrite !before_last.
  set (advance := (length value =? 1) && (S index <? Props.length props)).
  set (w1 := set_valuesRef (array_set index value) w).
  unfold bind at 1. unfold modify at 1. fold w1.
  unfold bind at 1.
  assert (Hf : when advance
      (PinInput.focus_element props (if advance then index + 1 else index)) w1
    = (if advance
       then fst (PinInput.focus_element props
                   (if advance then index + 1 else index) w1)
       else w1, Normal tt)).
  { destruct advance; [|done]. cbn [when].
    by rewrite focus_element_run. }
  rewrite Hf. clear Hf.
  set (w2 := if advance then _ else w1).
  assert (Hv : valuesRef w2 = array_set index value (valuesRef w)).
  { subst w2. destruct advance; [|done].
    by destruct (blur_all_fields _ _
                   (focus_element_blur_all props (index + 1) w1))
      as (-> & _). }
  unfold bind, gets, when, modify, ret. rewrite Hv.
  set (pin := join _).
  destruct isPasting; cbn [negb andb app];
    destruct (length pin =? Props.length props); cbn [andb];
    try destruct (S index <? Props.length props); cbn [negb app];
    destruct w2; unfold set_calls; cbn; f_equal; f_equal;
    by rewrite ?app_nil_r, <- ?app_assoc.
Qed.

(** C4. A change notification from cell [i] that carries exactly one
    character: short of the last cell the focus goes to cell [i+1] (when
    that cell is in the tree and enabled) and every external callback of
    the event gets [i+1] as current index; from the last cell the focus
    and every cell stay as they are and the callbacks get [i]. Outside a
    paste the first of these calls is [onChange]. *)
Theorem onItemChange_single_char_advances value (isPasting : bool) i w :
  length value = 1 ->
  let L := Props.length props in
  let w' := fst (PinInput.onItemChange props value isPasting i w) in
  let pin := join (valuesRef w') in
  (S i < L ->
   (mounted w (S i) = true -> Props.disabled props = false ->
    activeElement w' = Some (S i)) /\
   exists new,
     calls w' = calls w ++ new /\
     Forall (fun c => currentIndex_of c = S i) new /\
     (isPasting = false -> head new = Some (OnChange pin (S i)))) /\
  (S i = L ->
   activeElement w' = activeElement w /\
   elementsRef w' = elementsRef w /\
   exists new,
     calls w' = calls w ++ new /\
     Forall (fun c => currentIndex_of c = i) new /\
     (isPasting = false -> head new = Some (OnChange pin i))).
Proof.
  intros Hlen. cbn zeta. rewrite onItemChange_run. cbn zeta. rewrite Hlen.
  cbn [Nat.eqb andb fst].
  split; intros Hi.
  - apply Nat.ltb_lt in Hi as Hb. rewrite Hb. cbn [andb].
    replace (i + 1) with (S i) by lia.
    set (w1 := set_valuesRef (array_set i value) w).
    pose proof (focus_element_blur_all props (S i) w1) as Hframe.
    destruct (blur_all_fields _ _ Hframe) as (Hv & Hc & _).
    unfold set_calls; cbn [activeElement valuesRef calls elementsRef].
    split.
    + intros Hm Hd.
      by destruct (focus_element_active props (S i) w1 Hm Hd) as [-> _].
    + eexists. split; [rewrite Hc; reflexivity|].
      rewrite Hv.
      split; [|by intros ->].
      destruct isPasting; destruct (_ =? _); cbn; repeat constructor.
  - assert ((S i <? Props.length props) = false) as Hb
      by (apply Nat.ltb_ge; lia).
    rewrite Hb. cbn [andb negb].
    unfold set_calls; cbn [activeElement valuesRef calls elementsRef].
    split_and!; [done|done|].
    eexists. split; [reflexivity|].
    split; [|by intros ->].
    destruct isPasting; destruct (_ =? _); cbn; repeat constructor.
Qed.

Lemma join_length_full (a : list jsstring) :
  Forall (fun s => length s <= 1) a ->
  Forall (fun s => s <> []) a ->
  length (join a) = length a.
Proof.
  unfold join. induction 1 as [|s a Hs _ IH]; [done|].
  intros [Hne Ha]%Forall_cons_1. cbn. rewrite length_app, IH by done.
  destruct s as [|? [|]]; cbn in *; [done|lia|lia].
Qed.

Lemma array_set_in_range i v (a : list jsstring) :
  i < length a -> array_set i v a = <[i:=v]> a.
Proof. intros Hi. unfold array_set. by rewrite decide_True. Qed.

(** C10. A change notification outside a paste after which every slot of
    the Code array is non-empty makes [onComplete] fire, right after
    [onChange] and with the same pin and current index. So a keystroke
    that overwrites one character of a pin that is complete already fires
    [onComplete] again. *)
Theorem onItemChange_fires_onComplete_when_full value i w :
  let L := Props.length props in
  length (valuesRef w) = L ->
  i < L ->
  Forall (fun s => length s <= 1) (valuesRef w) ->
  length value <= 1 ->
  let w' := fst (PinInput.onItemChange props value false i w) in
  let pin := join (valuesRef w') in
  let currentIndex := if S i <? L then S i else i in
  (Forall (fun s => s <> []) (valuesRef w') ->
   calls w' = calls w ++ [OnChange pin currentIndex;
                          OnComplete pin currentIndex]) /\
  (Forall (fun s => s <> []) (valuesRef w) -> value <> [] ->
   calls w' = calls w ++ [OnChange pin currentIndex;
                          OnComplete pin currentIndex]).
Proof.
  cbn zeta. intros HL Hi Hslots Hvalue.
  rewrite onItemChange_run. cbn zeta. cbn [fst negb andb].
  set (w1 := set_valuesRef (array_set i value) w).
  set (adv := (length value =? 1) && (S i <? Props.length props)).
  set (w2 := if adv then _ else w1).
  assert (Hframe : blur_all w2 = blur_all w1).
  { subst w2. destruct adv; [|done]. apply focus_element_blur_all. }
  destruct (blur_all_fields _ _ Hframe) as (Hv & Hc & _).
  unfold set_calls; cbn [valuesRef calls]. rewrite Hv, Hc.
  change (valuesRef w1) with (array_set i value (valuesRef w)).
  change (calls w1) with (calls w).
  rewrite array_set_in_range by lia. rewrite andb_true_r.
  assert (Hfull : Forall (fun s => s <> []) (<[i:=value]> (valuesRef w)) ->
    calls w ++ [OnChange (join (<[i:=value]> (valuesRef w)))
                  (if adv then i + 1 else i)] ++
      (if length (join (<[i:=value]> (valuesRef w))) =? Props.length props
       then [OnComplete (join (<[i:=value]> (valuesRef w)))
               (if adv then i + 1 else i)] else [])
    = calls w ++
      [OnChange (join (<[i:=value]> (valuesRef w)))
         (if S i <? Props.length props then S i else i);
       OnComplete (join (<[i:=value]> (valuesRef w)))
         (if S i <? Props.length props then S i else i)]).
  { intros Hne.
    assert (value <> []) as Hv1.
    { eapply (Forall_lookup_1 _ _ i) in Hne; [done|].
      apply list_lookup_insert_eq. lia. }
    assert (length value = 1) as Hv2
      by (destruct value as [|? [|]]; cbn in *; [done|lia|lia]).
    rewrite join_length_full, length_insert, HL, Nat.eqb_refl;
      [|by apply Forall_insert|done].
    subst adv. rewrite Hv2. cbn [Nat.eqb andb].
    destruct (S i <? Props.length props);
      by replace (i + 1) with (S i) by lia. }
  split; [exact Hfull|].
  intros Hne Hv1. apply Hfull. by apply Forall_insert.
Qed.

Lemma onItemChange_keeps_slots_short value isPasting index w :
  Forall (fun s => length s <= 1) (valuesRef w) ->
  length value <= 1 ->
  index < length (valuesRef w) ->
  let w' := fst (PinInput.onItemChange props value isPasting index w) in
  length (valuesRef w') = length (valuesRef w) /\
  Forall (fun s => length s <= 1) (valuesRef w').
Proof.
  intros Hslots Hvalue Hindex. cbn zeta. rewrite onItemChange_run.
  cbn zeta. cbn [fst]. unfold set_calls; cbn [valuesRef].
  set (w1 := set_valuesRef (array_set index value) w).
  assert (Hv : valuesRef (if (length value =? 1)
                             && (S index <? Props.length props)
                          then fst (PinInput.focus_element props
                                      (if (length value =? 1)
                                          && (S index <? Props.length props)
                                       then index + 1 else index) w1)
                          else w1)
               = <[index:=value]> (valuesRef w)).
  { transitivity (valuesRef w1);
      [|by apply array_set_in_range].
    destruct (_ && _); [|done].
    by destruct (blur_all_fields _ _
                   (focus_element_blur_all props (index + 1) w1))
      as (-> & _). }
  rewrite Hv, length_insert. split; [done|]. by apply Forall_insert.
Qed.

End Aggregation.

(** ** The timer loop *)

Section Loop.
Context `{Host}.
Variable props : Props.t.

Lemma run_job_timers j w :
  timers (fst (PinInput.run_job props j w)) = timers w /\
  now (fst (PinInput.run_job props j w)) = now w.
Proof.
  destruct j as [i b|i v b]; cbn [PinInput.run_job]; [done|].
  rewrite onItemChange_run. cbn zeta. cbn [fst].
  unfold set_calls; cbn [timers now].
  set (w1 := set_valuesRef (array_set i v) w).
  destruct (_ && _); [|done].
  by destruct (blur_all_fields _ _
                 (focus_element_blur_all props (i + 1) w1))
    as (_ & _ & -> & _ & -> & _).
Qed.

Lemma earliest_elem_of ts t : PinInput.earliest ts = Some t -> t ∈ ts.
Proof.
  revert t. induction ts as [|t0 ts IH]; intros t; [done|].
  cbn [PinInput.earliest].
  destruct (PinInput.earliest ts) as [t'|].
  - destruct (due t' <? due t0); intros [= <-]; [right; by apply IH|by left].
  - intros [= <-]. by left.
Qed.

(** A turn takes at least its timer off the queue and starts none. *)
Lemma turn_shrinks limit w w' :
  PinInput.turn props limit w = Some w' ->
  length (timers w') < length (timers w).
Proof.
  unfold PinInput.turn.
  destruct (PinInput.earliest (timers w)) as [t|] eqn:E; [|done].
  destruct (due t <=? limit); [|done]. intros [= <-].
  destruct (run_job_timers (job t)
    (set_now (now w `max` due t)
       (set_timers (filter (fun t' => tid t' <> tid t)) w))) as [-> _].
  cbn [timers set_now set_timers].
  apply (length_filter_lt _ _ t); [by apply earliest_elem_of|].
  by intros ?.
Qed.

(** The loop is total: with a turn of fuel per pending timer it stops with
    nothing due. *)
Lemma turns_idle fuel : forall limit w,
  length (timers w) <= fuel ->
  PinInput.idle props limit (PinInput.turns props fuel limit w).
Proof.
  unfold PinInput.idle.
  induction fuel as [|fuel IH]; intros limit w Hfuel; cbn [PinInput.turns].
  - unfold PinInput.turn. destruct (timers w); [done|cbn in Hfuel; lia].
  - destruct (PinInput.turn props limit w) as [w'|] eqn:Ht; [|done].
    apply IH. apply turn_shrinks in Ht. lia.
Qed.

Lemma settle_idle w :
  PinInput.idle props (now w) (PinInput.settle props w).
Proof. by apply turns_idle. Qed.

End Loop.

(** ** Backspace and paste *)

Section Routing.
Context `{Host}.
Variable props : Props.t.

(** C8. Backspace (key code 8) on an empty cell [i > 0] moves the focus to
    cell [i-1] (when that cell is in the tree and enabled) and changes no
    cell's value, nor the Code array, the timers or the callbacks' log;
    backspace on a non-empty cell, or on the first cell, leaves the whole
    world as it is: no focus move, no cell cleared. *)
Theorem backspace_routes_focus i c w :
  cell w i = Some c ->
  let w' :=
    fst (PinItem.handleKeyDown (PinInput.onBackspace props i) i 8 w) in
  (Cell.value c = [] -> 0 < i ->
   (mounted w (i - 1) = true -> Props.disabled props = false ->
    activeElement w' = Some (i - 1)) /\
   (forall j, value_of w' j = value_of w j) /\
   valuesRef w' = valuesRef w /\ calls w' = calls w /\
   timers w' = timers w) /\
  (Cell.value c <> [] \/ i = 0 -> w' = w).
Proof.
  intros Hc. cbn zeta.
  unfold PinItem.handleKeyDown, PinItem.value, bind, gets.
  rewrite Hc. cbn [fmap option_fmap option_map default Nat.eqb andb].
  unfold PinInput.onBackspace, PinInput.handleBackspace.
  split.
  - intros -> Hi. rewrite bool_decide_eq_true_2 by done.
    apply Nat.ltb_lt in Hi as ->.
    pose proof (focus_element_blur_all props (i - 1) w) as Hframe.
    destruct (blur_all_fields _ _ Hframe) as (Hv & Hcs & Ht & _).
    split_and!; [|intros j; by apply blur_all_value_of|done..].
    intros Hm Hd.
    by destruct (focus_element_active props (i - 1) w Hm Hd) as [-> _].
  - intros [Hne| ->].
    + by rewrite bool_decide_eq_false_2.
    + by destruct (bool_decide _).
Qed.

(** C5. A pasted string whose length is not the configured length changes
    nothing: [handlePaste] returns the world it got, whether it is called
    directly or through the paste event of the first cell, so no cell is
    updated, no slot of the Code array is written, no timer is started and
    no callback is called. *)
Theorem handlePaste_wrong_length_noop pastedValue w :
  length pastedValue <> Props.length props ->
  PinInput.handlePaste props pastedValue w = (w, Normal tt) /\
  PinInput.dispatch props (PinInput.Paste 0 pastedValue) w = (w, Normal tt).
Proof.
  intros Hlen.
  assert (PinInput.handlePaste props pastedValue w = (w, Normal tt)) as E.
  { unfold PinInput.handlePaste.
    by apply Nat.eqb_neq in Hlen as ->. }
  split; [exact E|exact E].
Qed.

End Routing.

(** ** update *)

Section Update.
Context `{Host}.
Variable props : Props.t.

Lemma validateValue_timers i raw w t :
  t ∈ timers (fst (PinItem.validateValue props i raw w)) ->
  is_notify t = true -> t ∈ timers w.
Proof.
  rewrite validateValue_fst.
  destruct (Props.secretDelay props =? 0); [done|].
  rewrite setSecretDelayed_run; cbn.
  intros [Ht| ->%list_elem_of_singleton]%elem_of_app; [|done].
  intros _. unfold drop_timer in Ht.
  destruct (pending_hide w i); [|done].
  by apply list_elem_of_filter in Ht as [_ ?].
Qed.

(** C7, as the code has it. [update] on a cell in the tree whose value is
    [cur], when validation returns [v]: if [v] is shorter than two code
    units and either differs from [cur] or the call is a paste, the cell
    adopts [v] and a timer of delay zero is queued that will call the
    owner's [onItemChange] with [(v, isPasting)] for this cell, nothing
    being written to the Code array or called back before; if [v] equals
    [cur] outside a paste, or [v] has two code units or more, the call does
    nothing beyond validation itself: the value stays [cur] and no
    notification is queued. *)
Theorem update_adopts_short_validated i raw isPasting w cur v :
  value_of w i = Some cur ->
  mounted w i = true ->
  PinItem.validation props raw = Normal v ->
  let w1 := fst (PinItem.validateValue props i raw w) in
  let w' := fst (PinItem.update props i raw isPasting w) in
  (v <> cur \/ isPasting = true -> length v < 2 ->
   value_of w' i = Some v /\
   timers w' = timers w1 ++ [{| tid := nextTimer w1; due := now w + 0;
                                job := Notify i v isPasting |}] /\
   Cell.inputTimeoutRef <$> cell w' i = Some (Some (nextTimer w1)) /\
   valuesRef w' = valuesRef w /\ calls w' = calls w /\
   PinInput.run_job props (Notify i v isPasting)
   = PinInput.onItemChange props v isPasting i) /\
  ((v = cur /\ isPasting = false) \/ 2 <= length v ->
   w' = w1 /\ value_of w' i = Some cur /\
   valuesRef w' = valuesRef w /\ calls w' = calls w /\
   forall t, t ∈ timers w' -> is_notify t = true -> t ∈ timers w).
Proof.
  intros Hcur Hm Hv. cbn zeta. rewrite update_run, Hv. cbn zeta.
  pose proof (validateValue_value_of props i raw w i) as Hval.
  pose proof (validateValue_mounted props i raw w i) as Hmo.
  destruct (validateValue_frame props i raw w) as (Hvs & Hcs & _ & Hnow & _).
  rewrite Hm in Hmo. rewrite Hcur in Hval.
  set (w1 := fst (PinItem.validateValue props i raw w)) in *.
  rewrite Hval. change (default [] (Some cur)) with cur.
  split.
  - intros Hdiff Hlen.
    assert (bool_decide (v = cur) && negb isPasting = false) as ->.
    { destruct Hdiff as [Hne| ->]; [|by rewrite andb_false_r].
      by rewrite bool_decide_eq_false_2. }
    apply Nat.ltb_lt in Hlen as ->. cbn [fst].
    split_and!; [by apply commit_value_of|by cbn; rewrite Hnow| |done..].
    unfold commit, cell; cbn. rewrite list_lookup_alter_eq.
    apply mounted_cell in Hmo as (c & Hc & _).
    by apply cell_Some_lookup in Hc as ->.
  - intros Hskip.
    assert ((if bool_decide (v = cur) && negb isPasting
             then (w1, Normal ())
             else if length v <? 2 then (commit i v isPasting w1, Normal ())
                  else (w1, Normal ())) = (w1, Normal ())) as ->.
    { destruct Hskip as [[-> ->]|Hlen].
      - by rewrite bool_decide_eq_true_2.
      - destruct (_ && _); [done|].
        by apply Nat.ltb_ge in Hlen as ->. }
    cbn [fst]. split_and!; [done..|].
    intros t. apply validateValue_timers.
Qed.

(** The slots of the Code array hold at most one character each: a
    notification comes from [update], which queues none of two characters
    or more, and [onItemChange] writes what it is notified of. *)
Lemma update_queues_short i raw isPasting w t j v b :
  t ∈ timers (fst (PinItem.update props i raw isPasting w)) ->
  job t = Notify j v b ->
  t ∈ timers w \/ length v < 2.
Proof.
  rewrite update_run. cbn zeta. intros Hin Hjob.
  assert (Hold : t ∈ timers (fst (PinItem.validateValue props i raw w)) ->
                 t ∈ timers w).
  { intros Ht. apply (validateValue_timers i raw w t Ht).
    unfold is_notify. by rewrite Hjob. }
  destruct (PinItem.validation props raw) as [v'|e]; [|left; by apply Hold].
  destruct (bool_decide _ && _); [left; by apply Hold|].
  destruct (Nat.ltb_spec (length v') 2) as [Hlt|]; [|left; by apply Hold].
  cbn in Hin. apply elem_of_app in Hin as [Hin|Hin%list_elem_of_singleton].
  - left. by apply Hold.
  - right. subst t. cbn in Hjob. by injection Hjob as _ <- _.
Qed.

End Update.

(** ** Absent handles *)

Section Handles.
Context `{Host}.
Variable props : Props.t.

Lemma forEach_normal (f : nat -> M unit) :
  (forall i w, snd (f i w) = Normal tt) ->
  forall n lo w, snd (forEach f lo n w) = Normal tt.
Proof.
  intros Hf. induction n as [|n IH]; intros lo w; [done|].
  cbn. unfold bind. specialize (Hf lo w).
  destruct (f lo w) as [w1 [[]|e]]; [apply IH|done].
Qed.

Lemma forEach_skip (f : nat -> M unit) w :
  (forall i, f i w = (w, Normal tt)) ->
  forall n lo, forEach f lo n w = (w, Normal tt).
Proof.
  intros Hf. induction n as [|n IH]; intros lo; [done|].
  cbn. unfold bind. by rewrite Hf, IH.
Qed.

Lemma validation_str s :
  exists v, PinItem.validation props (str s) = Normal v.
Proof.
  unfold PinItem.validation.
  destruct (Props.validate props); [by eexists|].
  destruct (Props.type props).
  - destruct s; by eexists.
  - destruct (Props.regexCriteria props) as [re|]; [|by eexists].
    cbn. destruct (test re s); by eexists.
Qed.

(** X16. The guarded paths: [clear], [focusFirstInput], [handleBackspace] and
    [onItemChange] return normally in every world, whatever handles are
    missing. *)
Lemma guarded_paths_return w :
  snd (PinInput.clear props w) = Normal tt /\
  snd (PinInput.focusFirstInput props w) = Normal tt /\
  (forall index, snd (PinInput.handleBackspace props index w) = Normal tt) /\
  (forall value isPasting index,
     snd (PinInput.onItemChange props value isPasting index w) = Normal tt).
Proof.
  split_and!.
  - unfold PinInput.clear, PinInput.forEach_element, bind at 1 2.
    unfold gets at 1.
    match goal with
    | |- context [forEach ?f 0 ?n w] =>
        pose proof (forEach_normal f) as Hf; specialize (Hf ltac:(
          intros i w0; unfold bind, PinInput.element, gets;
          destruct (cell w0 i); reflexivity) n 0 w);
        destruct (forEach f 0 n w) as [w1 [[]|e]]; [|done]
    end.
    unfold bind, modify. by rewrite focus_element_run.
  - unfold PinInput.focusFirstInput. destruct (_ <? _); [|done].
    by rewrite focus_element_run.
  - intros index. unfold PinInput.handleBackspace.
    destruct (_ <? _); [|done]. by rewrite focus_element_run.
  - intros value isPasting index. by rewrite onItemChange_run.
Qed.

(** X17. With every handle missing the guarded paths touch no cell: focusing
    and pasting change nothing at all, [clear] only resets the Code
    array. *)
Lemma guarded_paths_skip_absent w :
  (forall i, cell w i = None) ->
  PinInput.clear props w = (set_valuesRef (map (fun _ => [])) w, Normal tt) /\
  PinInput.focusFirstInput props w = (w, Normal tt) /\
  (forall index, PinInput.handleBackspace props index w = (w, Normal tt)) /\
  (forall pastedValue,
     PinInput.handlePaste props pastedValue w = (w, Normal tt)) /\
  (forall value isPasting index,
     elementsRef (fst (PinInput.onItemChange props value isPasting index w))
     = elementsRef w).
Proof.
  intros Hnone.
  assert (Hm : forall k w0, elementsRef w0 = elementsRef w ->
                            mounted w0 k = false).
  { intros k w0 E. unfold mounted, cell. rewrite E.
    specialize (Hnone k). unfold cell in Hnone.
    by destruct (elementsRef w !! k) as [[c|]|]. }
  split_and!.
  - unfold PinInput.clear, PinInput.forEach_element, bind at 1 2.
    unfold gets at 1. rewrite forEach_skip.
    + unfold bind, modify. by rewrite focus_element_absent by by apply Hm.
    + intros i. unfold bind, PinInput.element, gets. by rewrite Hnone.
  - unfold PinInput.focusFirstInput. destruct (_ <? _); [|done].
    by apply focus_element_absent, Hm.
  - intros index. unfold PinInput.handleBackspace.
    destruct (_ <? _); [|done]. by apply focus_element_absent, Hm.
  - intros pastedValue. unfold PinInput.handlePaste.
    destruct (negb _); [done|].
    unfold PinInput.forEach_element, bind at 1. unfold gets at 1.
    apply forEach_skip. intros i.
    unfold bind, PinInput.element, gets. by rewrite Hnone.
  - intros value isPasting index. rewrite onItemChange_run. cbn zeta.
    unfold set_calls; cbn [fst elementsRef].
    destruct (_ && _); [|done].
    by rewrite focus_element_absent by by apply Hm.
Qed.

(** The effect that gives the focus on mount has no guard of its own: it
    reads [elementsRef.current[0]] and calls [focus] on it as it is. Were
    the first slot empty when it runs with [focus] set and a non-zero
    [length], it would throw a [TypeError]; a row that has just mounted
    never has its first slot empty. *)
Lemma focusOnMount_throws_without_first_handle w :
  Props.focus props = true ->
  Props.length props <> 0 ->
  cell w 0 = None ->
  PinInput.focusOnMount props w = (w, Throw TypeError).
Proof.
  intros Hf Hl Hc. unfold PinInput.focusOnMount.
  apply Nat.eqb_neq in Hl. rewrite Hf, Hl. cbn [negb andb].
  unfold bind, PinInput.element, gets. by rewrite Hc.
Qed.

End Handles.

(** ** The secret delay *)

Section Secret.
Context `{Host}.
Variable props : Props.t.

(** What does hold of the reveal: with a secret delay, a keystroke on a
    cell in the tree unmasks it at once, takes the hide that was pending
    for the cell off the queue, and queues one hide, due [secretDelay] ms
    later, which will mask exactly when the raw keystroke was non-empty. *)
Lemma cell_commit i v b w j :
  cell (commit i v b w) j
  = if decide (i = j)
    then (fun c => Cell.set_inputTimeoutRef (Some (nextTimer w))
                     (Cell.setState (Cell.set_value v) c)) <$> cell w i
    else cell w j.
Proof.
  unfold cell, commit; cbn. rewrite list_lookup_alter.
  destruct (decide (i = j)) as [->|]; [|done].
  by destruct (elementsRef w !! j) as [[c|]|].
Qed.

Lemma cell_setSecretDelayed i val w j :
  cell (fst (PinItem.setSecretDelayed props i val w)) j
  = if decide (i = j)
    then (fun c => Cell.set_secretTimeoutRef (Some (nextTimer w))
                     (Cell.setState (Cell.set_showSecret false) c))
         <$> cell w i
    else cell w j.
Proof.
  rewrite setSecretDelayed_run. unfold cell; cbn. rewrite list_lookup_alter.
  destruct (decide (i = j)) as [->|]; [|done].
  by destruct (elementsRef w !! j) as [[c|]|].
Qed.

(** X18. With a secret delay, a change event on a cell in the tree unmasks
    the cell at once, leaves no timer with the id of the hide that was
    pending for it, and queues one hide due [secretDelay] ms later that
    the cell remembers. *)
Lemma keystroke_restarts_reveal i raw w :
  Props.secretDelay props <> 0 ->
  mounted w i = true ->
  (forall id, pending_hide w i = Some id -> (id < nextTimer w)%positive) ->
  let w' := fst (PinItem.handleChange props i raw w) in
  masked w' i = Some false /\
  (forall id, pending_hide w i = Some id ->
              Forall (fun t => tid t <> id) (timers w')) /\
  exists t,
    t ∈ timers w' /\
    job t = HideSecret i (Boolean (str raw)) /\
    due t = now w + Props.secretDelay props /\
    pending_hide w' i = Some (tid t).
Proof.
  intros Hd Hm Hfresh. cbn zeta. unfold PinItem.handleChange.
  rewrite update_run. cbn zeta.
  destruct (validation_str props raw) as (v & ->).
  rewrite validateValue_fst.
  apply Nat.eqb_neq in Hd as ->.
  pose proof (cell_setSecretDelayed i (str raw) w i) as Hc1.
  rewrite decide_True in Hc1 by done.
  assert (Ets : timers (fst (PinItem.setSecretDelayed props i (str raw) w))
    = drop_timer (pending_hide w i) (timers w)
      ++ [{| tid := nextTimer w; due := now w + Props.secretDelay props;
             job := HideSecret i (Boolean (str raw)) |}])
    by by rewrite setSecretDelayed_run.
  assert (En : nextTimer (fst (PinItem.setSecretDelayed props i (str raw) w))
               = Pos.succ (nextTimer w))
    by by rewrite setSecretDelayed_run.
  set (w1 := fst (PinItem.setSecretDelayed props i (str raw) w)) in *.
  set (hide := {| tid := nextTimer w;
                  due := now w + Props.secretDelay props;
                  job := HideSecret i (Boolean (str raw)) |}) in *.
  apply mounted_cell in Hm as (c & Hc & Hi). rewrite Hc in Hc1. cbn in Hc1.
  assert (Ht1 : forall id, pending_hide w i = Some id ->
                Forall (fun t => tid t <> id) (timers w1)).
  { intros id Hid. rewrite Ets, Hid. cbn.
    apply Forall_app. split.
    - apply list.Forall_forall.
      by intros t [? _]%list_elem_of_filter.
    - repeat constructor; cbn. specialize (Hfresh id Hid). lia. }
  assert (Hcommit : forall b,
    masked (commit i v b w1) i = Some false /\
    pending_hide (commit i v b w1) i = Some (nextTimer w)).
  { intros b. unfold masked, pending_hide.
    rewrite cell_commit, decide_True, Hc1 by done.
    unfold Cell.setState. destruct c as [? ? ? ? ? []]; [done|].
    by cbn in Hi. }
  assert (Hmasked1 : masked w1 i = Some false /\
                     pending_hide w1 i = Some (nextTimer w)).
  { unfold masked, pending_hide. rewrite Hc1.
    unfold Cell.setState. destruct c as [? ? ? ? ? []]; [done|].
    by cbn in Hi. }
  assert (Hin1 : hide ∈ timers w1).
  { rewrite Ets. apply elem_of_app. right. by apply list_elem_of_singleton. }
  destruct (bool_decide _ && _); [|destruct (length v <? 2)]; cbn [fst].
  - split_and!; [apply Hmasked1|done|]. exists hide.
    split_and!; [done|reflexivity|reflexivity|apply Hmasked1].
  - split_and!; [apply Hcommit| |].
    + intros id Hid. cbn. apply Forall_app. split; [by apply Ht1|].
      repeat constructor; cbn. rewrite En. specialize (Hfresh id Hid). lia.
    + exists hide. split_and!; [|reflexivity|reflexivity|apply Hcommit].
      cbn. apply elem_of_app. by left.
  - split_and!; [apply Hmasked1|done|]. exists hide.
    split_and!; [done|reflexivity|reflexivity|apply Hmasked1].
Qed.

End Secret.

(** ** The timer queue *)

Section Queue.

Lemma earliest_None ts : PinInput.earliest ts = None -> ts = [].
Proof.
  destruct ts as [|t ts]; [done|]. cbn [PinInput.earliest].
  destruct (PinInput.earliest ts) as [t'|]; [|done].
  by destruct (due t' <? due t).
Qed.

(** The timer taken first is strictly earlier than those queued before it
    and no later than those queued after it. *)
Lemma earliest_split ts t :
  PinInput.earliest ts = Some t ->
  exists l1 l2,
    ts = l1 ++ t :: l2 /\
    Forall (fun t' => due t < due t') l1 /\
    Forall (fun t' => due t <= due t') l2.
Proof.
  revert t. induction ts as [|t0 ts IH]; intros t; [done|].
  cbn [PinInput.earliest].
  destruct (PinInput.earliest ts) as [t'|] eqn:E.
  - destruct (IH t' eq_refl) as (l1 & l2 & -> & H1 & H2).
    destruct (Nat.ltb_spec (due t') (due t0)); intros [= <-].
    + exists (t0 :: l1), l2. split_and!; [done| |done].
      by constructor.
    + exists [], (l1 ++ t' :: l2). split_and!; [done|done|].
      apply Forall_app. split.
      * eapply list.Forall_impl; [exact H1|]. cbn. lia.
      * constructor; [done|]. eapply list.Forall_impl; [exact H2|]. cbn. lia.
  - intros [= <-]. apply earliest_None in E as ->.
    by exists [], [].
Qed.

Lemma remove_by_tid l1 t l2 :
  NoDup (tid <$> (l1 ++ t :: l2)) ->
  filter (fun t' => tid t' <> tid t) (l1 ++ t :: l2) = l1 ++ l2.
Proof.
  rewrite fmap_app, fmap_cons. intros Hnd.
  apply list.NoDup_app in Hnd as (_ & Hdisj & Hnd2).
  apply list.NoDup_cons in Hnd2 as [Hnotin _].
  assert (Hkeep : forall l : list Timer, tid t ∉ tid <$> l ->
                  filter (fun t' => tid t' <> tid t) l = l).
  { induction l as [|x l IHl]; [done|]. rewrite fmap_cons, not_elem_of_cons.
    intros [Hx Hl]. rewrite filter_cons_True by done. by rewrite IHl. }
  rewrite list.filter_app, filter_cons_False by (by intros ?).
  rewrite !Hkeep; [done|done|].
  intros Hin. apply (Hdisj _ Hin). by left.
Qed.

End Queue.

(** ** Paste: delivering the notifications *)

Section Delivery.
Context `{Host}.
Variable props : Props.t.
Variables (vs V0 : list jsstring) (calls0 : list Call).
Hypothesis vs_single : Forall (fun v => length v = 1) vs.
Hypothesis vs_length : length vs = Props.length props.
Hypothesis V0_length : length V0 = length vs.
Hypothesis vs_nonempty : 0 < length vs.

Lemma NoDup_tid_remove (l1 l2 : list Timer) t :
  NoDup (tid <$> (l1 ++ t :: l2)) -> NoDup (tid <$> (l1 ++ l2)).
Proof.
  rewrite !fmap_app, fmap_cons. intros Hnd.
  apply list.NoDup_app in Hnd as (Hnd1 & Hdisj & Hnd2).
  apply list.NoDup_cons in Hnd2 as [_ Hnd2].
  apply list.NoDup_app. split_and!; [done| |done].
  intros x Hx Hx2. apply (Hdisj x Hx). by right.
Qed.

(** Taking the earliest due timer off the queue of a cascade: it is
    either a hide, or the notification of cell [k]. *)
Lemma queue_take k w t :
  delivering vs V0 calls0 k w ->
  PinInput.earliest (timers w) = Some t ->
  due t <= now w ->
  let ts' := filter (fun t' => tid t' <> tid t) (timers w) in
  NoDup (tid <$> ts') /\
  S (length ts') = length (timers w) /\
  Forall (fun t => is_notify t = true -> due t = now w) ts' /\
  ((is_notify t = false /\
    job <$> filter (fun t => is_notify t = true) ts'
    = drop k (notify_jobs vs)) \/
   (exists v, k < length vs /\ vs !! k = Some v /\
      job t = Notify k v true /\
      job <$> filter (fun t => is_notify t = true) ts'
      = drop (S k) (notify_jobs vs))).
Proof.
  intros (Hk & _ & _ & Hnd & Hq & Hdue) (l1 & l2 & Ets & H1 & H2)%earliest_split
    Ht.
  cbn zeta. rewrite Ets in *. rewrite remove_by_tid by done.
  apply Forall_app in Hdue as [Hdue1 Hdue2].
  apply Forall_cons_1 in Hdue2 as [Hduet Hdue2].
  split_and!.
  - by eapply NoDup_tid_remove.
  - rewrite !length_app. cbn. lia.
  - by apply Forall_app.
  - rewrite !list.filter_app in Hq |- *.
    destruct (is_notify t) eqn:Hn.
    + right. specialize (Hduet eq_refl).
      assert (Hl1 : filter (fun t => is_notify t = true) l1 = []).
      { clear Hq Ets Hnd. induction l1 as [|x l1 IH]; [done|].
        apply Forall_cons_1 in H1 as [Hx H1].
        apply Forall_cons_1 in Hdue1 as [Hdx Hdue1].
        rewrite filter_cons. destruct (decide (is_notify x = true)) as [Hnx|].
        - specialize (Hdx Hnx). lia.
        - by apply IH. }
      rewrite Hl1 in Hq |- *. cbn [app] in *.
      rewrite filter_cons_True, fmap_cons in Hq by done.
      destruct (vs !! k) as [v|] eqn:Hv.
      * assert (notify_jobs vs !! k = Some (Notify k v true)) as Hjk.
        { unfold notify_jobs. by rewrite list_lookup_imap, Hv. }
        rewrite (drop_S _ _ _ Hjk) in Hq. injection Hq as Hj Hq.
        exists v. split_and!; [by eapply lookup_lt_Some|done..].
      * apply lookup_ge_None in Hv.
        rewrite drop_ge in Hq; [done|].
        unfold notify_jobs. by rewrite length_imap.
    + left. split; [done|].
      by rewrite filter_cons_False in Hq by (by rewrite Hn).
Qed.

Lemma slot_written k v :
  k < length vs -> vs !! k = Some v ->
  array_set k v (take k vs ++ drop k V0) = take (S k) vs ++ drop (S k) V0.
Proof.
  intros Hk Hv.
  assert (length (take k vs) = k) as Htk by (rewrite length_take; lia).
  rewrite array_set_in_range
    by (rewrite length_app, Htk, length_drop; lia).
  rewrite insert_app_r_alt by lia. rewrite Htk, Nat.sub_diag.
  destruct (lookup_lt_is_Some_2 V0 k) as [x Hx]; [lia|].
  rewrite (drop_S _ _ _ Hx). cbn.
  by rewrite (take_S_r _ _ _ Hv), <- app_assoc.
Qed.

Lemma join_all : length (join vs) = length vs.
Proof.
  apply join_length_full.
  - eapply list.Forall_impl; [exact vs_single|]. cbn. lia.
  - eapply list.Forall_impl; [exact vs_single|]. by intros [|? ?].
Qed.

(** One turn of the loop during a cascade keeps it a cascade, takes one
    timer off the queue and leaves the clock and every cell's character
    alone. *)
Lemma delivering_turn k w w' :
  delivering vs V0 calls0 k w ->
  PinInput.turn props (now w) w = Some w' ->
  (exists k', delivering vs V0 calls0 k' w') /\
  now w' = now w /\
  S (length (timers w')) = length (timers w) /\
  (forall j, value_of w' j = value_of w j).
Proof.
  intros Hd Ht. unfold PinInput.turn in Ht.
  destruct (PinInput.earliest (timers w)) as [t|] eqn:E; [|done].
  destruct (Nat.leb_spec (due t) (now w)) as [Hle|]; [|done].
  injection Ht as <-.
  destruct (queue_take k w t Hd E Hle) as (Hnd & Hlen & Hdue & Hcase).
  cbn zeta in *.
  set (ts' := filter (fun t' => tid t' <> tid t) (timers w)) in *.
  replace (now _ `max` due t) with (now w) by (cbn; lia).
  destruct Hd as (Hk & Hvals & Hcalls & _ & _ & _).
  destruct Hcase as [[Hn Hq]|(v & Hkl & Hv & Hj & Hq)].
  - destruct (job t) as [i b|] eqn:Hjob;
      [|by unfold is_notify in Hn; rewrite Hjob in Hn].
    cbn [PinInput.run_job]. unfold PinItem.setShowSecret, modify. cbn [fst].
    split_and!; [exists k; by split_and!|done|done|].
    intros j. unfold value_of. rewrite cell_modify_cell.
    change (cell (set_now ?n (set_timers ?f w)) ?j) with (cell w j).
    destruct (decide (i = j)) as [->|]; [|done].
    destruct (cell w j) as [c|]; [|done]. cbn. unfold Cell.setState.
    by destruct (Cell.inputRef c).
  - rewrite Hj. cbn [PinInput.run_job]. rewrite onItemChange_run.
    cbn zeta. cbn [fst].
    set (w0 := set_now (now w) (set_timers _ w)).
    set (w1 := set_valuesRef (array_set k v) w0).
    set (adv := (length v =? 1) && (S k <? Props.length props)).
    set (w2 := if adv then _ else w1).
    assert (Hframe : blur_all w2 = blur_all w1).
    { subst w2. destruct adv; [|done]. apply focus_element_blur_all. }
    destruct (blur_all_fields _ _ Hframe) as (Hv2 & Hc2 & Ht2 & _ & Hn2 & _).
    change (valuesRef w0) with (valuesRef w).
    unfold set_calls.
    split_and!; cbn [now timers]; [|by rewrite Hn2|by rewrite Ht2|].
    + exists (S k). unfold delivering.
      cbn [valuesRef calls timers now].
      rewrite Hv2, Hc2, Ht2, Hn2.
      change (valuesRef w1) with (array_set k v (valuesRef w)).
      change (calls w1) with (calls w). change (timers w1) with ts'.
      change (now w1) with (now w).
      rewrite Hvals, slot_written by done.
      split_and!; [lia|done| |done|done|done].
      rewrite Hcalls, decide_False by lia. rewrite <- app_assoc. f_equal.
      cbn [app andb]. rewrite <- vs_length.
      destruct (decide (S k = length vs)) as [Elast|Hmore].
      * rewrite Elast, take_ge, drop_ge, app_nil_r by lia.
        rewrite join_all, Nat.eqb_refl, Nat.ltb_irrefl. cbn [andb negb].
        subst adv. rewrite <- vs_length, Elast, Nat.ltb_irrefl, andb_false_r.
        do 2 f_equal. lia.
      * assert ((S k <? length vs) = true) as -> by (apply Nat.ltb_lt; lia).
        by rewrite andb_false_r.
    + intros j. transitivity (value_of w2 j); [reflexivity|].
      transitivity (value_of w1 j); [|reflexivity].
      by apply blur_all_value_of.
Qed.

Lemma delivering_idle k w :
  delivering vs V0 calls0 k w ->
  PinInput.turn props (now w) w = None ->
  k = length vs.
Proof.
  intros (Hk & _ & _ & _ & Hq & Hdue) Ht.
  destruct (decide (k = length vs)) as [|Hne]; [done|]. exfalso.
  destruct (lookup_lt_is_Some_2 (notify_jobs vs) k) as [j Hj].
  { unfold notify_jobs. rewrite length_imap. lia. }
  rewrite (drop_S _ _ _ Hj) in Hq.
  destruct (filter _ (timers w)) as [|t ts] eqn:Hf; [done|].
  assert (t ∈ filter (fun t => is_notify t = true) (timers w)) as Hin
    by (rewrite Hf; by left).
  apply list_elem_of_filter in Hin as [Hn Hin].
  unfold PinInput.turn in Ht.
  destruct (PinInput.earliest (timers w)) as [t'|] eqn:E.
  - destruct (earliest_split _ _ E) as (l1 & l2 & Ets & H1 & H2).
    destruct (Nat.leb_spec (due t') (now w)) as [|Hlt]; [done|].
    rewrite list.Forall_forall in Hdue. specialize (Hdue t Hin Hn).
    rewrite Ets in Hin.
    apply elem_of_app in Hin as [Hin|[->|Hin]%elem_of_cons].
    + rewrite list.Forall_forall in H1. specialize (H1 t Hin). lia.
    + lia.
    + rewrite list.Forall_forall in H2. specialize (H2 t Hin). lia.
  - apply earliest_None in E. rewrite E in Hin. by apply elem_of_nil in Hin.
Qed.

(** With one turn of fuel per pending timer the cascade runs to its end:
    every notification is delivered and nothing is due any more. *)
Lemma delivering_settle fuel : forall k w,
  delivering vs V0 calls0 k w ->
  length (timers w) <= fuel ->
  let w' := PinInput.turns props fuel (now w) w in
  delivering vs V0 calls0 (length vs) w' /\
  PinInput.idle props (now w) w' /\
  now w' = now w /\
  (forall j, value_of w' j = value_of w j).
Proof.
  induction fuel as [|fuel IH]; intros k w Hd Hfuel; cbn zeta.
  - cbn [PinInput.turns].
    assert (PinInput.turn props (now w) w = None) as Hidle.
    { unfold PinInput.turn. destruct (timers w); [done|cbn in Hfuel; lia]. }
    by rewrite <- (delivering_idle k w Hd Hidle).
  - cbn [PinInput.turns].
    destruct (PinInput.turn props (now w) w) as [w1|] eqn:Ht.
    + destruct (delivering_turn k w w1 Hd Ht)
        as ((k' & Hd') & Hnow & Hlen & Hval).
      destruct (IH k' w1 Hd' ltac:(lia)) as (Hfin & Hidle & Hnow' & Hval').
      rewrite Hnow in *.
      split_and!; [done|done|done|].
      intros j. by rewrite Hval', Hval.
    + by rewrite <- (delivering_idle k w Hd Ht).
Qed.

End Delivery.

(** ** Paste: updating the cells *)

Section Distribution.
Context `{Host}.
Variable props : Props.t.

Lemma validation_validated c :
  PinItem.validation props (str [c]) = Normal (validated props c).
Proof.
  unfold validated. by destruct (validation_str props [c]) as (v & ->).
Qed.

Lemma update_paste j c w :
  length (validated props c) = 1 ->
  PinItem.update props j (str [c]) true w
  = (commit j (validated props c) true
       (fst (PinItem.validateValue props j (str [c]) w)), Normal tt).
Proof.
  intros Hlen. rewrite update_run, validation_validated. cbn zeta.
  by rewrite andb_false_r, Hlen.
Qed.

Lemma filter_notify_drop id (ts : list Timer) :
  (forall t, t ∈ ts -> is_notify t = true -> tid t <> id) ->
  filter (fun t => is_notify t = true) (filter (fun t => tid t <> id) ts)
  = filter (fun t => is_notify t = true) ts.
Proof.
  induction ts as [|t ts IH]; intros Hts; [done|].
  assert (forall t', t' ∈ ts -> is_notify t' = true -> tid t' <> id) as Hts'
    by (intros t' Ht'; apply Hts; by right).
  rewrite (filter_cons (fun t => tid t <> id)).
  destruct (decide (tid t <> id)) as [Hne|Heq].
  - rewrite !filter_cons. destruct (decide (is_notify t = true)); by rewrite IH.
  - rewrite IH by done. rewrite filter_cons_False; [done|].
    intros Hn. apply Heq. apply Hts; [by left|done].
Qed.

(** Whether [j] is the cell [commit] wrote, and what is behind it. *)
Ltac committed_cell i j w c :=
  rewrite cell_commit;
  destruct (decide (i = j)) as [->|]; [|done];
  destruct (cell w j) as [c|]; [|done];
  cbn; unfold Cell.setState.

Lemma pending_hide_commit i v b w j :
  pending_hide (commit i v b w) j = pending_hide w j.
Proof.
  unfold pending_hide. committed_cell i j w c.
  by destruct (Cell.inputRef c).
Qed.

Lemma value_of_commit i v b w j :
  value_of (commit i v b w) j
  = if decide (i = j)
    then (if mounted w i then Some v else value_of w i)
    else value_of w j.
Proof.
  unfold value_of, mounted. committed_cell i j w c.
  by destruct (Cell.inputRef c).
Qed.

Lemma mounted_commit i v b w j : mounted (commit i v b w) j = mounted w j.
Proof.
  unfold mounted. committed_cell i j w c.
  by destruct c as [? ? ? ? ? []].
Qed.

Lemma drop_timer_elem_of id (ts : list Timer) t :
  t ∈ drop_timer id ts -> t ∈ ts.
Proof.
  unfold drop_timer. destruct id; [|done].
  by intros [_ ?]%list_elem_of_filter.
Qed.

Lemma drop_timer_Forall (P : Timer -> Prop) id ts :
  Forall P ts -> Forall P (drop_timer id ts).
Proof.
  rewrite !list.Forall_forall. intros HP t Ht.
  by apply HP, (drop_timer_elem_of id).
Qed.

Lemma drop_timer_NoDup id ts :
  NoDup (tid <$> ts) -> NoDup (tid <$> drop_timer id ts).
Proof.
  intros Hnd. eapply sublist_NoDup; [exact Hnd|]. apply fmap_sublist.
  unfold drop_timer. destruct id; [apply sublist_filter|done].
Qed.

(** What validation does to the timer queue. *)
Lemma validateValue_queue i raw w :
  let w1 := fst (PinItem.validateValue props i raw w) in
  Forall (fun t => (tid t < nextTimer w)%positive) (timers w) ->
  NoDup (tid <$> timers w) ->
  (nextTimer w <= nextTimer w1)%positive /\
  Forall (fun t => (tid t < nextTimer w1)%positive) (timers w1) /\
  NoDup (tid <$> timers w1) /\
  (forall t, t ∈ timers w1 -> is_notify t = true -> t ∈ timers w) /\
  ((forall t, t ∈ timers w -> is_notify t = true ->
              pending_hide w i <> Some (tid t)) ->
   filter (fun t => is_notify t = true) (timers w1)
   = filter (fun t => is_notify t = true) (timers w)) /\
  (forall j, i <> j -> pending_hide w1 j = pending_hide w j).
Proof.
  cbn zeta. intros Hfresh Hnd.
  pose proof (validateValue_timers props i raw w) as Hsub.
  rewrite validateValue_fst in *.
  destruct (Props.secretDelay props =? 0).
  { split_and!; [lia|done..]. }
  pose proof (cell_setSecretDelayed props i raw w) as Hcell.
  rewrite setSecretDelayed_run in *. cbn [fst] in *.
  cbn [nextTimer timers].
  split_and!.
  - lia.
  - apply Forall_app. split; [|repeat constructor; cbn; lia].
    eapply list.Forall_impl; [exact (drop_timer_Forall _ _ _ Hfresh)|].
    cbn. lia.
  - rewrite fmap_app. apply list.NoDup_app. split_and!.
    + by apply drop_timer_NoDup.
    + intros x Hx [->|Habs%elem_of_nil]%elem_of_cons; [|done].
      apply list_elem_of_fmap in Hx as (t & Ht & Hin%drop_timer_elem_of).
      rewrite list.Forall_forall in Hfresh. specialize (Hfresh t Hin).
      cbn in Ht. lia.
    + cbn. apply NoDup_singleton.
  - exact Hsub.
  - intros Hno. rewrite list.filter_app.
    rewrite (filter_cons_False _ _ []) by done.
    rewrite filter_nil, app_nil_r. unfold drop_timer.
    destruct (pending_hide w i) as [id|] eqn:Hid; [|done].
    apply filter_notify_drop. intros t Hin Hn Heq.
    apply (Hno t Hin Hn). by rewrite Heq.
  - intros j Hj. unfold pending_hide.
    rewrite Hcell, decide_False by done. done.
Qed.

(** Updating one more cell during a paste. *)
Lemma distributing_step w0 vs lo w c :
  distributing w0 vs lo w ->
  vs !! lo = Some (validated props c) ->
  length (validated props c) = 1 ->
  mounted w0 lo = true ->
  distributing w0 vs (S lo)
    (commit lo (validated props c) true
       (fst (PinItem.validateValue props lo (str [c]) w))).
Proof.
  intros (Hv & Hc & Hn & Hlen & HN & Hfresh & Hnd & Hnot & Hq & Hpend
          & Hval & Hm) Hvs Hone Hmo.
  destruct (validateValue_frame props lo (str [c]) w)
    as (Hv1 & Hc1 & _ & Hn1 & Hlen1).
  destruct (validateValue_queue lo (str [c]) w Hfresh Hnd)
    as (HN1 & Hfresh1 & Hnd1 & Hsub1 & Hfilter1 & Hpend1).
  pose proof (validateValue_value_of props lo (str [c]) w) as Hval1.
  pose proof (validateValue_mounted props lo (str [c]) w) as Hm1.
  set (w1 := fst (PinItem.validateValue props lo (str [c]) w)) in *.
  set (v := validated props c) in *.
  rewrite list.Forall_forall in Hnot.
  assert (Hfilter : filter (fun t => is_notify t = true) (timers w1)
                    = filter (fun t => is_notify t = true) (timers w)).
  { apply Hfilter1. intros t Hin Hnt Hp.
    destruct (Hnot t Hin Hnt) as [Hge _].
    specialize (Hpend lo (tid t) ltac:(lia) Hp). lia. }
  unfold distributing.
  split_and!.
  - by rewrite <- Hv, <- Hv1.
  - by rewrite <- Hc, <- Hc1.
  - by rewrite <- Hn, <- Hn1.
  - cbn. by rewrite length_alter, Hlen1.
  - cbn. lia.
  - cbn. apply Forall_app. split; [|repeat constructor; cbn; lia].
    eapply list.Forall_impl; [exact Hfresh1|]. cbn. lia.
  - cbn. rewrite fmap_app. apply list.NoDup_app. split_and!; [done| |].
    + intros x Hx [->|Habs%elem_of_nil]%elem_of_cons; [|done].
      apply list_elem_of_fmap in Hx as (t & Ht & Hin).
      rewrite list.Forall_forall in Hfresh1. specialize (Hfresh1 t Hin).
      cbn in Ht. lia.
    + apply NoDup_singleton.
  - cbn. apply Forall_app. split.
    + apply list.Forall_forall. intros t Hin Hnt.
      apply Hnot; [by apply Hsub1|done].
    + repeat constructor; cbn; lia.
  - cbn. rewrite list.filter_app, fmap_app, Hfilter, Hq.
    rewrite (filter_cons_True _ _ []) by done. rewrite filter_nil. cbn.
    symmetry. apply take_S_r. unfold notify_jobs.
    by rewrite list_lookup_imap, Hvs.
  - intros j id Hj. rewrite pending_hide_commit, Hpend1 by lia.
    apply Hpend. lia.
  - intros j Hj. rewrite value_of_commit.
    destruct (decide (lo = j)) as [<-|Hne].
    + by rewrite Hm1, Hm, Hmo.
    + rewrite Hval1. apply Hval. lia.
  - intros j. by rewrite mounted_commit, Hm1.
Qed.

Lemma distribute_loop w0 pasted n : forall lo w,
  lo + n = length pasted ->
  distributing w0 (validated props <$> pasted) lo w ->
  Forall (fun c => length (validated props c) = 1) pasted ->
  (forall j, j < length pasted -> mounted w0 j = true) ->
  let r := forEach (paste_cell props pasted) lo n w in
  snd r = Normal tt /\
  distributing w0 (validated props <$> pasted) (lo + n) (fst r).
Proof.
  induction n as [|n IH]; intros lo w Hlen Hd Hvalid Hmounted; cbn zeta.
  { cbn. by rewrite Nat.add_0_r. }
  cbn [forEach]. unfold bind.
  destruct (lookup_lt_is_Some_2 pasted lo) as [c Hc]; [lia|].
  assert (mounted w lo = true) as Hmo.
  { destruct Hd as (_ & _ & _ & _ & _ & _ & _ & _ & _ & _ & _ & ->).
    apply Hmounted. lia. }
  assert (length (validated props c) = 1) as Hone.
  { rewrite list.Forall_forall in Hvalid. apply Hvalid.
    by eapply list_elem_of_lookup_2. }
  assert (paste_cell props pasted lo w
          = (commit lo (validated props c) true
               (fst (PinItem.validateValue props lo (str [c]) w)),
             Normal tt)) as ->.
  { unfold paste_cell, bind, PinInput.element, gets.
    apply mounted_cell in Hmo as (c' & -> & _).
    unfold char_at. rewrite Hc. by apply update_paste. }
  replace (lo + S n) with (S lo + n) by lia.
  apply IH; [lia| |done|done].
  apply distributing_step; [done| |done|apply Hmounted; lia].
  by rewrite list_lookup_fmap, Hc.
Qed.

Lemma filter_none {A} (P : A -> Prop) `{forall x, Decision (P x)}
    (l : list A) :
  (forall x, x ∈ l -> ~ P x) -> filter P l = [].
Proof.
  induction l as [|x l IH]; intros Hl; [done|].
  rewrite filter_cons_False by (apply Hl; by left).
  apply IH. intros y Hy. apply Hl. by right.
Qed.

Lemma quiet_distributing w0 vs :
  quiet w0 = true -> distributing w0 vs 0 w0.
Proof.
  unfold quiet. intros [[Hts Hnd%bool_decide_eq_true]%andb_true_iff
                         Hels]%andb_true_iff.
  rewrite forallb_forall in Hts, Hels.
  assert (Hts' : forall t, t ∈ timers w0 ->
            is_notify t = false /\ (tid t < nextTimer w0)%positive).
  { intros t Hin%list_elem_of_In. specialize (Hts t Hin).
    apply andb_true_iff in Hts as [Hn Hlt%Pos.ltb_lt]. split; [|done].
    by destruct (is_notify t). }
  unfold distributing. split_and!; try done.
  - apply list.Forall_forall. intros t Hin. by apply Hts'.
  - apply list.Forall_forall. intros t Hin Hn.
    destruct (Hts' t Hin) as [Hn' _]. congruence.
  - rewrite take_0, filter_none; [done|].
    intros t Hin Hn. destruct (Hts' t Hin) as [Hn' _]. congruence.
  - intros j id _ Hp. unfold pending_hide, cell in Hp.
    destruct (elementsRef w0 !! j) as [el|] eqn:Hel; [|done].
    apply list_elem_of_lookup_2, list_elem_of_In in Hel.
    specialize (Hels el Hel). destruct el as [c|]; [|done].
    cbn in Hp, Hels. rewrite Hp in Hels. by apply Pos.ltb_lt.
  - intros j Hj. lia.
Qed.

End Distribution.

(** ** Paste *)

Section Paste.
Context `{Host}.
Variable props : Props.t.

Lemma all_mounted_lookup w j :
  all_mounted w = true -> j < length (elementsRef w) -> mounted w j = true.
Proof.
  unfold all_mounted, mounted, cell. rewrite forallb_forall.
  intros Hall Hj.
  destruct (lookup_lt_is_Some_2 (elementsRef w) j Hj) as [el Hel].
  rewrite Hel.
  apply list_elem_of_lookup_2, list_elem_of_In in Hel.
  specialize (Hall el Hel). by destruct el.
Qed.

Lemma handlePaste_run pastedValue w :
  length pastedValue = Props.length props ->
  PinInput.dispatch props (PinInput.Paste 0 pastedValue) w
  = forEach (paste_cell props pastedValue) 0 (length (elementsRef w)) w.
Proof.
  intros Hlen. cbn [PinInput.dispatch PinInput.onPaste Nat.eqb].
  unfold PinItem.handlePaste, PinInput.handlePaste.
  by rewrite Hlen, Nat.eqb_refl.
Qed.

Lemma join_singletons {A} (f : A -> Z) (l : list A) :
  join ((fun c => [f c]) <$> l) = f <$> l.
Proof. induction l as [|x l IH]; [done|]. cbn. by rewrite <- IH. Qed.

Lemma validated_numeric c :
  Props.validate props = None -> Props.type props = numeric ->
  length (validated props c) = 1 -> validated props c = [c].
Proof.
  unfold validated, PinItem.validation. intros -> ->.
  by destruct (is_digit c).
Qed.

Lemma validated_default_regex c :
  Props.validate props = None -> Props.type props = other ->
  Props.regexCriteria props = Some default_regexCriteria ->
  length (validated props c) = 1 ->
  validated props c = [ascii_upper c] /\ is_ascii c = true.
Proof.
  unfold validated, PinItem.validation. intros -> -> ->. cbn.
  rewrite andb_true_r. destruct (is_alnum c) eqn:Hc; [|done].
  intros _. split; [by apply toUpperCase_alnum|].
  unfold is_alnum, is_lower, is_upper, is_digit, is_ascii in *. lia.
Qed.

Lemma onItemChange_paste_silent v i w :
  S i < Props.length props ->
  calls (fst (PinInput.onItemChange props v true i w)) = calls w.
Proof.
  intros Hi%Nat.ltb_lt. rewrite onItemChange_run. cbn zeta. cbn [fst].
  rewrite Hi. cbn [andb negb app]. rewrite andb_false_r.
  unfold set_calls; cbn [calls]. rewrite app_nil_r.
  set (w1 := set_valuesRef (array_set i v) w).
  destruct (_ && true); [|done].
  by destruct (blur_all_fields _ _
                 (focus_element_blur_all props (i + 1) w1)) as (_ & -> & _).
Qed.

(** C1. A paste through the first cell of a string [s] of the configured
    length whose characters are all valid, into a row whose cells are all
    in the tree and that has nothing left to deliver. The call returns
    normally; every cell [i] shows the validated [s[i]] at once, while the
    Code array and the callbacks wait; the notifications are queued in
    cell order. Once they have run, slot [i] of the Code array holds the
    validated [s[i]] for every [i], [onComplete] has been called exactly
    once and nothing else has, with the validated characters joined as pin
    and [length - 1] as current index, and no timer is due any more. A
    paste notification from a cell before the last never calls back, so
    the call comes from the last one. The pin is [s] itself in numeric
    mode and [s] in upper case in default regex mode. *)
Theorem paste_fills_row_and_completes_once pastedValue w :
  let L := Props.length props in
  0 < L ->
  length pastedValue = L ->
  length (valuesRef w) = L ->
  length (elementsRef w) = L ->
  all_mounted w = true ->
  quiet w = true ->
  Forall (fun c => length (validated props c) = 1) pastedValue ->
  let vs := validated props <$> pastedValue in
  let pasted := PinInput.dispatch props (PinInput.Paste 0 pastedValue) w in
  let w1 := fst pasted in
  let w2 := PinInput.settle props w1 in
  snd pasted = Normal tt /\
  (forall i, i < L -> value_of w1 i = vs !! i) /\
  valuesRef w1 = valuesRef w /\ calls w1 = calls w /\
  job <$> filter (fun t => is_notify t = true) (timers w1)
  = notify_jobs vs /\
  valuesRef w2 = vs /\
  (forall i, i < L -> value_of w2 i = vs !! i) /\
  calls w2 = calls w ++ [OnComplete (join vs) (L - 1)] /\
  PinInput.idle props (now w2) w2 /\
  (forall i v w', S i < L ->
     calls (fst (PinInput.onItemChange props v true i w')) = calls w') /\
  (Props.validate props = None -> Props.type props = numeric ->
   join vs = pastedValue) /\
  (Props.validate props = None -> Props.type props = other ->
   Props.regexCriteria props = Some default_regexCriteria ->
   join vs = toUpperCase pastedValue).
Proof.
  cbn zeta. intros Hpos Hlen HV Hel Hall Hquiet Hvalid.
  set (vs := validated props <$> pastedValue).
  assert (Hvs_len : length vs = Props.length props)
    by (unfold vs; by rewrite length_fmap).
  assert (Hvs_single : Forall (fun v => length v = 1) vs)
    by (unfold vs; by apply Forall_fmap).
  rewrite handlePaste_run by done.
  destruct (distribute_loop props w pastedValue (Props.length props) 0 w)
    as (Hret & Hdist); [lia|by apply quiet_distributing|done| |].
  { intros j Hj. apply all_mounted_lookup; [done|lia]. }
  rewrite Hel. cbn zeta in Hret, Hdist. rewrite Nat.add_0_l in Hdist.
  fold vs in Hdist.
  set (w1 := fst (forEach _ 0 _ w)) in *.
  destruct Hdist as (Hv1 & Hc1 & Hn1 & _ & _ & _ & Hnd1 & Hnot1 & Hq1 & _
                     & Hval1 & _).
  rewrite take_ge in Hq1 by (unfold notify_jobs; rewrite length_imap; lia).
  assert (Hdel : delivering vs (valuesRef w) (calls w) 0 w1).
  { unfold delivering. rewrite take_0, !drop_0.
    rewrite decide_False, app_nil_r by lia.
    split_and!; [lia|done|done|done|done|].
    eapply list.Forall_impl; [exact Hnot1|]. cbn.
    intros t Ht Hn. rewrite Hn1. by apply Ht. }
  destruct (delivering_settle props vs (valuesRef w) (calls w) Hvs_single
              Hvs_len ltac:(lia) ltac:(lia)
              (length (timers w1)) 0 w1 Hdel ltac:(lia))
    as ((_ & Hv2 & Hc2 & _) & Hidle & Hnow2 & Hval2).
  fold (PinInput.settle props w1) in *.
  set (w2 := PinInput.settle props w1) in *.
  rewrite take_ge, drop_ge, app_nil_r in Hv2 by lia.
  rewrite decide_True, Hvs_len in Hc2 by done.
  split_and!; [done|by intros i Hi; apply Hval1; lia|done|done|done|done
              | |done|by rewrite Hnow2| | |].
  - intros i Hi. rewrite Hval2. apply Hval1. lia.
  - intros i v w' Hi. by apply onItemChange_paste_silent.
  - intros Hval Hty. unfold vs.
    rewrite <- (list_fmap_id pastedValue) at 2.
    rewrite <- (join_singletons id).
    f_equal. apply Forall_fmap_ext_1.
    eapply list.Forall_impl; [exact Hvalid|]. cbn.
    intros c Hc. by apply validated_numeric.
  - intros Hval Hty Hre. unfold vs.
    assert (Hall' : Forall (fun c => validated props c = [ascii_upper c]
                                     /\ is_ascii c = true) pastedValue).
    { eapply list.Forall_impl; [exact Hvalid|]. cbn.
      intros c Hc. by apply validated_default_regex. }
    unfold toUpperCase.
    assert (forallb is_ascii pastedValue = true) as ->.
    { apply forallb_forall. intros c Hc%list_elem_of_In.
      rewrite list.Forall_forall in Hall'. by apply Hall'. }
    rewrite <- join_singletons. f_equal. apply Forall_fmap_ext_1.
    eapply list.Forall_impl; [exact Hall'|]. cbn. by intros c [-> _].
Qed.

End Paste.

(** ** Mounting *)

Section Mounting.
Context `{Host}.
Variable props : Props.t.

(** X4. With a secret delay the first render of the first item throws, so
    the row does not mount; a row that runs with a secret delay has got it
    from a later render. *)
Lemma mount_with_secretDelay_throws initialValue clock :
  Props.secretDelay props <> 0 ->
  Props.length props <> 0 ->
  PinInput.mount props initialValue clock = Throw ReferenceError.
Proof.
  intros Hd%Nat.eqb_neq Hl. unfold PinInput.mount, PinInput.initial_values.
  destruct (Props.length props) as [|n]; [done|].
  cbn [seq fmap list_fmap PinInput.render_items].
  unfold PinItem.initialState. by rewrite Hd.
Qed.

Lemma initial_values_short initialValue :
  length (PinInput.initial_values props initialValue) = Props.length props /\
  Forall (fun s => length s <= 1)
    (PinInput.initial_values props initialValue).
Proof.
  unfold PinInput.initial_values. split.
  - by rewrite length_fmap, length_seq.
  - apply Forall_fmap, list.Forall_forall. intros i _. cbn.
    destruct (initialValue !! i); cbn; lia.
Qed.

End Mounting.

(** ** Validation of any string *)

Section Revalidation.
Context `{Host}.
Variable props : Props.t.

Lemma validation_numeric raw :
  Props.validate props = None -> Props.type props = numeric ->
  PinItem.validation props (str raw)
  = Normal (match raw with
            | c :: _ => if is_digit c then raw else []
            | [] => []
            end).
Proof.
  intros Hval Hty. unfold PinItem.validation. rewrite Hval, Hty.
  by destruct raw.
Qed.

Lemma alnum_ascii s : forallb is_alnum s = true -> forallb is_ascii s = true.
Proof.
  induction s as [|c s IH]; [done|]. cbn.
  intros [Hc Hs]%andb_true_iff. rewrite IH by done.
  unfold is_alnum, is_lower, is_upper, is_digit, is_ascii in *. lia.
Qed.

Lemma validation_default_regex raw :
  Props.validate props = None -> Props.type props = other ->
  Props.regexCriteria props = Some default_regexCriteria ->
  PinItem.validation props (str raw)
  = Normal (match raw with
            | [] => []
            | _ :: _ => if forallb is_alnum raw then map ascii_upper raw else []
            end).
Proof.
  intros Hval Hty Hre. unfold PinItem.validation. rewrite Hval, Hty, Hre.
  cbn [ToString test default_regexCriteria].
  destruct raw as [|c s]; [done|].
  destruct (forallb is_alnum (c :: s)) eqn:E; [|done].
  unfold toUpperCase. by rewrite alnum_ascii.
Qed.

Lemma ascii_upper_alnum c :
  is_alnum c = true ->
  upper_or_digit (ascii_upper c) = true /\
  is_alnum (ascii_upper c) = true /\
  ascii_upper (ascii_upper c) = ascii_upper c.
Proof.
  unfold upper_or_digit, ascii_upper, is_alnum, is_lower, is_upper, is_digit.
  intros Hc.
  destruct ((97 <=? c)%Z && (c <=? 122)%Z) eqn:E.
  - replace ((97 <=? c - 32)%Z && (c - 32 <=? 122)%Z) with false by lia.
    split_and!; [lia|lia|done].
  - rewrite E. split_and!; [lia|lia|done].
Qed.

Lemma map_ascii_upper_alnum s :
  forallb is_alnum s = true ->
  forallb upper_or_digit (map ascii_upper s) = true /\
  forallb is_alnum (map ascii_upper s) = true /\
  map ascii_upper (map ascii_upper s) = map ascii_upper s.
Proof.
  induction s as [|c s IH]; [done|]. cbn.
  intros [Hc Hs]%andb_true_iff.
  destruct (ascii_upper_alnum c Hc) as (-> & -> & ->).
  destruct (IH Hs) as (-> & -> & ->). done.
Qed.

(** X1. What validation has returned passes validation unchanged: in
    numeric mode and with the default regular expression, validating a
    validated value gives it back. *)
Theorem validated_value_revalidates raw v :
  Props.validate props = None ->
  Props.type props = numeric \/
    Props.regexCriteria props = Some default_regexCriteria ->
  PinItem.validation props (str raw) = Normal v ->
  PinItem.validation props (str v) = Normal v.
Proof.
  intros Hval Hmode.
  destruct (Props.type props) eqn:Hty.
  - rewrite !validation_numeric by done.
    destruct raw as [|c s]; intros [= <-]; [done|].
    destruct (is_digit c) eqn:E; [by rewrite E|done].
  - destruct Hmode as [|Hre]; [done|].
    rewrite !validation_default_regex by done.
    destruct raw as [|c s]; [by intros [= <-]|].
    destruct (forallb is_alnum (c :: s)) eqn:E; intros [= <-]; [|done].
    destruct (map_ascii_upper_alnum _ E) as (_ & E2 & E3).
    cbn [map] in *. by rewrite E2, E3.
Qed.

(** X2. With the default regular expression validation never returns a
    lower-case letter: for a string of any length it answers the empty
    string, or the whole string in upper case when every code unit of it
    is an ASCII letter or digit. *)
Theorem default_regex_validation_never_lower raw v :
  Props.validate props = None -> Props.type props = other ->
  Props.regexCriteria props = Some default_regexCriteria ->
  PinItem.validation props (str raw) = Normal v ->
  (v = [] \/ (raw <> [] /\ forallb is_alnum raw = true /\
              v = map ascii_upper raw /\ length v = length raw)) /\
  forallb upper_or_digit v = true /\
  Forall (fun c => is_lower c = false) v.
Proof.
  intros Hval Hty Hre. rewrite validation_default_regex by done.
  destruct raw as [|c s]; [intros [= <-]; by split_and!; [left|..]|].
  destruct (forallb is_alnum (c :: s)) eqn:E; intros [= <-];
    [|by split_and!; [left|..]].
  destruct (map_ascii_upper_alnum _ E) as (E1 & _ & _).
  split_and!; [right; split_and!; [done..|cbn; by rewrite length_map]|done|].
  apply list.Forall_forall. intros x Hx%list_elem_of_In.
  rewrite forallb_forall in E1. specialize (E1 x Hx).
  unfold upper_or_digit, is_upper, is_digit, is_lower in *. lia.
Qed.

End Revalidation.

(** ** Loops over the cells, and clear *)

Section Iteration.

Lemma forEach_invariant (P : World -> Prop) (f : nat -> M unit) :
  (forall i w, P w -> P (fst (f i w))) ->
  forall n lo w, P w -> P (fst (forEach f lo n w)).
Proof.
  intros Hf. induction n as [|n IH]; intros lo w Hw; [done|].
  cbn [forEach]. unfold bind. specialize (Hf lo w Hw).
  destruct (f lo w) as [w1 [[]|e]]; [by apply IH|done].
Qed.

Lemma forEach_ext (f g : nat -> M unit) :
  (forall i w, f i w = g i w) ->
  forall n lo w, forEach f lo n w = forEach g lo n w.
Proof.
  intros Hfg. induction n as [|n IH]; intros lo w; [done|].
  cbn [forEach]. unfold bind. rewrite Hfg.
  destruct (g lo w) as [w1 [[]|e]]; [apply IH|done].
Qed.

Lemma forEach_app (f : nat -> M unit) n m : forall lo w,
  forEach f lo (n + m) w
  = match forEach f lo n w with
    | (w1, Normal _) => forEach f (lo + n) m w1
    | (w1, Throw e) => (w1, Throw e)
    end.
Proof.
  induction n as [|n IH]; intros lo w.
  - cbn. by rewrite Nat.add_0_r.
  - cbn [forEach Nat.add]. unfold bind.
    destruct (f lo w) as [w1 [[]|e]]; [|done].
    rewrite IH. by replace (S lo + n) with (lo + S n) by lia.
Qed.

Lemma set_elementsRef_same w :
  set_elementsRef (fun _ => elementsRef w) w = w.
Proof. by destruct w. Qed.

(** Running [modify_cell i g] for every [i] of a range. *)
Lemma forEach_modify_cell (g : Cell.t -> Cell.t) n : forall lo w,
  exists els,
    forEach (fun i => modify (modify_cell i g)) lo n w
    = (set_elementsRef (fun _ => els) w, Normal tt) /\
    forall j, els !! j = if decide (lo <= j < lo + n)
                         then fmap g <$> elementsRef w !! j
                         else elementsRef w !! j.
Proof.
  induction n as [|n IH]; intros lo w.
  - exists (elementsRef w). split; [rewrite set_elementsRef_same; reflexivity|].
    intros j. by rewrite decide_False by lia.
  - cbn [forEach]. unfold bind, modify at 1.
    destruct (IH (S lo) (modify_cell lo g w)) as (els & -> & Hels).
    exists els. split; [done|]. intros j. rewrite Hels.
    unfold modify_cell; cbn [elementsRef set_elementsRef].
    rewrite list_lookup_alter.
    repeat case_decide; subst; try done; lia.
Qed.

Lemma modify_cell_absent i g w : cell w i = None -> modify_cell i g w = w.
Proof.
  intros Hc. unfold modify_cell.
  rewrite <- (set_elementsRef_same w) at 2.
  unfold set_elementsRef. f_equal. apply list_eq. intros j.
  rewrite list_lookup_alter. destruct (decide (i = j)) as [->|]; [|done].
  unfold cell in Hc. by destruct (elementsRef w !! j) as [[c|]|].
Qed.

Lemma join_short_length (a : list jsstring) :
  Forall (fun s => length s <= 1) a -> length (join a) <= length a.
Proof.
  unfold join. induction 1 as [|s a Hs _ IH]; [done|].
  cbn. rewrite length_app. lia.
Qed.

Lemma join_with_empty_slot (a : list jsstring) :
  Forall (fun s => length s <= 1) a -> Exists (fun s => s = []) a ->
  length (join a) < length a.
Proof.
  unfold join. intros Ha Hex. induction Hex as [s a ->|s a Hex IH].
  - apply Forall_cons_1 in Ha as [_ Ha]. cbn.
    pose proof (join_short_length a Ha). unfold join in *. lia.
  - apply Forall_cons_1 in Ha as [Hs Ha]. cbn. rewrite length_app.
    specialize (IH Ha). lia.
Qed.

End Iteration.

Section Clear.
Context `{Host}.
Variable props : Props.t.

Lemma clear_cells_run w :
  PinInput.forEach_element
    (fun el _ => match el with
                 | Some el => PinItem.clear el
                 | None => ret tt
                 end) w
  = (set_elementsRef (map (fmap (Cell.setState (Cell.set_value [])))) w,
     Normal tt).
Proof.
  unfold PinInput.forEach_element, bind at 1. unfold gets at 1.
  rewrite (forEach_ext _
    (fun i => modify (modify_cell i (Cell.setState (Cell.set_value []))))).
  - destruct (forEach_modify_cell (Cell.setState (Cell.set_value []))
                (length (elementsRef w)) 0 w) as (els & -> & Hels).
    f_equal. unfold set_elementsRef. f_equal. apply list_eq. intros j.
    rewrite Hels, list_lookup_fmap.
    destruct (decide (0 <= j < 0 + length (elementsRef w))); [done|].
    rewrite lookup_ge_None_2 by lia. done.
  - intros i w0. unfold bind, PinInput.element, gets, modify.
    destruct (cell w0 i) eqn:E; [done|].
    by rewrite modify_cell_absent.
Qed.

Lemma clear_run w :
  PinInput.clear props w
  = PinInput.focus_element props 0
      (set_valuesRef (map (fun _ => []))
         (set_elementsRef
            (map (fmap (Cell.setState (Cell.set_value [])))) w)).
Proof.
  unfold PinInput.clear. unfold bind at 1. rewrite clear_cells_run.
  by unfold bind, modify.
Qed.

Lemma join_replicate_empty n : join (replicate n []) = [].
Proof. induction n; [done|]. by cbn. Qed.

Lemma cell_cleared w j :
  cell (set_valuesRef (map (fun _ => []))
          (set_elementsRef
             (map (fmap (Cell.setState (Cell.set_value [])))) w)) j
  = Cell.setState (Cell.set_value []) <$> cell w j.
Proof.
  unfold cell; cbn. rewrite list_lookup_fmap.
  by destruct (elementsRef w !! j) as [[c|]|].
Qed.

(** X14. [clear()] through the container's handle: every cell in the tree is
    emptied and so is every slot of the Code array; the first cell takes
    the focus; no callback is called and the timers that are pending stay
    pending. *)
Theorem clear_empties_the_row w :
  let w' := fst (PinInput.clear props w) in
  snd (PinInput.clear props w) = Normal tt /\
  valuesRef w' = replicate (length (valuesRef w)) [] /\
  join (valuesRef w') = [] /\
  (forall j, mounted w j = true -> value_of w' j = Some []) /\
  (forall j, mounted w j = false -> value_of w' j = value_of w j) /\
  (forall j, mounted w' j = mounted w j) /\
  calls w' = calls w /\ timers w' = timers w /\
  (mounted w 0 = true -> Props.disabled props = false ->
   activeElement w' = Some 0).
Proof.
  cbn zeta. rewrite clear_run.
  set (w1 := set_valuesRef _ _).
  pose proof (focus_element_blur_all props 0 w1) as Hframe.
  destruct (blur_all_fields _ _ Hframe) as (Hv & Hc & Ht & _).
  assert (Hvals : valuesRef w1 = replicate (length (valuesRef w)) []).
  { subst w1. cbn. induction (valuesRef w) as [|s l IH]; [done|].
    cbn. by rewrite IH. }
  assert (Hval1 : forall j, value_of w1 j
            = Cell.value <$> (Cell.setState (Cell.set_value []) <$> cell w j)).
  { intros j. unfold value_of. subst w1. by rewrite cell_cleared. }
  assert (Hm1 : forall j, mounted w1 j = mounted w j).
  { intros j. unfold mounted. subst w1. rewrite cell_cleared.
    destruct (cell w j) as [c|]; [|done]. cbn. unfold Cell.setState.
    by destruct c as [? ? ? ? ? []]. }
  split_and!.
  - by rewrite focus_element_run.
  - by rewrite Hv.
  - by rewrite Hv, Hvals, join_replicate_empty.
  - intros j Hm. rewrite (blur_all_value_of _ _ j Hframe), Hval1.
    apply mounted_cell in Hm as (c & -> & Hi). cbn. unfold Cell.setState.
    by rewrite Hi.
  - intros j Hm. rewrite (blur_all_value_of _ _ j Hframe), Hval1.
    unfold value_of, mounted in *. destruct (cell w j) as [c|]; [|done].
    cbn. unfold Cell.setState. by rewrite Hm.
  - intros j. by rewrite (blur_all_mounted _ _ j Hframe).
  - by rewrite Hc.
  - by rewrite Ht.
  - intros Hm Hd. rewrite <- Hm1 in Hm.
    by destruct (focus_element_active props 0 w1 Hm Hd) as [-> _].
Qed.

End Clear.

(** ** One code unit per slot *)

Section Short.
Context `{Host}.
Variable props : Props.t.

Lemma row_short_blur_all w w' :
  blur_all w' = blur_all w -> row_short w -> row_short w'.
Proof.
  intros E (Hv & Hc & Ht).
  destruct (blur_all_fields _ _ E) as (Ev & _ & Et & _).
  unfold row_short. rewrite Ev, Et.
  split_and!; [done| |done].
  apply (f_equal elementsRef) in E. cbn in E.
  set (P := fun el : option Cell.t =>
              match el with
              | Some c => length (Cell.value c) <= 1
              | None => True
              end) in *.
  assert (HP : forall l, Forall P (map (fmap (Cell.set_focus false)) l)
                         <-> Forall P l).
  { intros l. change (map ?f l) with (f <$> l). rewrite Forall_fmap.
    apply Forall_proper; [|done]. by intros [c|]. }
  apply HP. rewrite E. by apply HP.
Qed.

Lemma array_set_short i v (a : list jsstring) :
  Forall (fun s => length s <= 1) a -> length v <= 1 ->
  Forall (fun s => length s <= 1) (array_set i v a).
Proof.
  intros Ha Hv. unfold array_set. case_decide.
  - by apply Forall_insert.
  - apply Forall_app. split; [done|]. apply Forall_app. split.
    + apply list.Forall_forall.
      intros x [-> _]%elem_of_replicate. cbn. lia.
    + by constructor.
Qed.

Lemma row_short_cells (g : Cell.t -> Cell.t) i w :
  (forall c, length (Cell.value c) <= 1 -> length (Cell.value (g c)) <= 1) ->
  row_short w -> row_short (modify_cell i g w).
Proof.
  intros Hg (Hv & Hc & Ht). split_and!; [done| |done].
  unfold modify_cell; cbn. apply Forall_alter; [done|].
  intros [c|] _; [apply Hg|done].
Qed.

Lemma row_short_run_job j w :
  row_short w ->
  match j with Notify _ v _ => length v <= 1 | HideSecret _ _ => True end ->
  row_short (fst (PinInput.run_job props j w)).
Proof.
  intros Hw Hj. destruct j as [i b|i v b]; cbn [PinInput.run_job].
  - unfold PinItem.setShowSecret, modify. cbn [fst].
    apply row_short_cells; [|done]. intros c Hc. unfold Cell.setState.
    by destruct (Cell.inputRef c).
  - rewrite onItemChange_run. cbn zeta. cbn [fst].
    set (w1 := set_valuesRef (array_set i v) w).
    assert (row_short w1) as Hw1.
    { destruct Hw as (Hv & Hc & Ht). split_and!; [|done..].
      by apply array_set_short. }
    match goal with
    | |- row_short (set_calls _ ?w2) =>
        assert (row_short w2) as (Hv & Hc & Ht); [|by split_and!]
    end.
    destruct (_ && _); [|done].
    eapply row_short_blur_all; [apply focus_element_blur_all|done].
Qed.

Lemma row_short_turn limit w w' :
  row_short w -> PinInput.turn props limit w = Some w' -> row_short w'.
Proof.
  intros (Hv & Hc & Ht). unfold PinInput.turn.
  destruct (PinInput.earliest (timers w)) as [t|] eqn:E; [|done].
  destruct (due t <=? limit); [|done]. intros [= <-].
  apply row_short_run_job.
  - split_and!; [done|done|]. cbn.
    apply list.Forall_forall. intros t' [_ Hin]%list_elem_of_filter.
    rewrite list.Forall_forall in Ht. by apply Ht.
  - apply earliest_elem_of in E. rewrite list.Forall_forall in Ht.
    specialize (Ht t E). by destruct (job t).
Qed.

Lemma row_short_turns fuel : forall limit w,
  row_short w -> row_short (PinInput.turns props fuel limit w).
Proof.
  induction fuel as [|fuel IH]; intros limit w Hw; [done|].
  cbn [PinInput.turns].
  destruct (PinInput.turn props limit w) as [w'|] eqn:E; [|done].
  apply IH. by eapply row_short_turn.
Qed.

Lemma row_short_validateValue i raw w :
  row_short w -> row_short (fst (PinItem.validateValue props i raw w)).
Proof.
  intros (Hv & Hc & Ht). rewrite validateValue_fst.
  destruct (Props.secretDelay props =? 0); [done|].
  rewrite setSecretDelayed_run. cbn [fst]. split_and!; cbn; [done| |].
  - apply Forall_alter; [done|]. intros [c|] _; [|done]. cbn.
    unfold Cell.setState. by destruct (Cell.inputRef c).
  - apply Forall_app. split; [by apply drop_timer_Forall|].
    by repeat constructor.
Qed.

Lemma row_short_commit i v b w :
  length v <= 1 -> row_short w -> row_short (commit i v b w).
Proof.
  intros Hlen (Hv & Hc & Ht). split_and!; cbn; [done| |].
  - apply Forall_alter; [done|]. intros [c|] _; [|done]. cbn.
    unfold Cell.setState. by destruct (Cell.inputRef c).
  - apply Forall_app. split; [done|]. constructor; [done|constructor].
Qed.

Lemma row_short_update i raw b w :
  row_short w -> row_short (fst (PinItem.update props i raw b w)).
Proof.
  intros Hw. rewrite update_run. cbn zeta.
  pose proof (row_short_validateValue i raw w Hw) as Hw1.
  destruct (PinItem.validation props raw) as [v|e]; [|done].
  destruct (_ && _); [done|].
  destruct (Nat.ltb_spec (length v) 2); [|done].
  cbn [fst]. apply row_short_commit; [lia|done].
Qed.

Lemma row_short_focus_element k w :
  row_short w -> row_short (fst (PinInput.focus_element props k w)).
Proof.
  intros Hw. eapply row_short_blur_all; [apply focus_element_blur_all|done].
Qed.

Lemma row_short_handlePaste pastedValue w :
  row_short w -> row_short (fst (PinInput.handlePaste props pastedValue w)).
Proof.
  intros Hw. unfold PinInput.handlePaste. destruct (negb _); [done|].
  unfold PinInput.forEach_element, bind at 1. unfold gets at 1.
  apply forEach_invariant; [|done]. intros i w0 Hw0.
  unfold bind, PinInput.element, gets.
  destruct (cell w0 i); [|done]. by apply row_short_update.
Qed.

Lemma row_short_dispatch e w :
  row_short w -> row_short (fst (PinInput.dispatch props e w)).
Proof.
  intros Hw. destruct e as [i v|i k|i text|i|i]; cbn [PinInput.dispatch].
  - by apply row_short_update.
  - unfold PinItem.handleKeyDown, bind, PinItem.value, gets.
    destruct (_ && _); [|done].
    unfold PinInput.onBackspace, PinInput.handleBackspace.
    destruct (0 <? i); [|done]. by apply row_short_focus_element.
  - unfold PinItem.handlePaste, PinInput.onPaste.
    destruct (i =? 0); [|done]. by apply row_short_handlePaste.
  - rewrite input_focus_run. cbn [fst]. destruct (_ || _); [done|].
    eapply row_short_blur_all; [apply blur_all_focused|done].
  - unfold bind, gets. destruct (bool_decide _); [|done].
    unfold modify, PinItem.handleBlur, PinItem.setFocus. cbn [fst].
    apply row_short_cells.
    + intros c Hc. unfold Cell.setState. by destruct (Cell.inputRef c).
    + by destruct Hw as (Hv & Hc & Ht).
Qed.

Lemma row_short_clear w :
  row_short w -> row_short (fst (PinInput.clear props w)).
Proof.
  intros (Hv & Hc & Ht). rewrite clear_run.
  apply row_short_focus_element. split_and!; cbn; [| |done].
  - apply Forall_fmap, list.Forall_forall. intros s _. cbn. lia.
  - change (map ?f ?l) with (f <$> l). apply Forall_fmap.
    eapply list.Forall_impl; [exact Hc|]. intros [c|]; [|done]. cbn.
    unfold Cell.setState. destruct (Cell.inputRef c); cbn; lia.
Qed.

(** X8. One code unit per slot at most is kept. In a row where no slot
    of the Code array, no cell and no pending notification holds more
    than one code unit, every event, every timer that runs, every lapse
    of time, [clear()] and [focus()] leave it so, and the joined pin is
    not longer than the row. This says nothing of the first render,
    which does not pass through the guard of [update] (X29). *)
Theorem row_stays_short w :
  row_short w ->
  length (join (valuesRef w)) <= length (valuesRef w) /\
  (forall e, row_short (fst (PinInput.dispatch props e w))) /\
  (forall limit w', PinInput.turn props limit w = Some w' -> row_short w') /\
  (forall ms, row_short (PinInput.elapse props ms w)) /\
  row_short (PinInput.settle props w) /\
  row_short (fst (PinInput.clear props w)) /\
  row_short (fst (PinInput.focusFirstInput props w)).
Proof.
  intros Hw. split_and!.
  - apply join_short_length. by destruct Hw as (Hv & _).
  - intros e. by apply row_short_dispatch.
  - intros limit w'. by apply row_short_turn.
  - intros ms. unfold PinInput.elapse.
    pose proof (row_short_turns (length (timers w)) (now w + ms) w Hw)
      as (Hv & Hc & Ht).
    by split_and!.
  - by apply row_short_turns.
  - by apply row_short_clear.
  - unfold PinInput.focusFirstInput. destruct (_ <? _); [|done].
    by apply row_short_focus_element.
Qed.

End Short.

(** ** Delivery of the notifications *)

Section Unmasked.
Variable props : Props.t.

Lemma unmasked_modify_cell i (g : Cell.t -> Cell.t) w :
  (forall c, Cell.set_showSecret false (g c) = g (Cell.set_showSecret false c)) ->
  unmasked (modify_cell i g w) = modify_cell i g (unmasked w).
Proof.
  intros Hg. unfold unmasked, modify_cell, set_now, set_timers, set_elementsRef. cbn.
  f_equal. apply list_eq. intros j.
  rewrite list_lookup_alter, !list_lookup_fmap, list_lookup_alter.
  case_decide; [subst|done].
  destruct (elementsRef w !! j) as [[c|]|]; cbn; by rewrite ?Hg.
Qed.

Lemma unmasked_modify_secret i (g : Cell.t -> Cell.t) w :
  (forall c, Cell.set_showSecret false (g c) = Cell.set_showSecret false c) ->
  unmasked (modify_cell i g w) = unmasked w.
Proof.
  intros Hg. unfold unmasked, modify_cell, set_now, set_timers, set_elementsRef. cbn.
  f_equal. apply list_eq. intros j.
  rewrite !list_lookup_fmap, list_lookup_alter.
  case_decide; [|done]. subst.
  destruct (elementsRef w !! j) as [[c|]|]; cbn; by rewrite ?Hg.
Qed.

Lemma unmasked_cell w j :
  cell (unmasked w) j = Cell.set_showSecret false <$> cell w j.
Proof.
  unfold cell, unmasked; cbn. rewrite list_lookup_fmap.
  by destruct (elementsRef w !! j) as [[c|]|].
Qed.

Lemma unmasked_mounted w j : mounted (unmasked w) j = mounted w j.
Proof.
  unfold mounted. rewrite unmasked_cell. by destruct (cell w j).
Qed.

Lemma unmasked_value_of w j : value_of (unmasked w) j = value_of w j.
Proof.
  unfold value_of. rewrite unmasked_cell. by destruct (cell w j).
Qed.

Lemma setState_focus_unmasked b c :
  Cell.set_showSecret false (Cell.setState (Cell.set_focus b) c)
  = Cell.setState (Cell.set_focus b) (Cell.set_showSecret false c).
Proof. by destruct c as [? ? ? ? ? []]. Qed.

Lemma unmasked_focused k w : unmasked (focused k w) = focused k (unmasked w).
Proof.
  unfold focused.
  rewrite unmasked_modify_cell by apply setState_focus_unmasked.
  change (activeElement (unmasked w)) with (activeElement w).
  destruct (activeElement w) as [k0|].
  - change (unmasked (set_activeElement ?a ?w0))
      with (set_activeElement a (unmasked w0)).
    by rewrite unmasked_modify_cell by apply setState_focus_unmasked.
  - done.
Qed.

Lemma unmasked_focus_element k w :
  unmasked (fst (PinInput.focus_element props k w))
  = fst (PinInput.focus_element props k (unmasked w)).
Proof.
  rewrite !focus_element_run, unmasked_mounted. cbn [fst].
  change (activeElement (unmasked w)) with (activeElement w).
  destruct (_ && _); [apply unmasked_focused|done].
Qed.

Lemma unmasked_onItemChange v b i w :
  unmasked (fst (PinInput.onItemChange props v b i w))
  = fst (PinInput.onItemChange props v b i (unmasked w)).
Proof.
  rewrite !onItemChange_run. cbn zeta. cbn [fst].
  change (valuesRef (unmasked w)) with (valuesRef w).
  change (unmasked (set_calls ?f ?w0)) with (set_calls f (unmasked w0)).
  f_equal. destruct (_ && _); [|done].
  by rewrite unmasked_focus_element.
Qed.

Lemma unmasked_run_job j w :
  unmasked (fst (PinInput.run_job props j w))
  = if is_notification j then fst (PinInput.run_job props j (unmasked w))
    else unmasked w.
Proof.
  destruct j as [i b|i v b]; cbn [PinInput.run_job is_notification].
  - unfold PinItem.setShowSecret, modify. cbn [fst].
    apply unmasked_modify_secret. by intros [? ? ? ? ? []].
  - apply unmasked_onItemChange.
Qed.

Lemma unmasked_run_all js : forall w,
  forallb is_notification js = true ->
  unmasked (run_all props js w) = run_all props js (unmasked w).
Proof.
  induction js as [|j js IH]; intros w; [done|]. cbn [forallb].
  intros [Hj Hjs]%andb_true_iff. unfold run_all in *. cbn [foldl].
  by rewrite IH, unmasked_run_job, Hj.
Qed.

Lemma pending_notifications_notify w :
  forallb is_notification (pending_notifications w) = true.
Proof.
  unfold pending_notifications. apply forallb_forall.
  intros j (t & -> & [Hn _]%list_elem_of_filter)%list_elem_of_In%list_elem_of_fmap.
  unfold is_notify in Hn. by destruct (job t).
Qed.

(** The timers the loop takes by [limit] are the earliest in the queue:
    no notification, all of them due at [d0], stands before the one
    taken. *)
Lemma take_earliest limit d0 w t :
  NoDup (tid <$> timers w) ->
  Forall (fun t => is_notify t = true -> due t = d0) (timers w) ->
  d0 <= limit ->
  PinInput.earliest (timers w) = Some t ->
  let ts' := filter (fun t' => tid t' <> tid t) (timers w) in
  NoDup (tid <$> ts') /\
  S (length ts') = length (timers w) /\
  Forall (fun t => is_notify t = true -> due t = d0) ts' /\
  (due t <= limit ->
   filter (fun t => limit < due t) ts'
   = filter (fun t => limit < due t) (timers w) /\
   job <$> filter (fun t => is_notify t = true) (timers w)
   = (if is_notify t then [job t] else [])
     ++ (job <$> filter (fun t => is_notify t = true) ts')) /\
  (limit < due t ->
   filter (fun t => is_notify t = true) (timers w) = [] /\
   filter (fun t => limit < due t) (timers w) = timers w).
Proof.
  intros Hnd Hdue Hd0 (l1 & l2 & Ets & H1 & H2)%earliest_split. cbn zeta.
  rewrite Ets in *. rewrite remove_by_tid by done.
  apply Forall_app in Hdue as [Hdue1 Hdue2].
  apply Forall_cons_1 in Hdue2 as [Hduet Hdue2].
  split_and!.
  - by eapply NoDup_tid_remove.
  - rewrite !length_app. cbn. lia.
  - by apply Forall_app.
  - intros Ht. split.
    + rewrite !list.filter_app, filter_cons_False; [done|lia].
    + rewrite !list.filter_app, filter_cons.
      destruct (is_notify t) eqn:Hn.
      * rewrite decide_True by done.
        assert (Hl1 : filter (fun t => is_notify t = true) l1 = []).
        { apply filter_none. intros x Hx Hnx.
          rewrite list.Forall_forall in H1, Hdue1.
          specialize (H1 x Hx). specialize (Hdue1 x Hx Hnx).
          specialize (Hduet eq_refl). lia. }
        by rewrite Hl1.
      * rewrite decide_False by done. by rewrite fmap_app.
  - intros Ht. split.
    + apply filter_none. intros x Hx Hn.
      rewrite list.Forall_forall in H1, H2, Hdue1, Hdue2.
      apply elem_of_app in Hx as [Hx|[->|Hx]%elem_of_cons].
      * specialize (H1 x Hx). specialize (Hdue1 x Hx Hn). lia.
      * specialize (Hduet Hn). lia.
      * specialize (H2 x Hx). specialize (Hdue2 x Hx Hn). lia.
    + assert (Hall : Forall (fun t' => limit < due t') (l1 ++ t :: l2)).
      { apply Forall_app. split; [|constructor; [done|]].
        - eapply list.Forall_impl; [exact H1|]. cbn. lia.
        - eapply list.Forall_impl; [exact H2|]. cbn. lia. }
      clear -Hall. induction Hall as [|x l Hx _ IH]; [done|].
      by rewrite filter_cons_True, IH.
Qed.

Lemma unmasked_taken w t :
  unmasked
    (set_now (now (set_timers (filter (fun t' => tid t' <> tid t)) w)
              `max` due t)
       (set_timers (filter (fun t' => tid t' <> tid t)) w))
  = unmasked w.
Proof. done. Qed.

(** The loop up to [limit], when the notifications that wait are all due
    at [d0], no later than [limit]. *)
Lemma turns_deliver_until fuel limit d0 : forall w,
  NoDup (tid <$> timers w) ->
  Forall (fun t => is_notify t = true -> due t = d0) (timers w) ->
  d0 <= limit ->
  length (timers w) <= fuel ->
  let w' := PinInput.turns props fuel limit w in
  unmasked w' = unmasked (run_all props (pending_notifications w) w) /\
  timers w' = filter (fun t => limit < due t) (timers w) /\
  now w <= now w' /\ now w' <= now w `max` limit.
Proof.
  induction fuel as [|fuel IH]; intros w Hnd Hdue Hd0 Hfuel; cbn zeta.
  { destruct (timers w) eqn:E; [|cbn in Hfuel; lia].
    unfold pending_notifications. rewrite E. cbn. split_and!; [done..|lia]. }
  cbn [PinInput.turns]. unfold PinInput.turn.
  destruct (PinInput.earliest (timers w)) as [t|] eqn:E.
  - destruct (take_earliest limit d0 w t Hnd Hdue Hd0 E)
      as (Hnd' & Hlen & Hdue' & Hnow & Hlater).
    cbn zeta in *.
    destruct (Nat.leb_spec (due t) limit) as [Hle|Hlt]; cbv iota beta.
    + destruct (Hnow Hle) as [Hfilter Hjobs]. clear Hnow Hlater.
      set (w2 := set_now _ (set_timers _ w)).
      destruct (run_job_timers props (job t) w2) as [Et En].
      set (w' := fst (PinInput.run_job props (job t) w2)) in *.
      assert (Hnow2 : now w' = now w `max` due t) by (by rewrite En).
      destruct (IH w') as (IHu & IHt & IHn1 & IHn2).
      { by rewrite Et. }
      { by rewrite Et. }
      { done. }
      { rewrite Et. cbn. lia. }
      split_and!; [|by rewrite IHt, Et|lia|lia].
      rewrite IHu.
      rewrite !unmasked_run_all by apply pending_notifications_notify.
      unfold pending_notifications at 2. rewrite Hjobs.
      unfold pending_notifications. rewrite Et.
      change (timers w2) with (filter (fun t' => tid t' <> tid t) (timers w)).
      pose proof (unmasked_run_job (job t) w2) as Hrun. fold w' in Hrun.
      assert (Hu2 : unmasked w2 = unmasked w)
        by exact (unmasked_taken w t).
      rewrite Hu2 in Hrun.
      unfold is_notify. destruct (job t) as [i b|i v b];
        cbn [is_notification app] in *.
      * by rewrite Hrun.
      * rewrite Hrun. reflexivity.
    + destruct (Hlater Hlt) as [Hnone Hall].
      unfold pending_notifications. rewrite Hnone, Hall.
      split_and!; [done..|lia].
  - apply earliest_None in E. unfold pending_notifications. rewrite E.
    split_and!; [done..|lia].
Qed.

Lemma turns_deliver fuel w :
  NoDup (tid <$> timers w) ->
  Forall (fun t => is_notify t = true -> due t = now w) (timers w) ->
  length (timers w) <= fuel ->
  let w' := PinInput.turns props fuel (now w) w in
  unmasked w' = unmasked (run_all props (pending_notifications w) w) /\
  timers w' = filter (fun t => now w < due t) (timers w) /\
  now w' = now w.
Proof.
  intros Hnd Hdue Hfuel.
  destruct (turns_deliver_until fuel (now w) (now w) w Hnd Hdue (le_n _)
              Hfuel) as (Hu & Ht & Hn1 & Hn2).
  cbn zeta in *. split_and!; [done|done|lia].
Qed.

(** X9. Every notification is queued with no delay and every hide with
    the secret delay, so the notifications that wait in the queue are
    delivered in the order the cells queued them, and a hide changes
    nothing but a mask: letting the timers that are due run, now or after
    any time, leaves the Code array, the callbacks' log, the cells'
    characters and the focus as the notifications run one after another
    leave them, and leaves in the queue the timers that are due later. *)
Theorem settle_delivers_in_order w :
  NoDup (tid <$> timers w) ->
  Forall (fun t => is_notify t = true -> due t = now w) (timers w) ->
  let delivered := run_all props (pending_notifications w) w in
  (let w' := PinInput.settle props w in
   valuesRef w' = valuesRef delivered /\
   calls w' = calls delivered /\
   activeElement w' = activeElement delivered /\
   (forall j, value_of w' j = value_of delivered j) /\
   timers w' = filter (fun t => now w < due t) (timers w) /\
   pending_notifications w' = [] /\
   now w' = now w) /\
  (forall ms,
     let w' := PinInput.elapse props ms w in
     valuesRef w' = valuesRef delivered /\
     calls w' = calls delivered /\
     activeElement w' = activeElement delivered /\
     (forall j, value_of w' j = value_of delivered j) /\
     timers w' = filter (fun t => now w + ms < due t) (timers w) /\
     pending_notifications w' = [] /\
     now w' = now w + ms).
Proof.
  intros Hnd Hdue. cbn zeta.
  assert (Hgen : forall limit, now w <= limit ->
            let w' := PinInput.turns props (length (timers w)) limit w in
            unmasked w'
            = unmasked (run_all props (pending_notifications w) w) /\
            timers w' = filter (fun t => limit < due t) (timers w) /\
            pending_notifications w' = [] /\
            now w <= now w' /\ now w' <= limit).
  { intros limit Hlimit. cbn zeta.
    destruct (turns_deliver_until (length (timers w)) limit (now w) w
                Hnd Hdue Hlimit (le_n _)) as (Hu & Ht & Hn1 & Hn2).
    cbn zeta in *. split_and!; [done|done| |done|lia].
    unfold pending_notifications. rewrite Ht.
    rewrite filter_none; [done|]. intros t [Hlt Hin]%list_elem_of_filter Hnt.
    rewrite list.Forall_forall in Hdue. specialize (Hdue t Hin Hnt). lia. }
  set (delivered := run_all props (pending_notifications w) w) in *.
  split.
  - unfold PinInput.settle.
    destruct (Hgen (now w) (le_n _)) as (Hu & Ht & Hpn & Hn1 & Hn2).
    cbn zeta in *.
    set (w' := PinInput.turns props (length (timers w)) (now w) w) in *.
    split_and!.
    + exact (f_equal valuesRef Hu).
    + exact (f_equal calls Hu).
    + exact (f_equal activeElement Hu).
    + intros j. by rewrite <- (unmasked_value_of w'), Hu, unmasked_value_of.
    + done.
    + done.
    + lia.
  - intros ms. unfold PinInput.elapse. cbn zeta.
    destruct (Hgen (now w + ms) ltac:(lia)) as (Hu & Ht & Hpn & _).
    cbn zeta in *.
    set (w' := PinInput.turns props (length (timers w)) (now w + ms) w) in *.
    split_and!.
    + exact (f_equal valuesRef Hu).
    + exact (f_equal calls Hu).
    + exact (f_equal activeElement Hu).
    + intros j.
      change (value_of (set_now (now w + ms) w') j) with (value_of w' j).
      by rewrite <- (unmasked_value_of w'), Hu, unmasked_value_of.
    + done.
    + done.
    + done.
Qed.

End Unmasked.

(** ** What a notification leaves alone *)

Section Frames.
Variable props : Props.t.

Lemma blur_all_pending_hide w w' j :
  blur_all w' = blur_all w -> pending_hide w' j = pending_hide w j.
Proof.
  intros E%(blur_all_proj Cell.secretTimeoutRef _ _ j); [|done].
  unfold pending_hide. destruct (cell w' j), (cell w j); cbn in *; congruence.
Qed.

Lemma pending_hide_modify_cell i g w j :
  (forall c, Cell.secretTimeoutRef (g c) = Cell.secretTimeoutRef c) ->
  pending_hide (modify_cell i g w) j = pending_hide w j.
Proof.
  intros Hg. unfold pending_hide. rewrite cell_modify_cell.
  case_decide; [subst|done]. destruct (cell w j); cbn; by rewrite ?Hg.
Qed.

Lemma secretTimeoutRef_setState f c :
  (forall c, Cell.secretTimeoutRef (f c) = Cell.secretTimeoutRef c) ->
  Cell.secretTimeoutRef (Cell.setState f c) = Cell.secretTimeoutRef c.
Proof. intros Hf. unfold Cell.setState. by destruct (Cell.inputRef c). Qed.

Lemma run_job_frame j w :
  let w' := fst (PinInput.run_job props j w) in
  timers w' = timers w /\ nextTimer w' = nextTimer w /\ now w' = now w /\
  (forall k, pending_hide w' k = pending_hide w k) /\
  (forall k, mounted w' k = mounted w k) /\
  (forall k, match j with
             | HideSecret i b =>
                 masked w' k = if decide (i = k)
                               then (if mounted w i then Some b
                                     else masked w i)
                               else masked w k
             | Notify _ _ _ => masked w' k = masked w k
             end).
Proof.
  cbn zeta. destruct j as [i b|i v b]; cbn [PinInput.run_job].
  - unfold PinItem.setShowSecret, modify. cbn [fst].
    split_and!; [done..| | |].
    + intros k. apply pending_hide_modify_cell. intros c.
      by apply secretTimeoutRef_setState.
    + intros k. unfold mounted. rewrite cell_modify_cell.
      case_decide; [subst|done]. destruct (cell w k) as [c|]; [|done].
      cbn. unfold Cell.setState. by destruct c as [? ? ? ? ? []].
    + intros k. unfold masked, mounted. rewrite cell_modify_cell.
      case_decide; [subst|done]. destruct (cell w k) as [c|]; [|done].
      cbn. unfold Cell.setState. by destruct (Cell.inputRef c).
  - rewrite onItemChange_run. cbn zeta. cbn [fst].
    set (w1 := set_valuesRef (array_set i v) w).
    match goal with
    | |- context [set_calls _ ?w2] =>
        assert (blur_all w2 = blur_all w1) as Hframe
    end.
    { destruct (_ && _); [|done]. apply focus_element_blur_all. }
    destruct (blur_all_fields _ _ Hframe) as (_ & _ & Et & En & Eno & _).
    split_and!.
    + exact Et.
    + exact En.
    + exact Eno.
    + intros k. exact (blur_all_pending_hide _ _ k Hframe).
    + intros k. exact (blur_all_mounted _ _ k Hframe).
    + intros k. exact (blur_all_masked _ _ k Hframe).
Qed.

Lemma onItemChange_cells v b i w j :
  value_of (fst (PinInput.onItemChange props v b i w)) j = value_of w j /\
  mounted (fst (PinInput.onItemChange props v b i w)) j = mounted w j.
Proof.
  rewrite onItemChange_run. cbn zeta. cbn [fst].
  set (w1 := set_valuesRef (array_set i v) w).
  change (value_of (set_calls ?f ?w0) j) with (value_of w0 j).
  change (mounted (set_calls ?f ?w0) j) with (mounted w0 j).
  change (value_of w j) with (value_of w1 j).
  change (mounted w j) with (mounted w1 j).
  destruct (_ && _); [|done].
  pose proof (focus_element_blur_all props (i + 1) w1) as Hframe.
  split; [by apply blur_all_value_of|by apply blur_all_mounted].
Qed.

Lemma unmasked_pending_hide w j :
  pending_hide (unmasked w) j = pending_hide w j.
Proof.
  unfold pending_hide. rewrite unmasked_cell. by destruct (cell w j).
Qed.

Lemma run_job_valuesRef j w :
  valuesRef (fst (PinInput.run_job props j w)) = write_slot (valuesRef w) j /\
  length (elementsRef (fst (PinInput.run_job props j w)))
  = length (elementsRef w).
Proof.
  destruct j as [i b|i v b]; cbn [PinInput.run_job write_slot].
  - unfold PinItem.setShowSecret, modify, modify_cell. cbn.
    by rewrite length_alter.
  - rewrite onItemChange_run. cbn zeta. cbn [fst].
    set (w1 := set_valuesRef (array_set i v) w).
    unfold set_calls; cbn [valuesRef elementsRef].
    destruct (_ && _); [|done].
    by destruct (blur_all_fields _ _
         (focus_element_blur_all props (i + 1) w1))
      as (-> & _ & _ & _ & _ & ->).
Qed.

(** What running timer callbacks one after another leaves alone, and
    what it writes. *)
Lemma run_all_frame js : forall w,
  let w' := run_all props js w in
  valuesRef w' = foldl write_slot (valuesRef w) js /\
  length (elementsRef w') = length (elementsRef w) /\
  timers w' = timers w /\ nextTimer w' = nextTimer w /\ now w' = now w /\
  (forall k, pending_hide w' k = pending_hide w k) /\
  (forall k, mounted w' k = mounted w k) /\
  (forall k, forallb is_notification js = true ->
             value_of w' k = value_of w k /\ masked w' k = masked w k).
Proof.
  induction js as [|j js IH]; intros w; cbn zeta; [by split_and!|].
  change (run_all props (j :: js) w)
    with (run_all props js (fst (PinInput.run_job props j w))).
  destruct (IH (fst (PinInput.run_job props j w)))
    as (IHv & IHl & IHt & IHn & IHnow & IHp & IHm & IHval).
  destruct (run_job_frame j w) as (Et & En & Enow & Hp & Hm & Hk).
  destruct (run_job_valuesRef j w) as (Ev & El).
  cbn zeta in *.
  split_and!.
  - by rewrite IHv, Ev.
  - by rewrite IHl, El.
  - by rewrite IHt, Et.
  - by rewrite IHn, En.
  - by rewrite IHnow, Enow.
  - intros k. by rewrite IHp, Hp.
  - intros k. by rewrite IHm, Hm.
  - intros k [Hj Hjs]%andb_true_iff.
    destruct (IHval k Hjs) as [-> ->]. specialize (Hk k).
    destruct j as [i b|i v b]; [done|]. split; [|done].
    cbn [PinInput.run_job]. apply onItemChange_cells.
Qed.

Lemma write_slots_length js : forall (V : list jsstring),
  Forall (fun j => match j with
                   | Notify i _ _ => i < length V
                   | HideSecret _ _ => True
                   end) js ->
  length (foldl write_slot V js) = length V.
Proof.
  induction js as [|j js IH]; intros V; [done|].
  intros [Hj Hjs]%Forall_cons_1. cbn [foldl].
  assert (length (write_slot V j) = length V) as Hlen.
  { destruct j as [i b|i v b]; [done|]. cbn.
    by rewrite array_set_in_range, length_insert by done. }
  rewrite IH; [done|]. by rewrite Hlen.
Qed.

(** The loop up to [limit], field by field. *)
Lemma turns_frame fuel limit d0 w :
  NoDup (tid <$> timers w) ->
  Forall (fun t => is_notify t = true -> due t = d0) (timers w) ->
  d0 <= limit ->
  length (timers w) <= fuel ->
  let w' := PinInput.turns props fuel limit w in
  valuesRef w' = eventual_values w /\
  calls w' = calls (run_all props (pending_notifications w) w) /\
  activeElement w'
  = activeElement (run_all props (pending_notifications w) w) /\
  length (elementsRef w') = length (elementsRef w) /\
  timers w' = filter (fun t => limit < due t) (timers w) /\
  nextTimer w' = nextTimer w /\
  (forall k, pending_hide w' k = pending_hide w k) /\
  (forall k, mounted w' k = mounted w k) /\
  (forall k, value_of w' k = value_of w k) /\
  pending_notifications w' = [] /\
  now w <= now w' /\ now w' <= now w `max` limit.
Proof.
  intros Hnd Hdue Hd0 Hfuel. cbn zeta.
  destruct (turns_deliver_until props fuel limit d0 w Hnd Hdue Hd0 Hfuel)
    as (Hu & Ht & Hn1 & Hn2). cbn zeta in *.
  destruct (run_all_frame (pending_notifications w) w)
    as (Rv & Rl & _ & Rn & _ & Rp & Rm & Rval). cbn zeta in *.
  set (w' := PinInput.turns props fuel limit w) in *.
  set (wr := run_all props (pending_notifications w) w) in *.
  split_and!.
  - unfold eventual_values. rewrite <- Rv. exact (f_equal valuesRef Hu).
  - exact (f_equal calls Hu).
  - exact (f_equal activeElement Hu).
  - rewrite <- Rl.
    apply (f_equal (fun w => length (elementsRef w))) in Hu. cbn in Hu.
    by rewrite !length_map in Hu.
  - done.
  - rewrite <- Rn. exact (f_equal nextTimer Hu).
  - intros k.
    by rewrite <- (unmasked_pending_hide w'), Hu, unmasked_pending_hide, Rp.
  - intros k. by rewrite <- (unmasked_mounted w'), Hu, unmasked_mounted, Rm.
  - intros k. rewrite <- (unmasked_value_of w'), Hu, unmasked_value_of.
    by destruct (Rval k (pending_notifications_notify w)).
  - unfold pending_notifications. rewrite Ht.
    rewrite filter_none; [done|]. intros t [Hlt Hin]%list_elem_of_filter Hnt.
    rewrite list.Forall_forall in Hdue. specialize (Hdue t Hin Hnt). lia.
  - done.
  - done.
Qed.

End Frames.

(** ** A keystroke and its notification *)

Section Keystroke.
Context `{Host}.
Variable props : Props.t.

Lemma quiet_queue w :
  quiet w = true ->
  Forall (fun t => (tid t < nextTimer w)%positive) (timers w) /\
  NoDup (tid <$> timers w) /\
  filter (fun t => is_notify t = true) (timers w) = [] /\
  (forall j id, pending_hide w j = Some id -> (id < nextTimer w)%positive).
Proof.
  intros Hq. destruct (quiet_distributing w [] Hq)
    as (_ & _ & _ & _ & _ & Hfresh & Hnd & _ & Hnone & Hpend & _).
  split_and!; [done|done| |].
  - rewrite take_0 in Hnone. by apply fmap_nil_inv in Hnone.
  - intros j id. apply Hpend. lia.
Qed.

(** The queue once a cell has adopted a value in a row that had nothing
    left to deliver: one notification, due at once. *)
Lemma commit_queue i raw v b w :
  quiet w = true ->
  let w1 := commit i v b (fst (PinItem.validateValue props i raw w)) in
  NoDup (tid <$> timers w1) /\
  Forall (fun t => is_notify t = true -> due t = now w1) (timers w1) /\
  pending_notifications w1 = [Notify i v b] /\
  valuesRef w1 = valuesRef w /\ calls w1 = calls w /\
  activeElement w1 = activeElement w /\
  (forall j, mounted w1 j = mounted w j) /\
  (mounted w i = true -> value_of w1 i = Some v).
Proof.
  intros (Hfresh & Hnd & Hnone & Hpend)%quiet_queue. cbn zeta.
  destruct (validateValue_frame props i raw w) as (Hv & Hc & Ha & Hn & _).
  destruct (validateValue_queue props i raw w Hfresh Hnd)
    as (_ & Hfresh1 & Hnd1 & Hsub & Hfilter & _).
  pose proof (validateValue_mounted props i raw w) as Hm.
  set (w0 := fst (PinItem.validateValue props i raw w)) in *.
  assert (Hnone1 : filter (fun t => is_notify t = true) (timers w0) = []).
  { rewrite Hfilter; [done|]. intros t Hin Hnt.
    assert (t ∈ filter (fun t => is_notify t = true) (timers w)) as Habs
      by by apply list_elem_of_filter.
    rewrite Hnone in Habs. by apply elem_of_nil in Habs. }
  split_and!; cbn [commit timers now valuesRef calls activeElement].
  - rewrite fmap_app. apply list.NoDup_app. split_and!; [done| |].
    + intros x Hx [->|Habs%elem_of_nil]%elem_of_cons; [|done].
      apply list_elem_of_fmap in Hx as (t & Ht & Hin).
      rewrite list.Forall_forall in Hfresh1. specialize (Hfresh1 t Hin).
      cbn in Ht. lia.
    + apply NoDup_singleton.
  - apply Forall_app. split.
    + apply list.Forall_forall. intros t Hin Hnt.
      assert (t ∈ filter (fun t => is_notify t = true) (timers w0)) as Habs
        by by apply list_elem_of_filter.
      rewrite Hnone1 in Habs. by apply elem_of_nil in Habs.
    + constructor; [cbn; lia|constructor].
  - unfold pending_notifications. cbn [commit timers].
    rewrite list.filter_app, Hnone1. cbn [app].
    by rewrite filter_cons_True by done.
  - done.
  - done.
  - done.
  - intros j. by rewrite mounted_commit, Hm.
  - intros Hmi. apply commit_value_of. by rewrite Hm.
Qed.

(** X6. A keystroke and its notification. In a row that has nothing left to
    deliver, a change event on a cell in the tree whose validated value
    [v] is new and of one code unit at most is reported exactly once: the
    cell and its slot of the Code array take [v], [onChange] is called
    once with the joined pin, [onComplete] after it exactly when the pin
    has the configured length, and the focus moves on after a character
    short of the last cell. A change event whose validated value is the
    one the cell shows, or is longer than one code unit, is not reported
    at all. *)
Theorem keystroke_is_reported_once i raw v cur w :
  quiet w = true ->
  value_of w i = Some cur ->
  mounted w i = true ->
  i < length (valuesRef w) ->
  PinItem.validation props (str raw) = Normal v ->
  let L := Props.length props in
  let w2 := PinInput.settle props
              (fst (PinInput.dispatch props (PinInput.Change i raw) w)) in
  let pin := join (<[i:=v]> (valuesRef w)) in
  let currentIndex := if (length v =? 1) && (S i <? L) then S i else i in
  (v <> cur -> length v < 2 ->
   value_of w2 i = Some v /\
   valuesRef w2 = <[i:=v]> (valuesRef w) /\
   calls w2 = calls w ++ [OnChange pin currentIndex] ++
              (if length pin =? L then [OnComplete pin currentIndex]
               else []) /\
   pending_notifications w2 = [] /\
   (length v = 1 -> S i < L -> mounted w (S i) = true ->
    Props.disabled props = false -> activeElement w2 = Some (S i)) /\
   (v = [] \/ L <= S i -> activeElement w2 = activeElement w)) /\
  (v = cur \/ 2 <= length v ->
   value_of w2 i = Some cur /\ valuesRef w2 = valuesRef w /\
   calls w2 = calls w /\ pending_notifications w2 = [] /\
   activeElement w2 = activeElement w).
Proof.
  intros Hq Hcur Hm Hi Hv. cbn zeta. cbn [PinInput.dispatch].
  unfold PinItem.handleChange. rewrite update_run, Hv. cbn zeta.
  rewrite andb_true_r.
  pose proof (validateValue_value_of props i (str raw) w i) as Hval0.
  rewrite Hcur in Hval0. rewrite Hval0.
  change (default [] (Some cur)) with cur.
  split.
  - intros Hne Hlen.
    rewrite bool_decide_eq_false_2 by done.
    apply Nat.ltb_lt in Hlen as Hlt. rewrite Hlt. cbn [fst].
    destruct (commit_queue i (str raw) v false w Hq)
      as (Hnd & Hdue & Hpn & Hvs & Hcs & Hact & Hmo & Hval).
    cbn zeta in *.
    set (w1 := commit i v false _) in *.
    destruct (turns_deliver props (length (timers w1)) w1 Hnd Hdue (le_n _))
      as (Hu & Ht & Hn). cbn zeta in Hu, Ht, Hn.
    fold (PinInput.settle props w1) in Hu, Ht, Hn.
    set (w2 := PinInput.settle props w1) in *.
    rewrite Hpn in Hu. unfold run_all in Hu. cbn [foldl PinInput.run_job] in Hu.
    destruct (onItemChange_cells props v false i w1 i) as [Hcv _].
    pose proof (onItemChange_run props v false i w1) as Hrun.
    cbn zeta in Hrun. rewrite Hvs, array_set_in_range in Hrun by done.
    set (w3 := fst (PinInput.onItemChange props v false i w1)) in *.
    assert (Hval2 : forall j, value_of w2 j = value_of w3 j).
    { intros j. by rewrite <- (unmasked_value_of w2), Hu, unmasked_value_of. }
    apply (f_equal fst) in Hrun. cbn [fst] in Hrun. fold w3 in Hrun.
    assert (Hw1v : valuesRef (set_valuesRef (array_set i v) w1)
                   = <[i:=v]> (valuesRef w)).
    { change (array_set i v (valuesRef w1) = <[i:=v]> (valuesRef w)).
      by rewrite Hvs, array_set_in_range. }
    assert (Hw3v : valuesRef w3 = <[i:=v]> (valuesRef w)).
    { rewrite Hrun. unfold set_calls; cbn [valuesRef].
      destruct (_ && _); [|done].
      by destruct (blur_all_fields _ _
           (focus_element_blur_all props (i + 1)
              (set_valuesRef (array_set i v) w1))) as (-> & _). }
    assert (Hw3c : calls w3 = calls w ++ [OnChange (join (<[i:=v]> (valuesRef w)))
                      (if (length v =? 1) && (S i <? Props.length props)
                       then S i else i)] ++
                    (if length (join (<[i:=v]> (valuesRef w)))
                        =? Props.length props
                     then [OnComplete (join (<[i:=v]> (valuesRef w)))
                             (if (length v =? 1) && (S i <? Props.length props)
                              then S i else i)]
                     else [])).
    { rewrite Hrun. unfold set_calls; cbn [calls negb andb app].
      rewrite andb_true_r. replace (i + 1) with (S i) by lia.
      f_equal. destruct (_ && _); [|done].
      by destruct (blur_all_fields _ _
           (focus_element_blur_all props (S i)
              (set_valuesRef (array_set i v) w1))) as (_ & -> & _). }
    split_and!.
    + by rewrite Hval2, Hcv, Hval.
    + by rewrite (f_equal valuesRef Hu : valuesRef w2 = valuesRef w3).
    + by rewrite (f_equal calls Hu : calls w2 = calls w3).
    + unfold pending_notifications. rewrite Ht.
      rewrite filter_none; [done|].
      intros t [Hlate Hin]%list_elem_of_filter Hnt.
      rewrite list.Forall_forall in Hdue. specialize (Hdue t Hin Hnt). lia.
    + intros Hone Hnext Hmnext Hd.
      rewrite (f_equal activeElement Hu : activeElement w2 = activeElement w3).
      rewrite Hrun. unfold set_calls; cbn [activeElement].
      rewrite Hone. apply Nat.ltb_lt in Hnext as ->. cbn [Nat.eqb andb].
      replace (i + 1) with (S i) by lia.
      apply focus_element_active; [|done].
      change (mounted (set_valuesRef ?f ?w0) ?j) with (mounted w0 j).
      by rewrite Hmo.
    + intros Hstay.
      rewrite (f_equal activeElement Hu : activeElement w2 = activeElement w3).
      rewrite Hrun. unfold set_calls; cbn [activeElement].
      assert ((length v =? 1) && (S i <? Props.length props) = false) as ->.
      { destruct Hstay as [->|Hlast]; [done|].
        apply andb_false_iff. right. apply Nat.ltb_ge. lia. }
      done.
  - intros Hskip.
    set (w1 := fst (PinItem.validateValue props i (str raw) w)) in *.
    assert ((if bool_decide (v = cur)
             then (w1, Normal ())
             else if length v <? 2 then (commit i v false w1, Normal ())
                  else (w1, Normal ())) = (w1, Normal ())) as ->.
    { destruct Hskip as [->|Hlen].
      - by rewrite bool_decide_eq_true_2.
      - destruct (bool_decide _); [done|].
        by apply Nat.ltb_ge in Hlen as ->. }
    cbn [fst].
    destruct (quiet_queue w Hq) as (Hfresh & Hnd & Hnone & Hpend).
    destruct (validateValue_frame props i (str raw) w)
      as (Hvs & Hcs & Hact & Hn & _).
    destruct (validateValue_queue props i (str raw) w Hfresh Hnd)
      as (_ & Hfresh1 & Hnd1 & Hsub & Hfilter & _).
    fold w1 in Hvs, Hcs, Hact, Hn, Hfresh1, Hnd1, Hsub, Hfilter.
    assert (Hnone1 : filter (fun t => is_notify t = true) (timers w1) = []).
    { rewrite Hfilter; [done|]. intros t Hin Hnt.
      assert (t ∈ filter (fun t => is_notify t = true) (timers w)) as Habs
        by by apply list_elem_of_filter.
      rewrite Hnone in Habs. by apply elem_of_nil in Habs. }
    assert (Hdue : Forall (fun t => is_notify t = true -> due t = now w1)
                     (timers w1)).
    { apply list.Forall_forall. intros t Hin Hnt.
      assert (t ∈ filter (fun t => is_notify t = true) (timers w1)) as Habs
        by by apply list_elem_of_filter.
      rewrite Hnone1 in Habs. by apply elem_of_nil in Habs. }
    destruct (turns_deliver props (length (timers w1)) w1 Hnd1 Hdue (le_n _))
      as (Hu & Ht & _). cbn zeta in Hu, Ht.
    fold (PinInput.settle props w1) in Hu, Ht.
    set (w2 := PinInput.settle props w1) in *.
    unfold pending_notifications in Hu at 1. rewrite Hnone1 in Hu.
    change (run_all props (job <$> []) w1) with w1 in Hu.
    split_and!.
    + by rewrite <- (unmasked_value_of w2), Hu, unmasked_value_of.
    + by rewrite (f_equal valuesRef Hu : valuesRef w2 = valuesRef w1).
    + by rewrite (f_equal calls Hu : calls w2 = calls w1).
    + unfold pending_notifications. rewrite Ht.
      rewrite filter_none; [done|].
      intros t [Hlate Hin]%list_elem_of_filter Hnt.
      rewrite list.Forall_forall in Hdue. specialize (Hdue t Hin Hnt). lia.
    + by rewrite (f_equal activeElement Hu : activeElement w2 = activeElement w1).
Qed.

End Keystroke.

(** ** Paste of any characters *)

Section PasteAny.
Context `{Host}.
Variable props : Props.t.

Lemma update_paste_short j c w :
  length (validated props c) <= 1 ->
  PinItem.update props j (str [c]) true w
  = (commit j (validated props c) true
       (fst (PinItem.validateValue props j (str [c]) w)), Normal tt).
Proof.
  intros Hlen. rewrite update_run, validation_validated. cbn zeta.
  rewrite andb_false_r.
  by destruct (Nat.ltb_spec (length (validated props c)) 2); [|lia].
Qed.

(** Updating one more cell during a paste, whatever the cell adopts. *)
Lemma distributing_commit w0 vs lo w c :
  distributing w0 vs lo w ->
  vs !! lo = Some (validated props c) ->
  mounted w0 lo = true ->
  distributing w0 vs (S lo)
    (commit lo (validated props c) true
       (fst (PinItem.validateValue props lo (str [c]) w))).
Proof.
  intros (Hv & Hc & Hn & Hlen & HN & Hfresh & Hnd & Hnot & Hq & Hpend
          & Hval & Hm) Hvs Hmo.
  destruct (validateValue_frame props lo (str [c]) w)
    as (Hv1 & Hc1 & _ & Hn1 & Hlen1).
  destruct (validateValue_queue props lo (str [c]) w Hfresh Hnd)
    as (HN1 & Hfresh1 & Hnd1 & Hsub1 & Hfilter1 & Hpend1).
  pose proof (validateValue_value_of props lo (str [c]) w) as Hval1.
  pose proof (validateValue_mounted props lo (str [c]) w) as Hm1.
  set (w1 := fst (PinItem.validateValue props lo (str [c]) w)) in *.
  set (v := validated props c) in *.
  rewrite list.Forall_forall in Hnot.
  assert (Hfilter : filter (fun t => is_notify t = true) (timers w1)
                    = filter (fun t => is_notify t = true) (timers w)).
  { apply Hfilter1. intros t Hin Hnt Hp.
    destruct (Hnot t Hin Hnt) as [Hge _].
    specialize (Hpend lo (tid t) ltac:(lia) Hp). lia. }
  unfold distributing.
  split_and!.
  - by rewrite <- Hv, <- Hv1.
  - by rewrite <- Hc, <- Hc1.
  - by rewrite <- Hn, <- Hn1.
  - cbn. by rewrite length_alter, Hlen1.
  - cbn. lia.
  - cbn. apply Forall_app. split; [|repeat constructor; cbn; lia].
    eapply list.Forall_impl; [exact Hfresh1|]. cbn. lia.
  - cbn. rewrite fmap_app. apply list.NoDup_app. split_and!; [done| |].
    + intros x Hx [->|Habs%elem_of_nil]%elem_of_cons; [|done].
      apply list_elem_of_fmap in Hx as (t & Ht & Hin).
      rewrite list.Forall_forall in Hfresh1. specialize (Hfresh1 t Hin).
      cbn in Ht. lia.
    + apply NoDup_singleton.
  - cbn. apply Forall_app. split.
    + apply list.Forall_forall. intros t Hin Hnt.
      apply Hnot; [by apply Hsub1|done].
    + repeat constructor; cbn; lia.
  - cbn. rewrite list.filter_app, fmap_app, Hfilter, Hq.
    rewrite (filter_cons_True _ _ []) by done. rewrite filter_nil. cbn.
    symmetry. apply take_S_r. unfold notify_jobs.
    by rewrite list_lookup_imap, Hvs.
  - intros j id Hj. rewrite pending_hide_commit, Hpend1 by lia.
    apply Hpend. lia.
  - intros j Hj. rewrite value_of_commit.
    destruct (decide (lo = j)) as [<-|Hne].
    + by rewrite Hm1, Hm, Hmo.
    + rewrite Hval1. apply Hval. lia.
  - intros j. by rewrite mounted_commit, Hm1.
Qed.

Lemma distribute_loop_short w0 pasted n : forall lo w,
  lo + n = length pasted ->
  distributing w0 (validated props <$> pasted) lo w ->
  Forall (fun c => length (validated props c) <= 1) pasted ->
  (forall j, j < length pasted -> mounted w0 j = true) ->
  let r := forEach (paste_cell props pasted) lo n w in
  snd r = Normal tt /\
  distributing w0 (validated props <$> pasted) (lo + n) (fst r).
Proof.
  induction n as [|n IH]; intros lo w Hlen Hd Hvalid Hmounted; cbn zeta.
  { cbn. by rewrite Nat.add_0_r. }
  cbn [forEach]. unfold bind.
  destruct (lookup_lt_is_Some_2 pasted lo) as [c Hc]; [lia|].
  assert (mounted w lo = true) as Hmo.
  { destruct Hd as (_ & _ & _ & _ & _ & _ & _ & _ & _ & _ & _ & ->).
    apply Hmounted. lia. }
  assert (length (validated props c) <= 1) as Hone.
  { rewrite list.Forall_forall in Hvalid. apply Hvalid.
    by eapply list_elem_of_lookup_2. }
  assert (paste_cell props pasted lo w
          = (commit lo (validated props c) true
               (fst (PinItem.validateValue props lo (str [c]) w)),
             Normal tt)) as ->.
  { unfold paste_cell, bind, PinInput.element, gets.
    apply mounted_cell in Hmo as (c' & -> & _).
    unfold char_at. rewrite Hc. by apply update_paste_short. }
  replace (lo + S n) with (S lo + n) by lia.
  apply IH; [lia| |done|done].
  apply distributing_commit; [done| |apply Hmounted; lia].
  by rewrite list_lookup_fmap, Hc.
Qed.

Lemma run_all_snoc js j w :
  run_all props (js ++ [j]) w
  = fst (PinInput.run_job props j (run_all props js w)).
Proof. unfold run_all. by rewrite foldl_app. Qed.

(** The notifications of a paste run one after another: the slots are
    written in cell order, nothing is called before the last one, and the
    last one calls [onComplete] exactly when the pin is complete. *)
Lemma run_all_paste vs w : forall k,
  k <= length vs ->
  length vs = Props.length props ->
  length (valuesRef w) = length vs ->
  let w' := run_all props (take k (notify_jobs vs)) w in
  valuesRef w' = take k vs ++ drop k (valuesRef w) /\
  calls w' = calls w ++
    (if decide (0 < k /\ k = length vs)
     then if length (join vs) =? length vs
          then [OnComplete (join vs) (length vs - 1)] else []
     else []) /\
  (forall j, value_of w' j = value_of w j) /\
  (forall j, mounted w' j = mounted w j).
Proof.
  induction k as [|k IH]; intros Hk HL HV; cbn zeta.
  { rewrite take_0, drop_0, decide_False, app_nil_r by lia. done. }
  destruct (IH ltac:(lia) HL HV) as (IHv & IHc & IHval & IHm).
  destruct (lookup_lt_is_Some_2 vs k) as [v Hv]; [lia|].
  assert (notify_jobs vs !! k = Some (Notify k v true)) as Hjk.
  { unfold notify_jobs. by rewrite list_lookup_imap, Hv. }
  rewrite (take_S_r _ _ _ Hjk), run_all_snoc.
  set (wk := run_all props (take k (notify_jobs vs)) w) in *.
  cbn [PinInput.run_job].
  pose proof (onItemChange_run props v true k wk) as Hrun.
  cbn zeta in Hrun. apply (f_equal fst) in Hrun. cbn [fst] in Hrun.
  set (w' := fst (PinInput.onItemChange props v true k wk)) in *.
  assert (Hslot : array_set k v (valuesRef wk)
                  = take (S k) vs ++ drop (S k) (valuesRef w)).
  { rewrite IHv. apply (slot_written props); [done|done|lia|lia|done]. }
  rewrite Hslot in Hrun.
  split_and!.
  - rewrite Hrun. unfold set_calls; cbn [valuesRef].
    transitivity (valuesRef (set_valuesRef (array_set k v) wk));
      [|exact Hslot].
    destruct ((length v =? 1) && (S k <? Props.length props)); [|done].
    by destruct (blur_all_fields _ _
         (focus_element_blur_all props (k + 1)
            (set_valuesRef (array_set k v) wk))) as (-> & _).
  - rewrite Hrun. unfold set_calls; cbn [calls app andb].
    assert (calls (if (length v =? 1) && (S k <? Props.length props)
                   then fst (PinInput.focus_element props
                               (if (length v =? 1)
                                   && (S k <? Props.length props)
                                then k + 1 else k)
                               (set_valuesRef (array_set k v) wk))
                   else set_valuesRef (array_set k v) wk)
            = calls wk) as ->.
    { destruct ((length v =? 1) && (S k <? Props.length props)); [|done].
      by destruct (blur_all_fields _ _
           (focus_element_blur_all props (k + 1)
              (set_valuesRef (array_set k v) wk))) as (_ & -> & _). }
    rewrite IHc, decide_False, app_nil_r by lia. f_equal.
    rewrite <- HL.
    destruct (decide (0 < S k /\ S k = length vs)) as [[_ Elast]|Hmore].
    + rewrite Elast, Nat.ltb_irrefl, andb_false_r. cbn [negb].
      rewrite take_ge, drop_ge, app_nil_r, andb_true_r by lia.
      destruct (length (join vs) =? length vs); [|done].
      do 2 f_equal. lia.
    + assert ((S k <? length vs) = true) as -> by (apply Nat.ltb_lt; lia).
      by rewrite andb_false_r.
  - intros j. unfold w'.
    destruct (onItemChange_cells props v true k wk j) as [-> _]. apply IHval.
  - intros j. unfold w'.
    destruct (onItemChange_cells props v true k wk j) as [_ ->]. apply IHm.
Qed.

(** X10. A paste of the configured length whose characters validate to one
    code unit at most, into a row whose cells are all in the tree and that
    has nothing left to deliver: once the notifications have run, every
    cell and every slot of the Code array holds what validation made of
    its character, the empty string where it rejected it; [onComplete] is
    called once when no character was rejected, and when one was, no
    callback is called at all. *)
Theorem paste_reports_only_a_complete_pin pastedValue w :
  let L := Props.length props in
  0 < L ->
  length pastedValue = L ->
  length (valuesRef w) = L ->
  length (elementsRef w) = L ->
  all_mounted w = true ->
  quiet w = true ->
  Forall (fun c => length (validated props c) <= 1) pastedValue ->
  let vs := validated props <$> pastedValue in
  let pasted := PinInput.dispatch props (PinInput.Paste 0 pastedValue) w in
  let w2 := PinInput.settle props (fst pasted) in
  snd pasted = Normal tt /\
  valuesRef w2 = vs /\
  (forall i, i < L -> value_of w2 i = vs !! i) /\
  pending_notifications w2 = [] /\
  calls w2 = calls w ++ (if length (join vs) =? L
                         then [OnComplete (join vs) (L - 1)] else []) /\
  (Exists (fun c => validated props c = []) pastedValue ->
   calls w2 = calls w) /\
  (Forall (fun c => validated props c <> []) pastedValue ->
   calls w2 = calls w ++ [OnComplete (join vs) (L - 1)]).
Proof.
  cbn zeta. intros Hpos Hlen HV Hel Hall Hquiet Hvalid.
  set (vs := validated props <$> pastedValue).
  assert (Hvs_len : length vs = Props.length props)
    by (unfold vs; by rewrite length_fmap).
  assert (Hvs_short : Forall (fun v : jsstring => length v <= 1) vs)
    by (unfold vs; by apply Forall_fmap).
  rewrite handlePaste_run by done.
  destruct (distribute_loop_short w pastedValue (Props.length props) 0 w)
    as (Hret & Hdist); [lia|by apply quiet_distributing|done| |].
  { intros j Hj. apply all_mounted_lookup; [done|lia]. }
  rewrite Hel. cbn zeta in Hret, Hdist. rewrite Nat.add_0_l in Hdist.
  fold vs in Hdist.
  set (w1 := fst (forEach _ 0 _ w)) in *.
  destruct Hdist as (Hv1 & Hc1 & Hn1 & _ & _ & _ & Hnd1 & Hnot1 & Hq1 & _
                     & Hval1 & _).
  assert (Hdue : Forall (fun t => is_notify t = true -> due t = now w1)
                   (timers w1)).
  { eapply list.Forall_impl; [exact Hnot1|]. cbn.
    intros t Ht Hn. rewrite Hn1. by apply Ht. }
  destruct (turns_deliver props (length (timers w1)) w1 Hnd1 Hdue (le_n _))
    as (Hu & Ht & _). cbn zeta in Hu, Ht.
  fold (PinInput.settle props w1) in Hu, Ht.
  set (w2 := PinInput.settle props w1) in *.
  unfold pending_notifications in Hu at 1. rewrite Hq1 in Hu.
  destruct (run_all_paste vs w1 (Props.length props))
    as (Hrv & Hrc & Hrval & _); [lia|done|by rewrite Hv1, HV|].
  cbn zeta in Hrv, Hrc, Hrval.
  set (w3 := run_all props (take (Props.length props) (notify_jobs vs)) w1)
    in *.
  rewrite take_ge, drop_ge, app_nil_r in Hrv by (rewrite ?Hv1; lia).
  rewrite decide_True, Hvs_len, Hc1 in Hrc by lia.
  assert (Hcalls : calls w2 = calls w ++
            (if length (join vs) =? Props.length props
             then [OnComplete (join vs) (Props.length props - 1)] else []))
    by by rewrite (f_equal calls Hu : calls w2 = calls w3).
  split_and!.
  - done.
  - by rewrite (f_equal valuesRef Hu : valuesRef w2 = valuesRef w3).
  - intros i Hi.
    rewrite <- (unmasked_value_of w2), Hu, unmasked_value_of, Hrval.
    apply Hval1. lia.
  - unfold pending_notifications. rewrite Ht.
    rewrite filter_none; [done|].
    intros t [Hlate Hin]%list_elem_of_filter Hnt.
    rewrite list.Forall_forall in Hdue. specialize (Hdue t Hin Hnt). lia.
  - done.
  - intros Hex. rewrite Hcalls.
    assert (length (join vs) < length vs) as Hshort.
    { apply join_with_empty_slot; [done|]. unfold vs.
      apply Exists_fmap. done. }
    destruct (Nat.eqb_spec (length (join vs)) (Props.length props));
      [lia|by rewrite app_nil_r].
  - intros Hfull. rewrite Hcalls.
    rewrite join_length_full, Hvs_len, Nat.eqb_refl; [done|done|].
    unfold vs. by apply Forall_fmap.
Qed.

(** The focus during the notifications of a paste whose characters are
    all accepted: each one short of the last cell hands it on. *)
Lemma run_all_paste_focus vs w : forall k,
  k <= length vs ->
  length vs = Props.length props ->
  2 <= length vs ->
  Forall (fun v => length v = 1) vs ->
  Props.disabled props = false ->
  (forall j, j < length vs -> mounted w j = true) ->
  let w' := run_all props (take k (notify_jobs vs)) w in
  (forall j, mounted w' j = mounted w j) /\
  activeElement w' = if decide (k = 0) then activeElement w
                     else Some (k `min` (length vs - 1)).
Proof.
  induction k as [|k IH]; intros Hk HL H2 Hone Hd Hm; cbn zeta.
  { by rewrite take_0. }
  destruct (IH ltac:(lia) HL H2 Hone Hd Hm) as (IHm & IHa).
  destruct (lookup_lt_is_Some_2 vs k) as [v Hv]; [lia|].
  assert (notify_jobs vs !! k = Some (Notify k v true)) as Hjk.
  { unfold notify_jobs. by rewrite list_lookup_imap, Hv. }
  assert (length v = 1) as Hv1.
  { rewrite list.Forall_forall in Hone. apply Hone.
    by eapply list_elem_of_lookup_2. }
  rewrite (take_S_r _ _ _ Hjk), run_all_snoc.
  set (wk := run_all props (take k (notify_jobs vs)) w) in *.
  cbn [PinInput.run_job].
  split.
  - intros j.
    destruct (onItemChange_cells props v true k wk j) as [_ ->]. apply IHm.
  - rewrite decide_False by lia.
    rewrite onItemChange_run. cbn zeta. cbn [fst].
    unfold set_calls; cbn [activeElement].
    rewrite Hv1, <- HL. cbn [Nat.eqb andb].
    destruct (Nat.ltb_spec (S k) (length vs)) as [Hlt|Hge].
    + replace (k + 1) with (S k) by lia.
      destruct (focus_element_active props (S k)
                  (set_valuesRef (array_set k v) wk)) as [-> _];
        [|done|f_equal; lia].
      change (mounted (set_valuesRef ?f ?w0) ?j) with (mounted w0 j).
      rewrite IHm. by apply Hm.
    + change (activeElement (set_valuesRef ?f ?w0)) with (activeElement w0).
      rewrite IHa, decide_False by lia. f_equal. lia.
Qed.

(** X11. After a paste whose characters are all accepted the focus is on
    the last cell of the row. *)
Theorem paste_leaves_focus_on_last_cell pastedValue w :
  let L := Props.length props in
  2 <= L ->
  length pastedValue = L ->
  length (elementsRef w) = L ->
  all_mounted w = true ->
  quiet w = true ->
  Forall (fun c => length (validated props c) = 1) pastedValue ->
  Props.disabled props = false ->
  let w2 := PinInput.settle props
              (fst (PinInput.dispatch props
                      (PinInput.Paste 0 pastedValue) w)) in
  activeElement w2 = Some (L - 1).
Proof.
  cbn zeta. intros Hpos Hlen Hel Hall Hquiet Hvalid Hd.
  set (vs := validated props <$> pastedValue).
  assert (Hvs_len : length vs = Props.length props)
    by (unfold vs; by rewrite length_fmap).
  assert (Hvs_single : Forall (fun v : jsstring => length v = 1) vs)
    by (unfold vs; by apply Forall_fmap).
  assert (Hmounted : forall j, j < length pastedValue -> mounted w j = true).
  { intros j Hj. apply all_mounted_lookup; [done|lia]. }
  rewrite handlePaste_run by done.
  destruct (distribute_loop props w pastedValue (Props.length props) 0 w)
    as (_ & Hdist); [lia|by apply quiet_distributing|done|done|].
  rewrite Hel. cbn zeta in Hdist. rewrite Nat.add_0_l in Hdist.
  fold vs in Hdist.
  set (w1 := fst (forEach _ 0 _ w)) in *.
  destruct Hdist as (_ & _ & Hn1 & _ & _ & _ & Hnd1 & Hnot1 & Hq1 & _
                     & _ & Hm1).
  assert (Hdue : Forall (fun t => is_notify t = true -> due t = now w1)
                   (timers w1)).
  { eapply list.Forall_impl; [exact Hnot1|]. cbn.
    intros t Ht Hn. rewrite Hn1. by apply Ht. }
  destruct (turns_deliver props (length (timers w1)) w1 Hnd1 Hdue (le_n _))
    as (Hu & _). cbn zeta in Hu.
  fold (PinInput.settle props w1) in Hu.
  unfold pending_notifications in Hu at 1. rewrite Hq1 in Hu.
  rewrite (f_equal activeElement Hu
             : activeElement (PinInput.settle props w1)
               = activeElement
                   (run_all props
                      (take (Props.length props) (notify_jobs vs)) w1)).
  destruct (run_all_paste_focus vs w1 (Props.length props))
    as (_ & Ha); [lia|done|lia|done|done| |].
  { intros j Hj. rewrite Hm1. apply Hmounted. lia. }
  cbn zeta in Ha. rewrite Ha, decide_False by lia.
  f_equal. lia.
Qed.

End PasteAny.

(** ** Hides and the cells that started them *)

Section Tracking.
Context `{Host}.
Variable props : Props.t.

Lemma NoDup_tid_eq (ts : list Timer) t1 t2 :
  NoDup (tid <$> ts) -> t1 ∈ ts -> t2 ∈ ts -> tid t1 = tid t2 -> t1 = t2.
Proof.
  induction ts as [|t ts IH]; [by intros _ ?%elem_of_nil|].
  rewrite fmap_cons. intros [Hnotin Hnd]%list.NoDup_cons.
  intros [->|H1]%elem_of_cons [->|H2]%elem_of_cons Heq; [done| | |by apply IH].
  - exfalso. apply Hnotin. rewrite Heq. by apply list_elem_of_fmap_2.
  - exfalso. apply Hnotin. rewrite <- Heq. by apply list_elem_of_fmap_2.
Qed.

(** A world with fewer timers and the same ids in the cells' refs. *)
Lemma hides_tracked_sub w w' :
  timers w' `sublist_of` timers w ->
  nextTimer w' = nextTimer w ->
  (forall i, pending_hide w' i = pending_hide w i) ->
  hides_tracked w -> hides_tracked w'.
Proof.
  intros Hsub Hn Hp (Hnd & Hfresh & Htr). split_and!.
  - eapply sublist_NoDup; [exact Hnd|]. by apply fmap_sublist.
  - rewrite Hn. apply list.Forall_forall. intros t Ht.
    rewrite list.Forall_forall in Hfresh. apply Hfresh.
    by eapply elem_of_sublist.
  - intros t i b Ht Hj. rewrite Hp. eapply Htr; [|done].
    by eapply elem_of_sublist.
Qed.

Lemma hides_tracked_blur_all w w' :
  blur_all w' = blur_all w -> hides_tracked w -> hides_tracked w'.
Proof.
  intros E. destruct (blur_all_fields _ _ E) as (_ & _ & Et & En & _).
  apply hides_tracked_sub; [by rewrite Et|done|].
  intros i. by apply blur_all_pending_hide.
Qed.

Lemma hides_tracked_turn limit w w' :
  hides_tracked w -> PinInput.turn props limit w = Some w' ->
  hides_tracked w'.
Proof.
  intros Hw. unfold PinInput.turn.
  destruct (PinInput.earliest (timers w)) as [t|]; [|done].
  destruct (due t <=? limit); [|done]. intros [= <-].
  match goal with
  | |- hides_tracked (fst (PinInput.run_job _ _ ?w2)) =>
      destruct (run_job_frame props (job t) w2) as (Et & En & _ & Hp & _)
  end.
  cbn zeta in *. eapply hides_tracked_sub; [| | |exact Hw].
  - rewrite Et. cbn. apply sublist_filter.
  - by rewrite En.
  - intros i. by rewrite Hp.
Qed.

Lemma hides_tracked_turns fuel : forall limit w,
  hides_tracked w -> hides_tracked (PinInput.turns props fuel limit w).
Proof.
  induction fuel as [|fuel IH]; intros limit w Hw; [done|].
  cbn [PinInput.turns].
  destruct (PinInput.turn props limit w) as [w'|] eqn:E; [|done].
  apply IH. by eapply hides_tracked_turn.
Qed.

Lemma hides_tracked_validateValue i raw w :
  hides_tracked w -> is_Some (cell w i) ->
  hides_tracked (fst (PinItem.validateValue props i raw w)).
Proof.
  intros (Hnd & Hfresh & Htr) [c Hc].
  destruct (validateValue_queue props i raw w Hfresh Hnd)
    as (_ & Hfresh1 & Hnd1 & _ & _ & Hother).
  split_and!; [done|done|]. clear Hfresh1 Hnd1.
  rewrite validateValue_fst in *.
  destruct (Props.secretDelay props =? 0); [done|].
  pose proof (cell_setSecretDelayed props i raw w i) as Hci.
  rewrite decide_True, Hc in Hci by done.
  assert (Ets : timers (fst (PinItem.setSecretDelayed props i raw w))
    = drop_timer (pending_hide w i) (timers w)
      ++ [{| tid := nextTimer w; due := now w + Props.secretDelay props;
             job := HideSecret i (Boolean raw) |}])
    by by rewrite setSecretDelayed_run.
  set (w1 := fst (PinItem.setSecretDelayed props i raw w)) in *.
  rewrite Ets.
  intros t k b [Ht| ->%list_elem_of_singleton]%elem_of_app Hj.
  - destruct (decide (i = k)) as [<-|Hne].
    + exfalso. specialize (Htr t i b (drop_timer_elem_of _ _ _ Ht) Hj).
      rewrite Htr in Ht. cbn in Ht.
      by apply list_elem_of_filter in Ht as [? _].
    + rewrite Hother by done. eapply Htr; [|done].
      by eapply drop_timer_elem_of.
  - cbn in Hj. injection Hj as <- _.
    unfold pending_hide. by rewrite Hci.
Qed.

Lemma hides_tracked_commit i v b w :
  hides_tracked w -> hides_tracked (commit i v b w).
Proof.
  intros (Hnd & Hfresh & Htr). split_and!; cbn [commit timers nextTimer].
  - rewrite fmap_app. apply list.NoDup_app. split_and!; [done| |].
    + intros x Hx [->|Habs%elem_of_nil]%elem_of_cons; [|done].
      apply list_elem_of_fmap in Hx as (t & Ht & Hin).
      rewrite list.Forall_forall in Hfresh. specialize (Hfresh t Hin).
      cbn in Ht. lia.
    + apply NoDup_singleton.
  - apply Forall_app. split; [|repeat constructor; cbn; lia].
    eapply list.Forall_impl; [exact Hfresh|]. cbn. lia.
  - intros t k b' [Ht| ->%list_elem_of_singleton]%elem_of_app Hj; [|done].
    rewrite pending_hide_commit. by eapply Htr.
Qed.

Lemma hides_tracked_update i raw b w :
  hides_tracked w -> is_Some (cell w i) ->
  hides_tracked (fst (PinItem.update props i raw b w)).
Proof.
  intros Hw Hc. rewrite update_run. cbn zeta.
  pose proof (hides_tracked_validateValue i raw w Hw Hc) as Hw1.
  destruct (PinItem.validation props raw) as [v|e]; [|done].
  destruct (_ && _); [done|]. destruct (_ <? _); [|done].
  by apply hides_tracked_commit.
Qed.

Lemma hides_tracked_focus_element k w :
  hides_tracked w -> hides_tracked (fst (PinInput.focus_element props k w)).
Proof.
  intros Hw. eapply hides_tracked_blur_all; [|done].
  apply focus_element_blur_all.
Qed.

Lemma hides_tracked_dispatch e w :
  hides_tracked w -> is_Some (cell w (event_cell e)) ->
  hides_tracked (fst (PinInput.dispatch props e w)).
Proof.
  intros Hw Hc. destruct e as [i v|i k|i text|i|i];
    cbn [PinInput.dispatch event_cell] in *.
  - by apply hides_tracked_update.
  - unfold PinItem.handleKeyDown, bind, PinItem.value, gets.
    destruct (_ && _); [|done].
    unfold PinInput.onBackspace, PinInput.handleBackspace.
    destruct (0 <? i); [|done]. by apply hides_tracked_focus_element.
  - unfold PinItem.handlePaste, PinInput.onPaste.
    destruct (i =? 0); [|done].
    unfold PinInput.handlePaste. destruct (negb _); [done|].
    unfold PinInput.forEach_element, bind at 1. unfold gets at 1.
    apply forEach_invariant; [|done]. intros j w0 Hw0.
    unfold bind, PinInput.element, gets.
    destruct (cell w0 j) eqn:E; [|done].
    apply hides_tracked_update; [done|]. by rewrite E.
  - rewrite input_focus_run. cbn [fst]. destruct (_ || _); [done|].
    eapply hides_tracked_blur_all; [apply blur_all_focused|done].
  - unfold bind, gets. destruct (bool_decide _); [|done].
    unfold PinItem.handleBlur, PinItem.setFocus, modify. cbn [fst].
    eapply hides_tracked_sub; [| | |exact Hw]; [done|done|].
    intros j.
    rewrite pending_hide_modify_cell; [done|]. intros c.
    by apply secretTimeoutRef_setState.
Qed.

Lemma unmount_item_run i w :
  PinInput.unmount_item i w
  = (set_elementsRef (<[i:=None]>)
       ((if bool_decide (activeElement w = Some i)
         then set_activeElement None else id)
          (set_timers (drop_timer (cell w i ≫= Cell.inputTimeoutRef))
             (set_timers (drop_timer (pending_hide w i)) w))), Normal tt).
Proof.
  unfold PinInput.unmount_item, PinItem.cleanup, bind, gets, when, modify,
    ret, clearTimeout, pending_hide, drop_timer.
  destruct (cell w i ≫= Cell.secretTimeoutRef),
    (cell w i ≫= Cell.inputTimeoutRef); cbn;
    destruct (bool_decide (activeElement w = Some i)); by destruct w.
Qed.

Lemma hides_tracked_unmount i w :
  hides_tracked w ->
  let w' := fst (PinInput.unmount_item i w) in
  hides_tracked w' /\
  cell w' i = None /\
  (forall t b, t ∈ timers w' -> job t <> HideSecret i b) /\
  (forall t, t ∈ timers w' -> t ∈ timers w) /\
  valuesRef w' = valuesRef w /\ calls w' = calls w.
Proof.
  intros (Hnd & Hfresh & Htr). cbn zeta. rewrite unmount_item_run.
  cbn [fst].
  set (w1 := set_timers _ (set_timers _ w)).
  assert (Hsub : forall t, t ∈ timers w1 -> t ∈ timers w /\
                   (forall id, pending_hide w i = Some id -> tid t <> id)).
  { intros t Ht. subst w1. cbn in Ht.
    apply drop_timer_elem_of in Ht. split; [by eapply drop_timer_elem_of|].
    intros id Hid. rewrite Hid in Ht. cbn in Ht.
    by apply list_elem_of_filter in Ht as [? _]. }
  assert (Hnd1 : NoDup (tid <$> timers w1)).
  { subst w1. cbn. by do 2 apply drop_timer_NoDup. }
  assert (Hres : forall w2,
            timers w2 = timers w1 -> nextTimer w2 = nextTimer w ->
            valuesRef w2 = valuesRef w -> calls w2 = calls w ->
            elementsRef w2 = <[i:=None]> (elementsRef w) ->
            hides_tracked w2 /\ cell w2 i = None /\
            (forall t b, t ∈ timers w2 -> job t <> HideSecret i b) /\
            (forall t, t ∈ timers w2 -> t ∈ timers w) /\
            valuesRef w2 = valuesRef w /\ calls w2 = calls w).
  { intros w2 Et En Ev Ec Ee.
    assert (Hci : cell w2 i = None).
    { unfold cell. rewrite Ee.
      destruct (decide (i < length (elementsRef w))).
      - by rewrite list_lookup_insert_eq.
      - by rewrite lookup_ge_None_2 by (rewrite length_insert; lia). }
    assert (Hcj : forall j, j <> i -> pending_hide w2 j = pending_hide w j).
    { intros j Hj. unfold pending_hide, cell. rewrite Ee.
      by rewrite list_lookup_insert_ne by done. }
    assert (Hno : forall t b, t ∈ timers w2 -> job t <> HideSecret i b).
    { intros t b Ht Hj. rewrite Et in Ht.
      destruct (Hsub t Ht) as [Hin Hne].
      specialize (Htr t i b Hin Hj). by apply (Hne _ Htr). }
    split_and!; [|done|done| |done|done].
    - split_and!.
      + by rewrite Et.
      + rewrite Et, En. apply list.Forall_forall. intros t Ht.
        rewrite list.Forall_forall in Hfresh. by apply Hfresh, Hsub.
      + intros t k b Ht Hj. destruct (decide (k = i)) as [->|Hne].
        * by destruct (Hno t b Ht).
        * rewrite Hcj by done. rewrite Et in Ht.
          eapply Htr; [|done]. by apply Hsub.
    - intros t Ht. rewrite Et in Ht. by apply Hsub. }
  destruct (bool_decide (activeElement w = Some i)); by apply Hres.
Qed.

(** X20. A cell never has two hides waiting: every event from a cell that
    exists, every timer that runs and the unmounting of a cell keep each
    pending hide the one its cell remembers, so a keystroke takes the
    cell's previous hide off the queue before it queues its own. *)
Theorem hides_stay_tracked w :
  hides_tracked w ->
  (forall e, is_Some (cell w (event_cell e)) ->
             hides_tracked (fst (PinInput.dispatch props e w))) /\
  (forall limit w', PinInput.turn props limit w = Some w' ->
                    hides_tracked w') /\
  (forall ms, hides_tracked (PinInput.elapse props ms w)) /\
  (forall i, hides_tracked (fst (PinInput.unmount_item i w))) /\
  (forall i t1 t2 b1 b2,
     t1 ∈ timers w -> t2 ∈ timers w ->
     job t1 = HideSecret i b1 -> job t2 = HideSecret i b2 -> t1 = t2).
Proof.
  intros Hw. split_and!.
  - intros e. by apply hides_tracked_dispatch.
  - intros limit w'. by apply hides_tracked_turn.
  - intros ms. unfold PinInput.elapse.
    eapply hides_tracked_sub;
      [| | |exact (hides_tracked_turns (length (timers w)) (now w + ms) w Hw)];
      done.
  - intros i. by destruct (hides_tracked_unmount i w Hw) as [? _].
  - intros i t1 t2 b1 b2 H1 H2 Hj1 Hj2.
    destruct Hw as (Hnd & _ & Htr).
    apply (NoDup_tid_eq (timers w)); [done..|].
    pose proof (Htr t1 i b1 H1 Hj1) as E1.
    pose proof (Htr t2 i b2 H2 Hj2) as E2. congruence.
Qed.

(** X21. When a cell leaves the tree its pending hide is cancelled: the
    cleanup leaves no hide of the cell in the queue and starts no timer,
    and the cell's handle is reset. *)
Theorem unmount_cancels_the_pending_hide i w :
  hides_tracked w ->
  let w' := fst (PinInput.unmount_item i w) in
  cell w' i = None /\
  (forall t b, t ∈ timers w' -> job t <> HideSecret i b) /\
  (forall t, t ∈ timers w' -> t ∈ timers w) /\
  valuesRef w' = valuesRef w /\ calls w' = calls w.
Proof.
  intros Hw. by destruct (hides_tracked_unmount i w Hw) as [_ ?].
Qed.

End Tracking.

(** ** The reveal window *)

Section Reveal.
Context `{Host}.
Variable props : Props.t.

Lemma change_starts_hide i raw w :
  hides_tracked w -> mounted w i = true ->
  Props.secretDelay props <> 0 ->
  let w1 := fst (PinInput.dispatch props (PinInput.Change i raw) w) in
  let t0 := {| tid := nextTimer w;
               due := now w + Props.secretDelay props;
               job := HideSecret i (Boolean (str raw)) |} in
  now w1 = now w /\ masked w1 i = Some false /\ t0 ∈ timers w1 /\
  revealing i t0 (Boolean (str raw)) w1.
Proof.
  intros Hw Hm Hd. cbn zeta.
  assert (Hw1 : hides_tracked
                  (fst (PinInput.dispatch props (PinInput.Change i raw) w))).
  { apply hides_tracked_dispatch; [done|]. cbn.
    apply mounted_cell in Hm as (c & -> & _). done. }
  revert Hw1. cbn [PinInput.dispatch]. unfold PinItem.handleChange.
  rewrite update_run. cbn zeta.
  destruct (validation_str props raw) as (v & ->).
  rewrite validateValue_fst.
  apply Nat.eqb_neq in Hd as ->.
  pose proof (cell_setSecretDelayed props i (str raw) w i) as Hc1.
  rewrite decide_True in Hc1 by done.
  assert (Ets : timers (fst (PinItem.setSecretDelayed props i (str raw) w))
    = drop_timer (pending_hide w i) (timers w)
      ++ [{| tid := nextTimer w; due := now w + Props.secretDelay props;
             job := HideSecret i (Boolean (str raw)) |}])
    by by rewrite setSecretDelayed_run.
  assert (En : now (fst (PinItem.setSecretDelayed props i (str raw) w))
               = now w)
    by by rewrite setSecretDelayed_run.
  set (w1 := fst (PinItem.setSecretDelayed props i (str raw) w)) in *.
  set (t0 := {| tid := nextTimer w;
                due := now w + Props.secretDelay props;
                job := HideSecret i (Boolean (str raw)) |}) in *.
  apply mounted_cell in Hm as (c & Hc & Hi). rewrite Hc in Hc1. cbn in Hc1.
  assert (Hin1 : t0 ∈ timers w1).
  { rewrite Ets. apply elem_of_app. right. by apply list_elem_of_singleton. }
  assert (H1 : mounted w1 i = true /\ masked w1 i = Some false /\
               pending_hide w1 i = Some (nextTimer w)).
  { unfold mounted, masked, pending_hide. rewrite Hc1.
    unfold Cell.setState. destruct c as [? ? ? ? ? []]; [done|].
    by cbn in Hi. }
  assert (H2 : forall b,
            mounted (commit i v b w1) i = true /\
            masked (commit i v b w1) i = Some false /\
            pending_hide (commit i v b w1) i = Some (nextTimer w)).
  { intros b. unfold mounted, masked, pending_hide.
    rewrite cell_commit, decide_True, Hc1 by done.
    unfold Cell.setState. destruct c as [? ? ? ? ? []]; [done|].
    by cbn in Hi. }
  destruct (bool_decide _ && _); [|destruct (length v <? 2)]; cbn [fst];
    intros Hw1.
  - destruct H1 as (? & ? & ?). unfold revealing. split_and!; try done.
    by left.
  - destruct (H2 false) as (? & ? & ?).
    assert (t0 ∈ timers (commit i v false w1)) as Hin2
      by (cbn; apply elem_of_app; by left).
    unfold revealing. split_and!; try done. by left.
  - destruct H1 as (? & ? & ?). unfold revealing. split_and!; try done.
    by left.
Qed.

Lemma revealing_turn i t0 hide limit w w' :
  job t0 = HideSecret i hide ->
  revealing i t0 hide w ->
  PinInput.turn props limit w = Some w' ->
  revealing i t0 hide w' /\
  (limit < due t0 -> t0 ∈ timers w -> t0 ∈ timers w').
Proof.
  intros Hj0 (Hw & Hm & Hp & Hcase) Hturn.
  pose proof (hides_tracked_turn props limit w w' Hw Hturn) as Hw'.
  unfold PinInput.turn in Hturn.
  destruct (PinInput.earliest (timers w)) as [t|] eqn:E; [|done].
  destruct (Nat.leb_spec (due t) limit) as [Hle|]; [|done].
  injection Hturn as <-.
  apply earliest_elem_of in E.
  set (w2 := set_now _ (set_timers _ w)) in *.
  destruct (run_job_frame props (job t) w2) as (Et & _ & _ & Hp' & Hm' & Hk).
  cbn zeta in *.
  set (w' := fst (PinInput.run_job props (job t) w2)) in *.
  assert (Etimers : timers w'
                    = filter (fun t' => tid t' <> tid t) (timers w))
    by exact Et.
  assert (Hpi : pending_hide w' i = pending_hide w i) by exact (Hp' i).
  assert (Hmi : mounted w' i = mounted w i) by exact (Hm' i).
  assert (Hmaski : masked w' i
                   = match job t with
                     | HideSecret k b =>
                         if decide (k = i) then Some b else masked w i
                     | Notify _ _ _ => masked w i
                     end).
  { specialize (Hk i). destruct (job t) as [k b|k v b]; [|exact Hk].
    rewrite Hk. case_decide; [subst k|done].
    change (mounted w2 i) with (mounted w i). by rewrite Hm. }
  clear Et Hp' Hm' Hk.
  destruct Hw as (Hnd & _ & Htr).
  destruct (decide (tid t = tid t0)) as [Heq|Hne].
  - destruct Hcase as [[Hin0 Hmk]|[Hnone _]];
      [|by destruct (Hnone t E)].
    assert (t = t0) as -> by by apply (NoDup_tid_eq (timers w)).
    rewrite Hj0, decide_True in Hmaski by done.
    split.
    + unfold revealing. split_and!; [done|by rewrite Hmi|by rewrite Hpi|].
      right. split; [|done]. intros t1. rewrite Etimers.
      by intros [? _]%list_elem_of_filter.
    + lia.
  - assert (Hkeep : masked w' i = masked w i).
    { rewrite Hmaski. destruct (job t) as [k b|k v b] eqn:Hj; [|done].
      case_decide; [subst k|done].
      specialize (Htr t i b E Hj). congruence. }
    split.
    + unfold revealing. split_and!; [done|by rewrite Hmi|by rewrite Hpi|].
      destruct Hcase as [[Hin0 Hmk]|[Hnone Hmk]].
      * left. split; [|by rewrite Hkeep]. rewrite Etimers.
        apply list_elem_of_filter. split; [congruence|done].
      * right. split; [|by rewrite Hkeep]. intros t1. rewrite Etimers.
        intros [_ ?]%list_elem_of_filter. by apply Hnone.
    + intros _ Hin0. rewrite Etimers. apply list_elem_of_filter.
      split; [congruence|done].
Qed.

Lemma revealing_turns i t0 hide limit fuel : forall w,
  job t0 = HideSecret i hide ->
  revealing i t0 hide w ->
  revealing i t0 hide (PinInput.turns props fuel limit w) /\
  (limit < due t0 -> t0 ∈ timers w ->
   t0 ∈ timers (PinInput.turns props fuel limit w)).
Proof.
  induction fuel as [|fuel IH]; intros w Hj0 Hr; [done|].
  cbn [PinInput.turns].
  destruct (PinInput.turn props limit w) as [w'|] eqn:E; [|done].
  destruct (revealing_turn i t0 hide limit w w' Hj0 Hr E) as [Hr' Hin'].
  destruct (IH w' Hj0 Hr') as [Hr'' Hin'']. split; [done|].
  intros Hlt Hin. by apply Hin'', Hin'.
Qed.

Lemma idle_nothing_due limit w t :
  PinInput.idle props limit w -> t ∈ timers w -> limit < due t.
Proof.
  unfold PinInput.idle, PinInput.turn. intros Hidle Hin.
  destruct (PinInput.earliest (timers w)) as [t'|] eqn:E.
  - destruct (Nat.leb_spec (due t') limit) as [|Hlt]; [done|].
    destruct (earliest_split _ _ E) as (l1 & l2 & Ets & H1 & H2).
    rewrite Ets in Hin. rewrite list.Forall_forall in H1, H2.
    apply elem_of_app in Hin as [Hin|[->|Hin]%elem_of_cons].
    + specialize (H1 t Hin). lia.
    + done.
    + specialize (H2 t Hin). lia.
  - apply earliest_None in E. rewrite E in Hin. by apply elem_of_nil in Hin.
Qed.

(** X19. The reveal window. With a secret delay, a change event on a cell in
    the tree unmasks the cell at once; the cell stays unmasked for as long
    as less than [secretDelay] ms have passed, whatever other timers run
    meanwhile; once [secretDelay] ms have passed the cell is masked
    exactly when the raw string of the event was not empty. *)
Theorem reveal_lasts_secretDelay i raw w :
  hides_tracked w -> mounted w i = true ->
  Props.secretDelay props <> 0 ->
  let w1 := fst (PinInput.dispatch props (PinInput.Change i raw) w) in
  masked w1 i = Some false /\
  (forall ms, ms < Props.secretDelay props ->
              masked (PinInput.elapse props ms w1) i = Some false) /\
  (forall ms, Props.secretDelay props <= ms ->
              masked (PinInput.elapse props ms w1) i
              = Some (Boolean (str raw))).
Proof.
  intros Hw Hm Hd. cbn zeta.
  destruct (change_starts_hide i raw w Hw Hm Hd)
    as (Hnow & Hmask & Hin0 & Hr).
  cbn zeta in *.
  set (w1 := fst (PinInput.dispatch props (PinInput.Change i raw) w)) in *.
  set (t0 := {| tid := nextTimer w;
                due := now w + Props.secretDelay props;
                job := HideSecret i (Boolean (str raw)) |}) in *.
  split_and!; [done| |].
  - intros ms Hms. unfold PinInput.elapse.
    change (masked (set_now ?n ?w0) i) with (masked w0 i).
    destruct (revealing_turns i t0 (Boolean (str raw)) (now w1 + ms)
                (length (timers w1)) w1 eq_refl Hr) as [Hr' Hkeep].
    destruct Hr' as (_ & _ & _ & [[_ ?]|[Hnone _]]); [done|].
    exfalso. apply (Hnone t0); [|done]. apply Hkeep; [|done].
    rewrite Hnow. cbn. lia.
  - intros ms Hms. unfold PinInput.elapse.
    change (masked (set_now ?n ?w0) i) with (masked w0 i).
    destruct (revealing_turns i t0 (Boolean (str raw)) (now w1 + ms)
                (length (timers w1)) w1 eq_refl Hr) as [Hr' _].
    pose proof (turns_idle props (length (timers w1)) (now w1 + ms) w1
                  (le_n _)) as Hidle.
    destruct Hr' as (_ & _ & _ & [[Hin _]|[_ ?]]); [|done].
    apply (idle_nothing_due _ _ _ Hidle) in Hin.
    rewrite Hnow in Hin. cbn in Hin. lia.
Qed.

End Reveal.

(** ** Mounting, and edge cases *)

Section FirstRender.
Context `{Host}.
Variable props : Props.t.

Lemma initial_values_lookup initialValue i :
  i < Props.length props ->
  PinInput.initial_values props initialValue !! i
  = Some (match initialValue !! i with Some c => [c] | None => [] end).
Proof.
  intros Hi. unfold PinInput.initial_values.
  by rewrite list_lookup_fmap, lookup_seq_lt.
Qed.

(** X5. The Code array starts from the initial value cut to the length of
    the row: a longer initial value loses its tail, a shorter one leaves
    the last slots empty. *)
Theorem initial_values_join initialValue :
  join (PinInput.initial_values props initialValue)
  = take (Props.length props) initialValue /\
  length (PinInput.initial_values props initialValue) = Props.length props /\
  forall i, i < Props.length props ->
    (PinInput.initial_values props initialValue !! i = Some []
     <-> length initialValue <= i).
Proof.
  split_and!.
  - unfold PinInput.initial_values, join.
    assert (Hgen : forall n k,
      concat ((fun i => match initialValue !! i with
                        | Some c => [c]
                        | None => []
                        end) <$> seq k n)
      = take n (drop k initialValue)).
    { induction n as [|n IH]; intros k; [reflexivity|].
      cbn [seq fmap list_fmap concat].
      rewrite IH. destruct (initialValue !! k) as [c|] eqn:E.
      - by rewrite (drop_S _ _ _ E).
      - apply lookup_ge_None in E.
        by rewrite !drop_ge, !take_nil by lia. }
    by rewrite Hgen, drop_0.
  - unfold PinInput.initial_values. by rewrite length_fmap, length_seq.
  - intros i Hi. rewrite initial_values_lookup by done.
    destruct (initialValue !! i) as [c|] eqn:E.
    + apply lookup_lt_Some in E. split; [done|lia].
    + apply lookup_ge_None in E. done.
Qed.

Lemma render_items_run values :
  Props.secretDelay props = 0 ->
  exists cs,
    PinInput.render_items props values = Normal cs /\
    length cs = length values /\
    forall i val, values !! i = Some val ->
      exists v, PinItem.validation props (str val) = Normal v /\
                cs !! i = Some (initial_cell props v).
Proof.
  intros Hd. induction values as [|val values (cs & IH & Hlen & Hcs)].
  { exists []. by split_and!. }
  cbn [PinInput.render_items]. unfold PinItem.initialState.
  rewrite Hd. cbn [Nat.eqb negb].
  destruct (validation_str props val) as (v & Hv). rewrite Hv, IH.
  eexists. split_and!; [done|by cbn; rewrite Hlen|].
  intros [|i] val'; cbn.
  - intros [= <-]. by exists v.
  - apply Hcs.
Qed.

(** The world after mounting, up to where the focus is. *)
Lemma mount_run initialValue clock :
  Props.secretDelay props = 0 ->
  exists cs w,
    PinInput.mount props initialValue clock = Normal w /\
    length cs = Props.length props /\
    (forall i, i < Props.length props ->
       exists v,
         PinItem.validation props
           (str (match initialValue !! i with Some c => [c] | None => [] end))
         = Normal v /\
         cs !! i = Some (initial_cell props v)) /\
    (let w0 := {| valuesRef := PinInput.initial_values props initialValue;
                  elementsRef := Some <$> cs; activeElement := None;
                  now := clock; nextTimer := 1%positive; timers := [];
                  calls := [] |} in
     blur_all w = blur_all w0 /\ (w = w0 \/ w = focused 0 w0)) /\
    activeElement w
    = if Props.focus props && negb (Props.length props =? 0)
         && negb (Props.disabled props)
      then Some 0 else None.
Proof.
  intros Hd. unfold PinInput.mount.
  destruct (render_items_run (PinInput.initial_values props initialValue) Hd)
    as (cs & -> & Hlen & Hcs).
  destruct (initial_values_short props initialValue) as (HL & _).
  rewrite HL in Hlen.
  set (w0 := {| valuesRef := PinInput.initial_values props initialValue;
                elementsRef := Some <$> cs; activeElement := None;
                now := clock; nextTimer := 1%positive; timers := [];
                calls := [] |}).
  assert (Hcell : forall i, i < Props.length props ->
            exists v,
              PinItem.validation props
                (str (match initialValue !! i with
                      | Some c => [c] | None => [] end)) = Normal v /\
              cs !! i = Some (initial_cell props v)).
  { intros i Hi. by apply Hcs, initial_values_lookup. }
  exists cs. unfold PinInput.focusOnMount.
  destruct (Props.focus props); cbn [andb];
    [destruct (Nat.eqb_spec (Props.length props) 0) as [E0|E0]; cbn [negb]|].
  - exists w0. split_and!; [done..|by left|done].
  - destruct (Hcell 0 ltac:(lia)) as (v & _ & Hc0).
    assert (cell w0 0 = Some (initial_cell props v)) as Hw0.
    { unfold cell, w0; cbn. by rewrite list_lookup_fmap, Hc0. }
    unfold bind, PinInput.element, gets. rewrite Hw0.
    unfold PinItem.focusInput, bind, gets. rewrite Hw0.
    cbn [initial_cell Cell.inputRef].
    rewrite input_focus_run.
    destruct (Props.disabled props); cbn [orb negb bool_decide].
    + exists w0. split_and!; [done..|by left|done].
    + rewrite bool_decide_eq_false_2 by done.
      exists (focused 0 w0).
      split_and!; [done..|apply blur_all_focused|by right|done].
  - exists w0. split_and!; [done..|by left|done].
Qed.

(** X3. Without a secret delay the row always mounts. The Code array holds
    the first characters of the initial value as they were given, each
    cell holds what validation makes of its character and is masked as
    [secret] says; mounting calls no callback and starts no timer; the
    first cell has the focus exactly when [focus] is set, the row is not
    empty and the inputs are enabled. *)
Theorem mount_without_secretDelay initialValue clock :
  Props.secretDelay props = 0 ->
  exists w,
    PinInput.mount props initialValue clock = Normal w /\
    valuesRef w = PinInput.initial_values props initialValue /\
    length (elementsRef w) = Props.length props /\
    (forall i, i < Props.length props ->
       mounted w i = true /\ masked w i = Some (Props.secret props) /\
       exists v,
         PinItem.validation props
           (str (match initialValue !! i with Some c => [c] | None => [] end))
         = Normal v /\
         value_of w i = Some v) /\
    timers w = [] /\ calls w = [] /\ now w = clock /\
    activeElement w
    = if Props.focus props && negb (Props.length props =? 0)
         && negb (Props.disabled props)
      then Some 0 else None.
Proof.
  intros Hd.
  destruct (mount_run initialValue clock Hd)
    as (cs & w & Hw & Hlen & Hcs & (E & _) & Hact).
  exists w.
  destruct (blur_all_fields _ _ E) as (Hv & Hc & Ht & _ & Hn & Hl).
  cbn in Hv, Hc, Ht, Hn, Hl. rewrite length_fmap, Hlen in Hl.
  split_and!; [done|done|done| |done..].
  intros i Hi. destruct (Hcs i Hi) as (v & Hval & Hci).
  rewrite (blur_all_mounted _ _ i E), (blur_all_masked _ _ i E),
    (blur_all_value_of _ _ i E).
  unfold mounted, masked, value_of, cell; cbn.
  rewrite list_lookup_fmap, Hci. cbn.
  split_and!; [done|done|]. by exists v.
Qed.

End FirstRender.

Section Edges.
Context `{Host}.
Variable props : Props.t.

(** X12. Only the first cell distributes a paste: the paste event of any other
    cell has no handler from the container and changes nothing. *)
Theorem paste_outside_first_cell_is_ignored i text w :
  i <> 0 ->
  PinInput.dispatch props (PinInput.Paste i text) w = (w, Normal tt).
Proof.
  intros Hi. cbn [PinInput.dispatch]. unfold PinInput.onPaste.
  by apply Nat.eqb_neq in Hi as ->.
Qed.

Lemma update_returns i s b w :
  snd (PinItem.update props i (str s) b w) = Normal tt.
Proof.
  rewrite update_run. cbn zeta. destruct (validation_str props s) as (v & ->).
  destruct (_ && _); [done|]. by destruct (_ <? _).
Qed.

Lemma update_keeps_cells i raw b w k :
  is_Some (cell (fst (PinItem.update props i raw b w)) k)
  <-> is_Some (cell w k).
Proof.
  rewrite update_run. cbn zeta.
  destruct (validateValue_cell props i raw w k) as (g & Hg & _).
  assert (Hw1 : is_Some (cell (fst (PinItem.validateValue props i raw w)) k)
                <-> is_Some (cell w k))
    by (rewrite Hg; apply fmap_is_Some).
  destruct (PinItem.validation props raw) as [v|e]; [|done].
  destruct (_ && _); [done|]. destruct (_ <? _); [|done]. cbn [fst].
  rewrite cell_commit. case_decide; [subst|done].
  by rewrite fmap_is_Some.
Qed.

Lemma paste_prefix pasted k n : forall lo w,
  lo + n <= length pasted ->
  is_Some (cell w k) ->
  snd (forEach (paste_cell props pasted) lo n w) = Normal tt /\
  is_Some (cell (fst (forEach (paste_cell props pasted) lo n w)) k).
Proof.
  induction n as [|n IH]; intros lo w Hlen Hk; [done|].
  cbn [forEach]. unfold bind.
  destruct (lookup_lt_is_Some_2 pasted lo) as [c Hc]; [lia|].
  assert (snd (paste_cell props pasted lo w) = Normal tt /\
          is_Some (cell (fst (paste_cell props pasted lo w)) k)) as [Hs Hk'].
  { unfold paste_cell, bind, PinInput.element, gets.
    destruct (cell w lo); [|done].
    unfold char_at. rewrite Hc.
    split; [apply update_returns|by apply update_keeps_cells]. }
  destruct (paste_cell props pasted lo w) as [w1 [[]|e]]; [|done].
  apply IH; [lia|done].
Qed.

(** X13. A row that has more cells than [length] (the row was created with a
    larger [length]): with a regular expression that accepts the word
    undefined, as the default one does, a paste of [length] characters
    throws a [TypeError] when it comes to the first cell beyond the
    pasted string. *)
Theorem paste_into_longer_row_throws pastedValue re w :
  Props.validate props = None ->
  Props.type props = other ->
  Props.regexCriteria props = Some re ->
  test re (js "undefined") = true ->
  length pastedValue = Props.length props ->
  is_Some (cell w (Props.length props)) ->
  snd (PinInput.handlePaste props pastedValue w) = Throw TypeError.
Proof.
  intros Hval Hty Hre Htest Hlen Hcell.
  unfold PinInput.handlePaste. rewrite Hlen, Nat.eqb_refl. cbn [negb].
  unfold PinInput.forEach_element, bind at 1. unfold gets at 1.
  change (forEach _ 0 ?n w) with (forEach (paste_cell props pastedValue) 0 n w).
  assert (Props.length props < length (elementsRef w)) as Hlong.
  { destruct Hcell as [c Hc]. apply cell_Some_lookup in Hc.
    by apply lookup_lt_Some in Hc. }
  replace (length (elementsRef w))
    with (Props.length props
          + S (length (elementsRef w) - S (Props.length props))) by lia.
  rewrite forEach_app.
  destruct (paste_prefix pastedValue (Props.length props)
              (Props.length props) 0 w ltac:(lia) Hcell) as [Hs Hk].
  destruct (forEach (paste_cell props pastedValue) 0 (Props.length props) w)
    as [w1 [[]|e]]; [|done].
  cbn [fst] in Hk. cbn [forEach Nat.add]. unfold bind at 1.
  assert (snd (paste_cell props pastedValue (Props.length props) w1)
          = Throw TypeError) as Hthrow.
  { unfold paste_cell, bind, PinInput.element, gets.
    destruct Hk as [c ->].
    unfold char_at. rewrite lookup_ge_None_2 by lia.
    rewrite update_run. cbn zeta.
    unfold PinItem.validation. rewrite Hval, Hty, Hre.
    cbn [ToString]. by rewrite Htest. }
  destruct (paste_cell props pastedValue (Props.length props) w1)
    as [w2 [[]|e]]; [done|]. cbn in Hthrow. by subst.
Qed.

(** X7. [onComplete] is never called while a slot of the Code array is
    empty. In particular the notification of an emptied cell calls
    [onChange] with the shorter pin and the cell's own index and nothing
    else, and moves no focus. *)
Theorem onItemChange_never_completes_a_short_pin value isPasting i w :
  let L := Props.length props in
  length (valuesRef w) = L ->
  i < L ->
  Forall (fun s => length s <= 1) (valuesRef w) ->
  length value <= 1 ->
  let w' := fst (PinInput.onItemChange props value isPasting i w) in
  let pin := join (valuesRef w') in
  let currentIndex := if (length value =? 1) && (S i <? L) then S i else i in
  valuesRef w' = <[i:=value]> (valuesRef w) /\
  (Exists (fun s => s = []) (valuesRef w') ->
   calls w' = calls w ++
              (if isPasting then [] else [OnChange pin currentIndex])) /\
  (value = [] ->
   calls w' = calls w ++ (if isPasting then [] else [OnChange pin i]) /\
   activeElement w' = activeElement w /\
   elementsRef w' = elementsRef w).
Proof.
  cbn zeta. intros HL Hi Hslots Hvalue.
  rewrite onItemChange_run. cbn zeta. cbn [fst].
  replace (i + 1) with (S i) by lia.
  set (w1 := set_valuesRef (array_set i value) w).
  set (adv := (length value =? 1) && (S i <? Props.length props)).
  assert (Hw1 : valuesRef w1 = <[i:=value]> (valuesRef w)).
  { change (array_set i value (valuesRef w) = <[i:=value]> (valuesRef w)).
    apply array_set_in_range. lia. }
  match goal with
  | |- context [set_calls _ ?w2] =>
      assert (blur_all w2 = blur_all w1) as Hframe; [|set (w2' := w2) in *]
  end.
  { destruct adv; [|done]. apply focus_element_blur_all. }
  destruct (blur_all_fields _ _ Hframe) as (Hv & Hc & _).
  unfold set_calls; cbn [valuesRef calls activeElement elementsRef].
  rewrite Hv, Hc, Hw1. change (calls w1) with (calls w).
  rewrite array_set_in_range by lia.
  assert (Hshort : Exists (fun s => s = []) (<[i:=value]> (valuesRef w)) ->
            (length (join (<[i:=value]> (valuesRef w))) =? Props.length props)
            = false).
  { intros Hex. apply Nat.eqb_neq.
    pose proof (join_with_empty_slot (<[i:=value]> (valuesRef w))
                  ltac:(by apply Forall_insert) Hex) as Hlt.
    rewrite length_insert in Hlt. lia. }
  split_and!; [done| |].
  - intros Hex. rewrite (Hshort Hex). cbn [andb]. by rewrite app_nil_r.
  - intros ->.
    assert (Exists (fun s => s = []) (<[i:=[]]> (valuesRef w))) as Hex.
    { apply list.Exists_exists. exists []. split; [|done].
      apply list_elem_of_lookup. exists i.
      apply list_lookup_insert_eq. lia. }
    rewrite (Hshort Hex). cbn [andb]. rewrite app_nil_r.
    subst w2' adv. cbn [length Nat.eqb andb]. done.
Qed.

(** X15. [focus()] through the container's handle gives the focus to the
    first cell when the row is not empty and the cell is in the tree and
    enabled, and the cell that had the focus loses it; otherwise nothing
    happens. Values, masks, the Code array, timers and callbacks are
    left as they are either way. *)
Theorem focusFirstInput_moves_the_focus w :
  let w' := fst (PinInput.focusFirstInput props w) in
  snd (PinInput.focusFirstInput props w) = Normal tt /\
  valuesRef w' = valuesRef w /\ calls w' = calls w /\
  timers w' = timers w /\
  (forall j, value_of w' j = value_of w j /\ masked w' j = masked w j) /\
  (0 < Props.length props -> mounted w 0 = true ->
   Props.disabled props = false ->
   activeElement w' = Some 0 /\
   (activeElement w <> Some 0 -> Cell.focus <$> cell w' 0 = Some true) /\
   (forall k, k <> 0 -> activeElement w = Some k -> mounted w k = true ->
              Cell.focus <$> cell w' k = Some false)) /\
  (Props.length props = 0 \/ mounted w 0 = false \/
   Props.disabled props = true -> w' = w).
Proof.
  cbn zeta. unfold PinInput.focusFirstInput.
  destruct (Nat.ltb_spec 0 (Props.length props)) as [Hpos|Hzero].
  - pose proof (focus_element_blur_all props 0 w) as Hframe.
    destruct (blur_all_fields _ _ Hframe) as (Hv & Hc & Ht & _).
    split_and!; [by rewrite focus_element_run|done|done|done| | |].
    + intros j. split; [by apply blur_all_value_of|by apply blur_all_masked].
    + intros _ Hm Hd.
      destruct (focus_element_active props 0 w Hm Hd) as [Ha Hf].
      split_and!; [done|done|].
      intros k Hk Hact Hmk. rewrite focus_element_run, Hm, Hd.
      cbn [negb andb]. rewrite Hact.
      rewrite bool_decide_eq_false_2 by congruence. cbn [fst negb].
      unfold focused. rewrite Hact. cbv iota beta.
      rewrite cell_modify_cell, decide_False by done.
      change (cell (set_activeElement ?a ?w0) k) with (cell w0 k).
      rewrite cell_modify_cell, decide_True by done.
      apply mounted_cell in Hmk as (c & -> & Hi). cbn.
      unfold Cell.setState. by rewrite Hi.
    + intros [Hl|[Hm| Hd]]; [lia| |].
      * by rewrite focus_element_absent.
      * rewrite focus_element_run, Hd. cbn. by rewrite andb_false_r.
  - split_and!; try done. intros Hpos. lia.
Qed.

End Edges.

(** ** No secret delay *)

Section NoDelay.
Context `{Host}.
Variable props : Props.t.
Hypothesis no_delay : Props.secretDelay props = 0.

Lemma masks_kept_blur_all w0 w w' :
  blur_all w' = blur_all w -> masks_kept w0 w -> masks_kept w0 w'.
Proof.
  intros E [Hm Ht]. destruct (blur_all_fields _ _ E) as (_ & _ & Et & _).
  split; [|by rewrite Et]. intros j.
  by rewrite (blur_all_masked _ _ j E).
Qed.

Lemma masks_kept_update w0 i raw b w :
  masks_kept w0 w -> masks_kept w0 (fst (PinItem.update props i raw b w)).
Proof.
  intros [Hm Ht]. rewrite update_run. cbn zeta.
  rewrite validateValue_fst, no_delay. cbn [Nat.eqb].
  destruct (PinItem.validation props raw) as [v|e]; [|done].
  destruct (_ && _); [done|]. destruct (_ <? _); [|done]. cbn [fst].
  split.
  - intros j. rewrite <- Hm. unfold masked. rewrite cell_commit.
    case_decide; [subst|done]. destruct (cell w j) as [c|]; [|done].
    cbn. unfold Cell.setState. by destruct (Cell.inputRef c).
  - cbn. apply Forall_app. split; [done|]. by repeat constructor.
Qed.

Lemma masks_kept_dispatch w0 e w :
  masks_kept w0 w -> masks_kept w0 (fst (PinInput.dispatch props e w)).
Proof.
  intros Hw. destruct e as [i v|i k|i text|i|i]; cbn [PinInput.dispatch].
  - by apply masks_kept_update.
  - unfold PinItem.handleKeyDown, bind, PinItem.value, gets.
    destruct (_ && _); [|done].
    unfold PinInput.onBackspace, PinInput.handleBackspace.
    destruct (0 <? i); [|done].
    eapply masks_kept_blur_all; [apply focus_element_blur_all|done].
  - unfold PinItem.handlePaste, PinInput.onPaste.
    destruct (i =? 0); [|done].
    unfold PinInput.handlePaste. destruct (negb _); [done|].
    unfold PinInput.forEach_element, bind at 1. unfold gets at 1.
    apply forEach_invariant; [|done]. intros j w1 Hw1.
    unfold bind, PinInput.element, gets.
    destruct (cell w1 j); [|done]. by apply masks_kept_update.
  - rewrite input_focus_run. cbn [fst]. destruct (_ || _); [done|].
    eapply masks_kept_blur_all; [apply blur_all_focused|done].
  - unfold bind, gets. destruct (bool_decide _); [|done].
    unfold PinItem.handleBlur, PinItem.setFocus, modify. cbn [fst].
    eapply masks_kept_blur_all; [|done].
    transitivity (blur_all (set_activeElement None w)); [|done].
    apply blur_all_modify_focus, set_focus_setState.
Qed.

Lemma masks_kept_turn w0 limit w w' :
  masks_kept w0 w -> PinInput.turn props limit w = Some w' ->
  masks_kept w0 w'.
Proof.
  intros [Hm Ht]. unfold PinInput.turn.
  destruct (PinInput.earliest (timers w)) as [t|] eqn:E; [|done].
  destruct (due t <=? limit); [|done]. intros [= <-].
  apply earliest_elem_of in E.
  set (w2 := set_now _ (set_timers _ w)).
  destruct (run_job_frame props (job t) w2) as (Et & _ & _ & _ & _ & Hk).
  cbn zeta in *. split.
  - intros j. specialize (Hk j). rewrite <- Hm.
    rewrite list.Forall_forall in Ht. specialize (Ht t E).
    unfold is_notify in Ht. by destruct (job t).
  - rewrite Et. cbn. apply list.Forall_forall.
    intros t' [_ Hin]%list_elem_of_filter.
    rewrite list.Forall_forall in Ht. by apply Ht.
Qed.

Lemma masks_kept_turns w0 fuel : forall limit w,
  masks_kept w0 w -> masks_kept w0 (PinInput.turns props fuel limit w).
Proof.
  induction fuel as [|fuel IH]; intros limit w Hw; [done|].
  cbn [PinInput.turns].
  destruct (PinInput.turn props limit w) as [w'|] eqn:E; [|done].
  apply IH. by eapply masks_kept_turn.
Qed.

(** X22. Without a secret delay a mask never changes. No event, no timer and
    no [clear()] unmasks a masked cell or masks an unmasked one, and none
    of them starts a hide: a row mounted with [secret] stays masked, a
    row mounted without stays readable. *)
Theorem masks_are_fixed_without_secretDelay w :
  Forall (fun t => is_notify t = true) (timers w) ->
  (forall e, masks_kept w (fst (PinInput.dispatch props e w))) /\
  (forall ms, masks_kept w (PinInput.elapse props ms w)) /\
  masks_kept w (PinInput.settle props w) /\
  masks_kept w (fst (PinInput.clear props w)).
Proof.
  intros Ht. assert (masks_kept w w) as Hw by by split.
  split_and!.
  - intros e. by apply masks_kept_dispatch.
  - intros ms. unfold PinInput.elapse.
    destruct (masks_kept_turns w (length (timers w)) (now w + ms) w Hw)
      as [Hm Hts].
    by split.
  - by apply masks_kept_turns.
  - rewrite clear_run.
    eapply masks_kept_blur_all; [apply focus_element_blur_all|].
    split; [|done]. intros j. unfold masked. rewrite cell_cleared.
    destruct (cell w j) as [c|]; [|done]. cbn. unfold Cell.setState.
    by destruct (Cell.inputRef c).
Qed.

End NoDelay.

(** ** The Code array and the cells *)

Section Mirror.
Context `{Host}.
Variable props : Props.t.

Lemma in_flight_notify w t :
  in_flight w t -> is_notify t = true ->
  due t = now w /\ forall k, pending_hide w k <> Some (tid t).
Proof.
  unfold in_flight, is_notify. destruct (job t); [done|].
  by intros (? & _ & ?) _.
Qed.

Lemma eventual_values_length w :
  Forall (in_flight w) (timers w) ->
  length (eventual_values w) = length (valuesRef w).
Proof.
  intros Hfl. unfold eventual_values. apply write_slots_length.
  unfold pending_notifications. apply Forall_fmap.
  apply list.Forall_forall. intros t [_ Hin]%list_elem_of_filter.
  rewrite list.Forall_forall in Hfl. specialize (Hfl t Hin).
  unfold in_flight in Hfl. cbn. by destruct (job t) as [|k v b]; [|destruct Hfl as (_ & ? & _)].
Qed.

Lemma no_notification w :
  pending_notifications w = [] ->
  forall t, t ∈ timers w -> is_notify t = false.
Proof.
  unfold pending_notifications. intros E%fmap_nil_inv t Hin.
  destruct (is_notify t) eqn:Hn; [|done].
  assert (t ∈ filter (fun t => is_notify t = true) (timers w)) as Habs
    by by apply list_elem_of_filter.
  rewrite E in Habs. by apply elem_of_nil in Habs.
Qed.

Lemma mirrored_blur_all w w' :
  blur_all w' = blur_all w -> mirrored w -> mirrored w'.
Proof.
  intros E (Hlen & Hm & Hnd & Hfresh & Hrefs & Hfl & Hval).
  destruct (blur_all_fields _ _ E) as (Ev & _ & Et & En & Eno & El).
  assert (Ep : forall k, pending_hide w' k = pending_hide w k)
    by (intros k; by apply blur_all_pending_hide).
  unfold mirrored, refs_fresh, eventual_values, pending_notifications,
    in_flight in *.
  rewrite Ev, Et, En, El. split_and!; [done| |done|done| | |].
  - intros i Hi. rewrite (blur_all_mounted _ _ i E). by apply Hm.
  - intros j id. rewrite Ep. apply Hrefs.
  - eapply list.Forall_impl; [exact Hfl|]. intros t. cbn.
    destruct (job t); [done|]. rewrite Eno.
    intros (? & ? & Hk). split_and!; [done..|]. intros k. rewrite Ep.
    apply Hk.
  - intros i Hi. rewrite (blur_all_value_of _ _ i E). by apply Hval.
Qed.

Lemma validateValue_pending_hide i raw w j :
  let w1 := fst (PinItem.validateValue props i raw w) in
  pending_hide w1 j = pending_hide w j \/
  pending_hide w1 j = Some (nextTimer w) /\
  nextTimer w1 = Pos.succ (nextTimer w).
Proof.
  cbn zeta. rewrite validateValue_fst.
  destruct (Props.secretDelay props =? 0); [by left|].
  unfold pending_hide. rewrite cell_setSecretDelayed.
  rewrite setSecretDelayed_run. cbn [fst nextTimer].
  case_decide; [subst|by left].
  destruct (cell w j) as [c|]; [|by left]. by right.
Qed.

Lemma mirrored_validateValue i raw w :
  mirrored w -> mirrored (fst (PinItem.validateValue props i raw w)).
Proof.
  intros (Hlen & Hm & Hnd & Hfresh & Hrefs & Hfl & Hval).
  destruct (validateValue_frame props i raw w) as (Hv & _ & _ & Hn & Hl).
  destruct (validateValue_queue props i raw w Hfresh Hnd)
    as (HN & Hfresh1 & Hnd1 & Hsub & Hfilter & Hother).
  pose proof (validateValue_mounted props i raw w) as Hm1.
  pose proof (validateValue_value_of props i raw w) as Hval1.
  pose proof (validateValue_pending_hide i raw w) as Hp. cbn zeta in *.
  set (w1 := fst (PinItem.validateValue props i raw w)) in *.
  rewrite list.Forall_forall in Hfl, Hfresh.
  assert (Hpn : pending_notifications w1 = pending_notifications w).
  { unfold pending_notifications. rewrite Hfilter; [done|].
    intros t Hin Hnt. by destruct (in_flight_notify w t (Hfl t Hin) Hnt). }
  unfold mirrored, eventual_values. rewrite Hpn, Hv, Hl.
  split_and!; [done| |done|done| | |].
  - intros k Hk. rewrite Hm1. by apply Hm.
  - intros j id Hj. destruct (Hp j) as [E|[E ->]].
    + rewrite E in Hj. specialize (Hrefs j id Hj). lia.
    + rewrite E in Hj. injection Hj as <-. lia.
  - apply list.Forall_forall. intros t Hin. unfold in_flight.
    destruct (job t) as [|k v b] eqn:Ej; [done|].
    assert (is_notify t = true) as Hnt by (unfold is_notify; by rewrite Ej).
    specialize (Hsub t Hin Hnt). pose proof (Hfl t Hsub) as Hft.
    unfold in_flight in Hft. rewrite Ej in Hft.
    destruct Hft as (Hdue & Hk & Hno). rewrite Hn, Hv.
    split_and!; [done|done|]. intros j. destruct (Hp j) as [->|[-> _]].
    + apply Hno.
    + specialize (Hfresh t Hsub). intros [= E]. lia.
  - intros k Hk. rewrite Hval1. by apply Hval.
Qed.

Lemma pending_notifications_commit i v b w :
  pending_notifications (commit i v b w)
  = pending_notifications w ++ [Notify i v b].
Proof.
  unfold pending_notifications. cbn [commit timers].
  rewrite list.filter_app, fmap_app.
  by rewrite (filter_cons_True _ _ []) by done.
Qed.

Lemma mirrored_commit i v b w :
  i < length (valuesRef w) -> mirrored w -> mirrored (commit i v b w).
Proof.
  intros Hi (Hlen & Hm & Hnd & Hfresh & Hrefs & Hfl & Hval).
  pose proof (eventual_values_length w Hfl) as Hev.
  assert (Hev' : eventual_values (commit i v b w)
                 = <[i:=v]> (eventual_values w)).
  { unfold eventual_values. rewrite pending_notifications_commit.
    rewrite foldl_app. cbn [foldl write_slot commit valuesRef].
    apply array_set_in_range. fold (eventual_values w). lia. }
  unfold mirrored. rewrite Hev'.
  cbn [commit valuesRef elementsRef timers nextTimer].
  split_and!.
  - by rewrite length_alter.
  - intros k Hk. rewrite mounted_commit. by apply Hm.
  - rewrite fmap_app. apply list.NoDup_app. split_and!; [done| |].
    + intros x Hx [->|Habs%elem_of_nil]%elem_of_cons; [|done].
      apply list_elem_of_fmap in Hx as (t & Ht & Hin).
      rewrite list.Forall_forall in Hfresh. specialize (Hfresh t Hin).
      cbn in Ht. lia.
    + apply NoDup_singleton.
  - apply Forall_app. split; [|repeat constructor; cbn; lia].
    eapply list.Forall_impl; [exact Hfresh|]. cbn. lia.
  - intros j id. rewrite pending_hide_commit. intros Hj.
    specialize (Hrefs j id Hj). cbn. lia.
  - apply Forall_app. split.
    + eapply list.Forall_impl; [exact Hfl|]. intros t. unfold in_flight.
      destruct (job t); [done|]. cbn [commit now valuesRef].
      intros (? & ? & Hk). split_and!; [done..|]. intros k.
      rewrite pending_hide_commit. apply Hk.
    + constructor; [|constructor]. unfold in_flight. cbn.
      split_and!; [lia|done|]. intros k. rewrite pending_hide_commit.
      intros Hk. specialize (Hrefs k _ Hk). lia.
  - intros k Hk. rewrite value_of_commit. case_decide; [subst k|].
    + rewrite (Hm i Hi). symmetry. apply list_lookup_insert_eq. lia.
    + rewrite list_lookup_insert_ne by done. by apply Hval.
Qed.

Lemma mirrored_update i raw b w :
  i < length (valuesRef w) ->
  mirrored w -> mirrored (fst (PinItem.update props i raw b w)).
Proof.
  intros Hi Hw. rewrite update_run. cbn zeta.
  pose proof (mirrored_validateValue i raw w Hw) as Hw1.
  destruct (validateValue_frame props i raw w) as (Hv & _).
  destruct (PinItem.validation props raw) as [v|e]; [|done].
  destruct (_ && _); [done|]. destruct (_ <? _); [|done]. cbn [fst].
  apply mirrored_commit; [|done]. by rewrite Hv.
Qed.

Lemma mirrored_focus_element k w :
  mirrored w -> mirrored (fst (PinInput.focus_element props k w)).
Proof.
  intros Hw. eapply mirrored_blur_all; [apply focus_element_blur_all|done].
Qed.

Lemma mirrored_cell w i c :
  mirrored w -> cell w i = Some c -> i < length (valuesRef w).
Proof.
  intros (Hlen & _) Hc%cell_Some_lookup%lookup_lt_Some. lia.
Qed.

Lemma mirrored_handlePaste pastedValue w :
  mirrored w -> mirrored (fst (PinInput.handlePaste props pastedValue w)).
Proof.
  intros Hw. unfold PinInput.handlePaste. destruct (negb _); [done|].
  unfold PinInput.forEach_element, bind at 1. unfold gets at 1.
  apply forEach_invariant; [|done]. intros i w0 Hw0.
  unfold bind, PinInput.element, gets.
  destruct (cell w0 i) as [c|] eqn:Hc; [|done].
  apply mirrored_update; [|done]. by eapply mirrored_cell.
Qed.

Lemma mirrored_dispatch e w :
  event_cell e < length (valuesRef w) ->
  mirrored w -> mirrored (fst (PinInput.dispatch props e w)).
Proof.
  intros Hi Hw. destruct e as [i v|i k|i text|i|i];
    cbn [PinInput.dispatch event_cell] in *.
  - by apply mirrored_update.
  - unfold PinItem.handleKeyDown, bind, PinItem.value, gets.
    destruct (_ && _); [|done].
    unfold PinInput.onBackspace, PinInput.handleBackspace.
    destruct (0 <? i); [|done]. by apply mirrored_focus_element.
  - unfold PinItem.handlePaste, PinInput.onPaste.
    destruct (i =? 0); [|done]. by apply mirrored_handlePaste.
  - rewrite input_focus_run. cbn [fst]. destruct (_ || _); [done|].
    eapply mirrored_blur_all; [apply blur_all_focused|done].
  - unfold bind, gets. destruct (bool_decide _); [|done].
    unfold modify, PinItem.handleBlur, PinItem.setFocus. cbn [fst].
    eapply mirrored_blur_all; [|done].
    transitivity (blur_all (set_activeElement None w)); [|done].
    apply blur_all_modify_focus, set_focus_setState.
Qed.

Lemma mirrored_set_now clock w :
  pending_notifications w = [] -> mirrored w -> mirrored (set_now clock w).
Proof.
  intros Hpn (Hlen & Hm & Hnd & Hfresh & Hrefs & Hfl & Hval).
  split_and!; [done..| |done].
  apply list.Forall_forall. intros t Hin. unfold in_flight.
  pose proof (no_notification w Hpn t Hin) as Hnt. unfold is_notify in Hnt.
  by destruct (job t).
Qed.

(** Running the timers that are due by [limit] writes every pending
    notification to the Code array and leaves the cells' values alone. *)
Lemma mirrored_turns limit w :
  now w <= limit -> mirrored w ->
  let w' := PinInput.turns props (length (timers w)) limit w in
  mirrored w' /\ pending_notifications w' = [] /\
  valuesRef w' = eventual_values w.
Proof.
  intros Hlimit (Hlen & Hm & Hnd & Hfresh & Hrefs & Hfl & Hval). cbn zeta.
  assert (Hdue : Forall (fun t => is_notify t = true -> due t = now w)
                   (timers w)).
  { eapply list.Forall_impl; [exact Hfl|]. intros t Ht Hnt.
    by destruct (in_flight_notify w t Ht Hnt). }
  destruct (turns_frame props (length (timers w)) limit (now w) w
              Hnd Hdue Hlimit (le_n _))
    as (Ev & _ & _ & El & Et & En & Ep & Em & Eval & Epn & _).
  cbn zeta in *.
  set (w' := PinInput.turns props (length (timers w)) limit w) in *.
  pose proof (eventual_values_length w Hfl) as Hev.
  split_and!; [|done..].
  unfold mirrored, refs_fresh, eventual_values.
  rewrite Epn, Ev, El, En, Hev. cbn [foldl].
  split_and!.
  - done.
  - intros i Hi. rewrite Em. by apply Hm.
  - rewrite Et. eapply sublist_NoDup; [exact Hnd|].
    apply fmap_sublist, sublist_filter.
  - rewrite Et. apply list.Forall_forall.
    intros t [_ Hin]%list_elem_of_filter.
    rewrite list.Forall_forall in Hfresh. by apply Hfresh.
  - intros j id. rewrite Ep. apply Hrefs.
  - apply list.Forall_forall. intros t Hin. unfold in_flight.
    pose proof (no_notification w' Epn t Hin) as Hnt.
    unfold is_notify in Hnt. by destruct (job t).
  - intros i Hi. rewrite Eval. by apply Hval.
Qed.

Lemma mirrored_clear w :
  pending_notifications w = [] ->
  mirrored w -> mirrored (fst (PinInput.clear props w)).
Proof.
  intros Hpn (Hlen & Hm & Hnd & Hfresh & Hrefs & Hfl & Hval).
  rewrite clear_run. apply mirrored_focus_element.
  set (w1 := set_valuesRef _ _).
  assert (Hm1 : forall j, mounted w1 j = mounted w j).
  { intros j. unfold mounted. subst w1. rewrite cell_cleared.
    destruct (cell w j) as [c|]; [|done]. cbn. unfold Cell.setState.
    by destruct c as [? ? ? ? ? []]. }
  assert (Hp1 : forall j, pending_hide w1 j = pending_hide w j).
  { intros j. unfold pending_hide. subst w1. rewrite cell_cleared.
    destruct (cell w j) as [c|]; [|done]. cbn. unfold Cell.setState.
    by destruct c as [? ? ? ? ? []]. }
  assert (Hl1 : length (valuesRef w1) = length (valuesRef w))
    by (subst w1; cbn; by rewrite length_map).
  assert (Hpn1 : pending_notifications w1 = []) by done.
  unfold mirrored, refs_fresh, eventual_values. rewrite Hpn1, Hl1.
  cbn [foldl]. split_and!.
  - subst w1; cbn. by rewrite length_map.
  - intros i Hi. rewrite Hm1. by apply Hm.
  - done.
  - done.
  - intros j id. rewrite Hp1. apply Hrefs.
  - apply list.Forall_forall. intros t Hin. unfold in_flight.
    pose proof (no_notification w Hpn t Hin) as Hnt.
    unfold is_notify in Hnt. by destruct (job t).
  - intros i Hi. unfold value_of. subst w1. rewrite cell_cleared. cbn.
    destruct (mounted_cell w i (Hm i Hi)) as (c & -> & Hc). cbn.
    unfold Cell.setState. rewrite Hc. cbn.
    change (map ?f ?l) with (f <$> l). rewrite list_lookup_fmap.
    by destruct (lookup_lt_is_Some_2 (valuesRef w) i Hi) as [s ->].
Qed.

(** No event writes the Code array: only the notifications do. *)
Lemma update_valuesRef i raw b w :
  valuesRef (fst (PinItem.update props i raw b w)) = valuesRef w.
Proof.
  rewrite update_run. cbn zeta.
  destruct (validateValue_frame props i raw w) as (Hv & _).
  destruct (PinItem.validation props raw) as [v|e]; [|done].
  destruct (_ && _); [done|]. by destruct (_ <? _).
Qed.

Lemma dispatch_valuesRef e w :
  valuesRef (fst (PinInput.dispatch props e w)) = valuesRef w.
Proof.
  destruct e as [i v|i k|i text|i|i]; cbn [PinInput.dispatch].
  - apply update_valuesRef.
  - unfold PinItem.handleKeyDown, bind, PinItem.value, gets.
    destruct (_ && _); [|done].
    unfold PinInput.onBackspace, PinInput.handleBackspace.
    destruct (0 <? i); [|done].
    by destruct (blur_all_fields _ _ (focus_element_blur_all props (i - 1) w))
      as (-> & _).
  - unfold PinItem.handlePaste, PinInput.onPaste.
    destruct (i =? 0); [|done].
    unfold PinInput.handlePaste. destruct (negb _); [done|].
    unfold PinInput.forEach_element, bind at 1. unfold gets at 1.
    apply (forEach_invariant (fun w' => valuesRef w' = valuesRef w));
      [|done].
    intros j w0 Hw0. unfold bind, PinInput.element, gets.
    destruct (cell w0 j); [|done]. by rewrite update_valuesRef.
  - rewrite input_focus_run. cbn [fst]. destruct (_ || _); [done|].
    by destruct (blur_all_fields _ _ (blur_all_focused i w)) as (-> & _).
  - unfold bind, gets. by destruct (bool_decide _).
Qed.

Lemma pending_hide_lookup w k el :
  elementsRef w !! k = Some el ->
  pending_hide w k = el ≫= Cell.secretTimeoutRef.
Proof. unfold pending_hide, cell. intros ->. by destruct el. Qed.

Lemma quiet_intro w :
  NoDup (tid <$> timers w) ->
  Forall (fun t => (tid t < nextTimer w)%positive) (timers w) ->
  refs_fresh w ->
  pending_notifications w = [] ->
  quiet w = true.
Proof.
  intros Hnd Hfresh Hrefs Hpn.
  unfold quiet. rewrite !andb_true_iff. split_and!.
  - apply forallb_forall. intros t Hin%list_elem_of_In.
    rewrite (no_notification w Hpn t Hin). cbn.
    rewrite list.Forall_forall in Hfresh. apply Pos.ltb_lt.
    by apply Hfresh.
  - by apply bool_decide_eq_true_2.
  - apply forallb_forall. intros el Hin%list_elem_of_In.
    apply list_elem_of_lookup in Hin as (k & Hk).
    rewrite <- (pending_hide_lookup w k el Hk).
    destruct (pending_hide w k) as [id|] eqn:E; [|done].
    apply Pos.ltb_lt. by eapply Hrefs.
Qed.

Lemma all_mounted_intro w :
  (forall k, k < length (elementsRef w) -> mounted w k = true) ->
  all_mounted w = true.
Proof.
  intros Hm. unfold all_mounted. apply forallb_forall.
  intros el Hin%list_elem_of_In.
  apply list_elem_of_lookup in Hin as (k & Hk).
  pose proof (lookup_lt_Some _ _ _ Hk) as Hlt.
  specialize (Hm k Hlt). unfold mounted, cell in Hm.
  rewrite Hk in Hm. by destruct el.
Qed.

(** A mirrored row with no notification pending has nothing left to
    deliver, and all its cells are in the tree. *)
Lemma mirrored_ready w :
  mirrored w -> pending_notifications w = [] ->
  quiet w = true /\ all_mounted w = true.
Proof.
  intros (Hlen & Hm & Hnd & Hfresh & Hrefs & Hfl & Hval) Hpn.
  split; [by apply quiet_intro|].
  apply all_mounted_intro. intros k Hk. apply Hm. lia.
Qed.

(** X23. The Code array mirrors the cells. No event writes the Code
    array, only the notifications do. In a row where every slot has its
    cell in the tree and every cell shows what its slot will hold once
    the pending notifications are delivered, this stays so after every
    event of a cell of the row, after the timers that are due have run
    and after any time has passed, after [focus()], and after [clear()]
    when no notification is pending. Once the timers that are due have
    run the row has nothing left to deliver, and every cell shows exactly
    what its slot holds: the pin the callbacks report is the one on the
    screen. *)
Theorem code_array_mirrors_the_cells w :
  mirrored w ->
  (forall e, valuesRef (fst (PinInput.dispatch props e w)) = valuesRef w /\
             (event_cell e < length (valuesRef w) ->
              mirrored (fst (PinInput.dispatch props e w)))) /\
  (forall ms, mirrored (PinInput.elapse props ms w) /\
              quiet (PinInput.elapse props ms w) = true) /\
  mirrored (fst (PinInput.focusFirstInput props w)) /\
  (pending_notifications w = [] ->
   mirrored (fst (PinInput.clear props w))) /\
  let w' := PinInput.settle props w in
  mirrored w' /\ quiet w' = true /\ all_mounted w' = true /\
  length (valuesRef w') = length (valuesRef w) /\
  (forall i, i < length (valuesRef w) ->
             value_of w' i = valuesRef w' !! i /\
             value_of w' i = value_of w i).
Proof.
  intros Hw. split_and!.
  - intros e. split; [apply dispatch_valuesRef|].
    intros He. by apply mirrored_dispatch.
  - intros ms. unfold PinInput.elapse. cbn zeta.
    destruct (mirrored_turns (now w + ms) w ltac:(lia) Hw) as (Hw' & Hpn & _).
    cbn zeta in *.
    pose proof (mirrored_set_now (now w + ms) _ Hpn Hw') as Hw2.
    split; [done|]. by apply mirrored_ready.
  - unfold PinInput.focusFirstInput. destruct (_ <? _); [|done].
    by apply mirrored_focus_element.
  - intros Hpn. by apply mirrored_clear.
  - cbn zeta. unfold PinInput.settle.
    destruct (mirrored_turns (now w) w (le_n _) Hw) as (Hw' & Hpn & Hv).
    cbn zeta in *.
    set (w' := PinInput.turns props (length (timers w)) (now w) w) in *.
    destruct (mirrored_ready w' Hw' Hpn) as (Hq & Hall).
    destruct Hw as (Hlen & Hm & Hnd & Hfresh & Hrefs & Hfl & Hval).
    pose proof (eventual_values_length w Hfl) as Hev.
    assert (length (valuesRef w') = length (valuesRef w)) as Hl
      by by rewrite Hv.
    split_and!; [done..|].
    intros i Hi.
    destruct Hw' as (_ & _ & _ & _ & _ & _ & Hval').
    specialize (Hval' i ltac:(lia)). unfold eventual_values in Hval'.
    rewrite Hpn in Hval'. cbn [foldl] in Hval'.
    split; [done|]. by rewrite Hval', Hv, Hval.
Qed.

(** X24. Mounting and the mirror. Without a secret delay the row that
    has just mounted mirrors its Code array exactly when validation lets
    every character of the initial value through unchanged: one
    character that validation rejects or rewrites, a letter in numeric
    mode or a lower-case letter in the default mode, leaves a slot of
    the Code array that no cell shows. *)
Theorem mount_mirrors_a_valid_initial_value initialValue clock w :
  Props.secretDelay props = 0 ->
  PinInput.mount props initialValue clock = Normal w ->
  let slot i := match initialValue !! i with Some c => [c] | None => [] end in
  mirrored w <->
  forall i, i < Props.length props ->
            PinItem.validation props (str (slot i)) = Normal (slot i).
Proof.
  intros Hd Hmount. cbn zeta.
  destruct (mount_run props initialValue clock Hd)
    as (cs & w0 & Hw0 & Hlen & Hcs & (E & _) & _).
  rewrite Hmount in Hw0. injection Hw0 as <-.
  destruct (initial_values_short props initialValue) as (HL & _).
  destruct (blur_all_fields _ _ E) as (Hv & _ & Ht & Hn & _ & Hl).
  cbn in Hv, Ht, Hn, Hl. rewrite length_fmap, Hlen in Hl.
  assert (Hcell : forall i, i < Props.length props ->
            exists v c,
              PinItem.validation props
                (str (match initialValue !! i with
                      | Some c => [c] | None => [] end)) = Normal v /\
              cell w i = Some c /\ Cell.value c = v /\
              Cell.inputRef c = true /\ Cell.secretTimeoutRef c = None).
  { intros i Hi. destruct (Hcs i Hi) as (v & Hval & Hci).
    pose proof (blur_all_cell _ _ i E) as Ec. unfold cell at 2 in Ec.
    cbn in Ec. rewrite list_lookup_fmap, Hci in Ec. cbn in Ec.
    destruct (cell w i) as [c|]; [|done]. cbn in Ec.
    exists v, c. injection Ec as Ec. split_and!; [done|done|..];
      destruct c; cbn in *; congruence. }
  assert (Hev : eventual_values w = PinInput.initial_values props initialValue).
  { unfold eventual_values, pending_notifications. by rewrite Ht, Hv. }
  split.
  - intros (_ & _ & _ & _ & _ & _ & Hval) i Hi.
    destruct (Hcell i Hi) as (v & c & Hvalid & Hc & Hcv & _).
    specialize (Hval i ltac:(by rewrite Hv, HL)).
    rewrite Hev, (initial_values_lookup props initialValue i Hi) in Hval.
    unfold value_of in Hval. rewrite Hc in Hval. cbn in Hval.
    injection Hval as Hval. by rewrite Hvalid, <- Hcv, Hval.
  - intros Hvalid. unfold mirrored, refs_fresh. rewrite Hev, Ht, Hv, HL, Hl.
    split_and!; [done| |constructor|constructor| |constructor|].
    + intros i Hi. destruct (Hcell i Hi) as (v & c & _ & Hc & _ & Hin & _).
      unfold mounted. by rewrite Hc.
    + intros j id. unfold pending_hide.
      destruct (cell w j) as [c|] eqn:Hc; [|done]. cbn.
      assert (j < Props.length props) as Hj.
      { apply cell_Some_lookup, lookup_lt_Some in Hc. lia. }
      destruct (Hcell j Hj) as (v & c' & _ & Hc' & _ & _ & Hs).
      rewrite Hc in Hc'. injection Hc' as <-. by rewrite Hs.
    + intros i Hi. destruct (Hcell i Hi) as (v & c & Hval & Hc & Hcv & _).
      rewrite (initial_values_lookup props initialValue i Hi).
      unfold value_of. rewrite Hc. cbn. rewrite Hcv.
      rewrite (Hvalid i Hi) in Hval. by injection Hval as <-.
Qed.

Lemma map_empty_slots (a : list jsstring) :
  map (fun _ => []) a = replicate (length a) ([] : jsstring).
Proof. induction a as [|s a IH]; [done|]. cbn. by rewrite IH. Qed.

Lemma join_single_slot n : forall i (v : jsstring),
  i < n -> join (<[i:=v]> (replicate n [])) = v.
Proof.
  unfold join. induction n as [|n IH]; intros i v Hi; [lia|].
  destruct i as [|i]; cbn.
  - fold (join (replicate n [])). by rewrite join_replicate_empty, app_nil_r.
  - apply IH. lia.
Qed.

(** X25. [clear()] does not cancel a notification. When [clear()] is
    called after a keystroke and before the keystroke's notification
    runs, the notification still writes the typed character to the
    emptied Code array and reports it: every cell is empty, and
    [onChange] is called with a pin of that one character. The Code
    array no longer mirrors the cells. *)
Theorem clear_does_not_cancel_a_notification i raw v cur w :
  mirrored w ->
  pending_notifications w = [] ->
  i < length (valuesRef w) ->
  value_of w i = Some cur ->
  PinItem.validation props (str raw) = Normal v ->
  v <> cur ->
  length v = 1 ->
  let L := Props.length props in
  let typed := fst (PinInput.dispatch props (PinInput.Change i raw) w) in
  let w' := PinInput.settle props (fst (PinInput.clear props typed)) in
  let currentIndex := if S i <? L then S i else i in
  (forall j, j < length (valuesRef w) -> value_of w' j = Some []) /\
  valuesRef w' = <[i:=v]> (replicate (length (valuesRef w)) []) /\
  join (valuesRef w') = v /\
  calls w' = calls w ++ [OnChange v currentIndex] ++
             (if 1 =? L then [OnComplete v currentIndex] else []) /\
  ~ mirrored w'.
Proof.
  intros Hw Hpn Hi Hcur Hv Hne Hone. cbn zeta.
  pose proof (mirrored_update i (str raw) false w Hi Hw) as Htyped.
  change (PinInput.dispatch props (PinInput.Change i raw) w)
    with (PinItem.update props i (str raw) false w).
  assert (Hq : pending_notifications
                 (fst (PinItem.update props i (str raw) false w))
               = [Notify i v false] /\
               calls (fst (PinItem.update props i (str raw) false w))
               = calls w).
  { rewrite update_run, Hv. cbn zeta. rewrite andb_true_r.
    rewrite validateValue_value_of, Hcur. cbn [default].
    rewrite bool_decide_eq_false_2 by done. rewrite Hone. cbn [Nat.ltb
      Nat.leb fst].
    rewrite pending_notifications_commit.
    destruct (validateValue_frame props i (str raw) w) as (_ & Hc & _).
    split; [|done].
    destruct Hw as (_ & _ & Hnd & Hfresh & _ & Hfl & _).
    destruct (validateValue_queue props i (str raw) w Hfresh Hnd)
      as (_ & _ & _ & _ & Hfilter & _).
    unfold pending_notifications in *. rewrite Hfilter, Hpn; [done|].
    intros t Hin Hnt. rewrite list.Forall_forall in Hfl.
    by destruct (in_flight_notify w t (Hfl t Hin) Hnt). }
  destruct Hq as (Hq & Hcalls).
  pose proof (update_valuesRef i (str raw) false w) as Hvals.
  set (typed := fst (PinItem.update props i (str raw) false w)) in *.
  destruct Htyped as (Hlen & Hm & Hnd & Hfresh & Hrefs & Hfl & Hval).
  rewrite Hvals in Hlen, Hm, Hval.
  rewrite clear_run.
  set (w1 := set_valuesRef _ _).
  pose proof (focus_element_blur_all props 0 w1) as Hframe.
  set (w2 := fst (PinInput.focus_element props 0 w1)) in *.
  destruct (blur_all_fields _ _ Hframe) as (Ev & Ec & Et & _ & En & _).
  assert (Hv1 : valuesRef w2 = replicate (length (valuesRef w)) []).
  { rewrite Ev. subst w1. cbn [valuesRef set_valuesRef set_elementsRef].
    by rewrite Hvals, map_empty_slots. }
  assert (Hval2 : forall j, j < length (valuesRef w) ->
                            value_of w2 j = Some []).
  { intros j Hj. rewrite (blur_all_value_of _ _ j Hframe).
    unfold value_of. subst w1. rewrite cell_cleared.
    destruct (mounted_cell typed j (Hm j Hj)) as (c & -> & Hc). cbn.
    unfold Cell.setState. by rewrite Hc. }
  assert (Hpn2 : pending_notifications w2 = [Notify i v false]).
  { unfold pending_notifications. rewrite Et. exact Hq. }
  assert (Hdue : Forall (fun t => is_notify t = true -> due t = now w2)
                   (timers w2)).
  { rewrite Et, En. eapply list.Forall_impl; [exact Hfl|].
    intros t Ht Hnt. by destruct (in_flight_notify typed t Ht Hnt). }
  assert (Hnd2 : NoDup (tid <$> timers w2)) by by rewrite Et.
  destruct (turns_frame props (length (timers w2)) (now w2) (now w2) w2
              Hnd2 Hdue (le_n _) (le_n _))
    as (Fv & Fc & _ & _ & _ & _ & _ & _ & Fval & Fpn & _).
  cbn zeta in *. fold (PinInput.settle props w2) in *.
  set (w' := PinInput.settle props w2) in *.
  assert (Hv' : valuesRef w' = <[i:=v]> (replicate (length (valuesRef w)) [])).
  { rewrite Fv. unfold eventual_values. rewrite Hpn2, Hv1.
    cbn [foldl write_slot]. apply array_set_in_range.
    by rewrite length_replicate. }
  split_and!.
  - intros j Hj. rewrite Fval. by apply Hval2.
  - done.
  - rewrite Hv'. by apply join_single_slot.
  - rewrite Fc, Hpn2. unfold run_all. cbn [foldl PinInput.run_job].
    rewrite onItemChange_run. cbn zeta. cbn [fst].
    rewrite Hv1, array_set_in_range by by rewrite length_replicate.
    rewrite join_single_slot by done. rewrite Hone.
    unfold set_calls; cbn [calls negb andb app Nat.eqb].
    rewrite andb_true_r. replace (i + 1) with (S i) by lia.
    f_equal. destruct (S i <? Props.length props).
    + destruct (blur_all_fields _ _
        (focus_element_blur_all props (S i)
           (set_valuesRef (array_set i v) w2))) as (_ & -> & _).
      cbn [calls set_valuesRef]. by rewrite Ec, <- Hcalls.
    + cbn [calls set_valuesRef]. by rewrite Ec, <- Hcalls.
  - intros (_ & _ & _ & _ & _ & _ & Habs).
    specialize (Habs i ltac:(by rewrite Hv', length_insert,
                               length_replicate)).
    unfold eventual_values in Habs. rewrite Fpn in Habs.
    cbn [foldl] in Habs. rewrite Fval, Hval2, Hv' in Habs by done.
    rewrite list_lookup_insert_eq in Habs by by rewrite length_replicate.
    injection Habs as <-. done.
Qed.

End Mirror.

(** ** A cell leaves the tree *)

Section Leaving.
Context `{Host}.
Variable props : Props.t.

Lemma unmount_item_frame i w :
  let w' := fst (PinInput.unmount_item i w) in
  timers w' = drop_timer (cell w i ≫= Cell.inputTimeoutRef)
                (drop_timer (pending_hide w i) (timers w)) /\
  valuesRef w' = valuesRef w /\ calls w' = calls w /\ now w' = now w /\
  elementsRef w' = <[i:=None]> (elementsRef w).
Proof.
  cbn zeta. rewrite unmount_item_run. cbn [fst].
  by destruct (bool_decide _).
Qed.

(** A change event that its cell adopts. *)
Lemma update_adopts i raw b v cur w :
  mirrored w ->
  value_of w i = Some cur ->
  PinItem.validation props raw = Normal v ->
  v <> cur -> length v < 2 ->
  let w0 := fst (PinItem.validateValue props i raw w) in
  fst (PinItem.update props i raw b w) = commit i v b w0 /\
  mirrored w0 /\
  pending_notifications w0 = pending_notifications w.
Proof.
  intros Hw Hcur Hv Hne Hlen. cbn zeta.
  rewrite update_run, Hv. cbn zeta.
  rewrite validateValue_value_of, Hcur. cbn [default].
  rewrite bool_decide_eq_false_2 by done. cbn [andb].
  apply Nat.ltb_lt in Hlen as ->. cbn [fst].
  split_and!; [done|by apply mirrored_validateValue|].
  destruct Hw as (_ & _ & Hnd & Hfresh & _ & Hfl & _).
  destruct (validateValue_queue props i raw w Hfresh Hnd)
    as (_ & _ & _ & _ & Hfilter & _).
  unfold pending_notifications. rewrite Hfilter; [done|].
  intros t Hin Hnt. rewrite list.Forall_forall in Hfl.
  by destruct (in_flight_notify w t (Hfl t Hin) Hnt).
Qed.

Lemma filter_notify_comm (P : Timer -> Prop) `{forall t, Decision (P t)}
    (ts : list Timer) :
  filter (fun t => is_notify t = true) (filter P ts)
  = filter P (filter (fun t => is_notify t = true) ts).
Proof.
  induction ts as [|t ts IH]; [done|].
  rewrite !filter_cons.
  destruct (decide (P t)), (decide (is_notify t = true));
    rewrite ?filter_cons; repeat case_decide; try done; by rewrite IH.
Qed.

Lemma filter_all {A} (P : A -> Prop) `{forall x, Decision (P x)}
    (l : list A) :
  (forall x, x ∈ l -> P x) -> filter P l = l.
Proof.
  induction l as [|x l IH]; intros Hl; [done|].
  rewrite filter_cons_True by (apply Hl; by left).
  f_equal. apply IH. intros y Hy. apply Hl. by right.
Qed.

(** A cell leaves the tree right after it adopted a value: its cleanup
    takes the notification it has just queued off the queue, and what was
    pending before stays. *)
Lemma unmount_drops_last i v b w :
  mirrored w ->
  i < length (valuesRef w) ->
  let left := fst (PinInput.unmount_item i (commit i v b w)) in
  pending_notifications left = pending_notifications w /\
  NoDup (tid <$> timers left) /\
  Forall (fun t => is_notify t = true -> due t = now left) (timers left) /\
  valuesRef left = valuesRef w /\ calls left = calls w /\
  cell left i = None.
Proof.
  intros (Hlen & Hm & Hnd & Hfresh & Hrefs & Hfl & Hval) Hi. cbn zeta.
  destruct (unmount_item_frame i (commit i v b w))
    as (Et & Ev & Ec & En & Ee).
  cbn zeta in *.
  set (left := fst (PinInput.unmount_item i (commit i v b w))) in *.
  rewrite pending_hide_commit in Et.
  destruct (mounted_cell w i (Hm i Hi)) as (c & Hc & _).
  assert (cell (commit i v b w) i ≫= Cell.inputTimeoutRef
          = Some (nextTimer w)) as Hlast.
  { by rewrite cell_commit, decide_True, Hc by done. }
  rewrite Hlast in Et.
  set (n := {| tid := nextTimer w; due := now w + 0; job := Notify i v b |})
    in *.
  change (timers (commit i v b w)) with (timers w ++ [n]) in Et.
  rewrite list.Forall_forall in Hfl, Hfresh.
  assert (Hin : forall t, t ∈ timers left -> t ∈ timers w).
  { intros t. rewrite Et. unfold drop_timer at 1.
    intros [Hne Ht]%list_elem_of_filter.
    apply drop_timer_elem_of in Ht.
    apply elem_of_app in Ht as [Ht| ->%list_elem_of_singleton]; done. }
  split_and!.
  - unfold pending_notifications. f_equal. rewrite Et.
    unfold drop_timer at 1. rewrite filter_notify_comm.
    assert (filter (fun t => is_notify t = true)
              (drop_timer (pending_hide w i) (timers w ++ [n]))
            = filter (fun t => is_notify t = true) (timers w) ++ [n]) as ->.
    { assert (filter (fun t => is_notify t = true) (timers w ++ [n])
              = filter (fun t => is_notify t = true) (timers w) ++ [n]) as <-.
      { rewrite list.filter_app. by rewrite (filter_cons_True _ _ []). }
      unfold drop_timer. destruct (pending_hide w i) as [id|] eqn:E; [|done].
      apply filter_notify_drop.
      intros t [Ht| ->%list_elem_of_singleton]%elem_of_app Hnt.
      - destruct (in_flight_notify w t (Hfl t Ht) Hnt) as [_ Hno].
        intros Heq. apply (Hno i). by rewrite E, Heq.
      - cbn. specialize (Hrefs i id E). lia. }
    rewrite list.filter_app.
    rewrite (filter_cons_False _ _ []) by (cbn; tauto).
    rewrite filter_nil, app_nil_r. apply filter_all.
    intros t [_ Ht]%list_elem_of_filter. specialize (Hfresh t Ht). lia.
  - rewrite Et. do 2 apply drop_timer_NoDup.
    rewrite fmap_app. apply list.NoDup_app. split_and!; [done| |].
    + intros x Hx [->|Habs%elem_of_nil]%elem_of_cons; [|done].
      apply list_elem_of_fmap in Hx as (t & Ht & Htin).
      specialize (Hfresh t Htin). cbn in Ht. lia.
    + apply NoDup_singleton.
  - apply list.Forall_forall. intros t Ht Hnt. rewrite En.
    by destruct (in_flight_notify w t (Hfl t (Hin t Ht)) Hnt).
  - done.
  - done.
  - unfold cell. rewrite Ee. rewrite list_lookup_insert_eq; [done|].
    cbn. rewrite length_alter. lia.
Qed.

(** X26. A cell that leaves the tree right after a keystroke does not
    report it: the cleanup cancels the notification the keystroke has
    queued, so no callback is called and the Code array keeps the slot as
    it was. *)
Theorem unmount_cancels_the_pending_notification i raw v cur w :
  mirrored w ->
  pending_notifications w = [] ->
  i < length (valuesRef w) ->
  value_of w i = Some cur ->
  PinItem.validation props (str raw) = Normal v ->
  v <> cur ->
  length v < 2 ->
  let typed := fst (PinInput.dispatch props (PinInput.Change i raw) w) in
  let left := fst (PinInput.unmount_item i typed) in
  let w' := PinInput.settle props left in
  pending_notifications typed = [Notify i v false] /\
  pending_notifications left = [] /\
  cell left i = None /\
  calls w' = calls w /\ valuesRef w' = valuesRef w.
Proof.
  intros Hw Hpn Hi Hcur Hv Hne Hlen. cbn zeta.
  change (PinInput.dispatch props (PinInput.Change i raw) w)
    with (PinItem.update props i (str raw) false w).
  destruct (update_adopts i (str raw) false v cur w Hw Hcur Hv Hne Hlen)
    as (-> & Hw0 & Hpn0).
  cbn zeta in *. rewrite Hpn in Hpn0.
  destruct (validateValue_frame props i (str raw) w) as (Hvs & Hcs & _).
  set (w0 := fst (PinItem.validateValue props i (str raw) w)) in *.
  destruct (unmount_drops_last i v false w0 Hw0 ltac:(by rewrite Hvs))
    as (Hpl & Hnd & Hdue & Ev & Ec & Hcell).
  cbn zeta in *.
  set (left := fst (PinInput.unmount_item i (commit i v false w0))) in *.
  rewrite Hpn0 in Hpl.
  destruct (turns_frame props (length (timers left)) (now left) (now left)
              left Hnd Hdue (le_n _) (le_n _))
    as (Fv & Fc & _). cbn zeta in *.
  fold (PinInput.settle props left) in *.
  split_and!.
  - by rewrite pending_notifications_commit, Hpn0.
  - done.
  - done.
  - rewrite Fc, Hpl. unfold run_all. cbn [foldl]. by rewrite Ec.
  - rewrite Fv. unfold eventual_values. rewrite Hpl. cbn [foldl].
    by rewrite Ev.
Qed.

(** X27. The cleanup cancels the last notification only. When a cell
    adopts two values one after the other and leaves the tree before
    either is reported, [inputTimeoutRef] remembers the second timer
    only: the first notification still runs, writes the first value to
    the Code array and calls [onChange] with it, although its cell has
    gone and had moved on to the second value. *)
Theorem unmount_keeps_an_earlier_notification i raw1 raw2 v1 v2 cur w :
  mirrored w ->
  pending_notifications w = [] ->
  i < length (valuesRef w) ->
  value_of w i = Some cur ->
  PinItem.validation props (str raw1) = Normal v1 ->
  PinItem.validation props (str raw2) = Normal v2 ->
  v1 <> cur -> v2 <> v1 ->
  length v1 < 2 -> length v2 < 2 ->
  let L := Props.length props in
  let typed := fst (PinInput.dispatch props (PinInput.Change i raw2)
                 (fst (PinInput.dispatch props (PinInput.Change i raw1) w))) in
  let left := fst (PinInput.unmount_item i typed) in
  let w' := PinInput.settle props left in
  let pin := join (<[i:=v1]> (valuesRef w)) in
  let currentIndex := if (length v1 =? 1) && (S i <? L) then S i else i in
  value_of typed i = Some v2 /\
  pending_notifications left = [Notify i v1 false] /\
  cell left i = None /\
  valuesRef w' = <[i:=v1]> (valuesRef w) /\
  calls w' = calls w ++ [OnChange pin currentIndex] ++
             (if length pin =? L then [OnComplete pin currentIndex] else []).
Proof.
  intros Hw Hpn Hi Hcur Hv1 Hv2 Hne1 Hne2 Hlen1 Hlen2. cbn zeta.
  change (PinInput.dispatch props (PinInput.Change i raw1) w)
    with (PinItem.update props i (str raw1) false w).
  change (PinInput.dispatch props (PinInput.Change i raw2) ?w0)
    with (PinItem.update props i (str raw2) false w0).
  pose proof (mirrored_update props i (str raw1) false w Hi Hw) as Hw1.
  pose proof (update_valuesRef props i (str raw1) false w) as Hvs1.
  destruct (update_adopts i (str raw1) false v1 cur w Hw Hcur Hv1 Hne1 Hlen1)
    as (E1 & Hw0 & Hpn0).
  cbn zeta in *. rewrite Hpn in Hpn0.
  destruct (validateValue_frame props i (str raw1) w)
    as (Hvs0 & Hcs0 & _).
  set (w0 := fst (PinItem.validateValue props i (str raw1) w)) in *.
  assert (Hcalls1 : calls (fst (PinItem.update props i (str raw1) false w))
                    = calls w) by by rewrite E1.
  assert (Hval1 : value_of (fst (PinItem.update props i (str raw1) false w)) i
                  = Some v1).
  { rewrite E1. apply commit_value_of.
    destruct Hw0 as (_ & Hm0 & _). apply Hm0. by rewrite Hvs0. }
  assert (Hpn1 : pending_notifications
                   (fst (PinItem.update props i (str raw1) false w))
                 = [Notify i v1 false]).
  { by rewrite E1, pending_notifications_commit, Hpn0. }
  set (typed1 := fst (PinItem.update props i (str raw1) false w)) in *.
  destruct (update_adopts i (str raw2) false v2 v1 typed1 Hw1 Hval1 Hv2
              Hne2 Hlen2) as (-> & Hw2 & Hpn2).
  cbn zeta in *. rewrite Hpn1 in Hpn2.
  destruct (validateValue_frame props i (str raw2) typed1)
    as (Hvs2 & Hcs2 & _).
  set (w2 := fst (PinItem.validateValue props i (str raw2) typed1)) in *.
  assert (Hi2 : i < length (valuesRef w2)) by by rewrite Hvs2, Hvs1.
  destruct (unmount_drops_last i v2 false w2 Hw2 Hi2)
    as (Hpl & Hnd & Hdue & Ev & Ec & Hcell).
  cbn zeta in *.
  set (left := fst (PinInput.unmount_item i (commit i v2 false w2))) in *.
  rewrite Hpn2 in Hpl.
  destruct (turns_frame props (length (timers left)) (now left) (now left)
              left Hnd Hdue (le_n _) (le_n _))
    as (Fv & Fc & _). cbn zeta in *.
  fold (PinInput.settle props left) in *.
  assert (Hvl : valuesRef left = valuesRef w) by by rewrite Ev, Hvs2, Hvs1.
  split_and!.
  - apply commit_value_of. destruct Hw2 as (_ & Hm2 & _). by apply Hm2.
  - done.
  - done.
  - rewrite Fv. unfold eventual_values. rewrite Hpl.
    cbn [foldl write_slot]. rewrite Hvl. by apply array_set_in_range.
  - rewrite Fc, Hpl. unfold run_all. cbn [foldl PinInput.run_job].
    rewrite onItemChange_run. cbn zeta. cbn [fst].
    rewrite Hvl, array_set_in_range by done.
    unfold set_calls; cbn [calls negb andb app].
    rewrite andb_true_r. replace (i + 1) with (S i) by lia.
    assert (calls left = calls w) as Hcl by by rewrite Ec, Hcs2.
    f_equal. destruct (_ && _).
    + destruct (blur_all_fields _ _
        (focus_element_blur_all props (S i)
           (set_valuesRef (array_set i v1) left))) as (_ & -> & _).
      done.
    + done.
Qed.

End Leaving.

(** ** The focus state, and the row after mounting *)

Section FocusState.
Context `{Host}.
Variable props : Props.t.

Lemma focus_tracked_same w w' :
  (forall k, focus_view <$> cell w' k = focus_view <$> cell w k) ->
  activeElement w' = activeElement w ->
  focus_tracked w -> focus_tracked w'.
Proof.
  intros Hcells Hact Hw k c' Hc' Hf. specialize (Hcells k).
  rewrite Hc' in Hcells. destruct (cell w k) as [c|] eqn:Hc; [|done].
  cbn in Hcells. injection Hcells as Ef Ei. rewrite Hact, Ei.
  apply (Hw k c Hc). by rewrite <- Ef.
Qed.

Lemma focus_tracked_cells (g : Cell.t -> Cell.t) i w :
  (forall c, focus_view (g c) = focus_view c) ->
  focus_tracked w -> focus_tracked (modify_cell i g w).
Proof.
  intros Hg. apply focus_tracked_same; [|done]. intros k.
  rewrite cell_modify_cell. case_decide; [subst|done].
  destruct (cell w k); [|done]. cbn. by rewrite Hg.
Qed.

Lemma focus_view_setState (f : Cell.t -> Cell.t) c :
  (forall c, focus_view (f c) = focus_view c) ->
  focus_view (Cell.setState f c) = focus_view c.
Proof. intros Hf. unfold Cell.setState. by destruct (Cell.inputRef c). Qed.

(** The cell that had the focus gets its blur event. *)
Lemma focus_tracked_blurred w :
  focus_tracked w ->
  let w1 := match activeElement w with
            | Some k => modify_cell k (Cell.setState (Cell.set_focus false)) w
            | None => w
            end in
  forall k c, cell w1 k = Some c -> Cell.focus c = false.
Proof.
  intros Hw. cbn zeta. intros k c Hc.
  destruct (Cell.focus c) eqn:Hf; [|done]. exfalso.
  destruct (activeElement w) as [k0|] eqn:Hact.
  - rewrite cell_modify_cell in Hc. case_decide; [subst k0|].
    + destruct (cell w k) as [c0|] eqn:Hc0; [|done]. cbn in Hc.
      injection Hc as <-. unfold Cell.setState in Hf.
      destruct (Cell.inputRef c0) eqn:Hi; [done|].
      destruct (Hw k c0 Hc0 Hf) as [_ Hi']. congruence.
    + destruct (Hw k c Hc Hf) as [Hk _]. congruence.
  - destruct (Hw k c Hc Hf) as [Hk _]. congruence.
Qed.

Lemma focus_tracked_focused i w :
  focus_tracked w -> focus_tracked (focused i w).
Proof.
  intros Hw k c Hc Hf. unfold focused in Hc.
  rewrite cell_modify_cell in Hc.
  pose proof (focus_tracked_blurred w Hw) as Hb. cbn zeta in Hb.
  change (cell (set_activeElement ?a ?w0) ?j) with (cell w0 j) in Hc.
  case_decide; [subst k|].
  - split; [done|].
    match type of Hc with
    | context [cell ?w0 i] => destruct (cell w0 i) as [c0|] eqn:Hc0; [|done]
    end.
    cbn in Hc.
    injection Hc as <-. specialize (Hb i c0 Hc0).
    unfold Cell.setState in *. destruct (Cell.inputRef c0) eqn:Hi; [done|].
    congruence.
  - specialize (Hb k c Hc). congruence.
Qed.

Lemma focus_tracked_focus_element k w :
  focus_tracked w ->
  focus_tracked (fst (PinInput.focus_element props k w)).
Proof.
  intros Hw. rewrite focus_element_run. cbn [fst].
  destruct (_ && _); [|done]. by apply focus_tracked_focused.
Qed.

Lemma focus_tracked_validateValue i raw w :
  focus_tracked w ->
  focus_tracked (fst (PinItem.validateValue props i raw w)).
Proof.
  destruct (validateValue_frame props i raw w) as (_ & _ & Ha & _).
  apply focus_tracked_same; [|done]. intros k.
  destruct (validateValue_cell props i raw w k) as (g & -> & _ & Hi & Hf).
  destruct (cell w k) as [c|]; [|done]. cbn. unfold focus_view.
  by rewrite Hi, Hf.
Qed.

Lemma focus_tracked_commit i v b w :
  focus_tracked w -> focus_tracked (commit i v b w).
Proof.
  apply focus_tracked_same; [|done]. intros k. rewrite cell_commit.
  case_decide; [subst|done]. destruct (cell w k) as [c|]; [|done]. cbn.
  unfold focus_view, Cell.setState. by destruct c as [? ? ? ? ? []].
Qed.

Lemma focus_tracked_update i raw b w :
  focus_tracked w -> focus_tracked (fst (PinItem.update props i raw b w)).
Proof.
  intros Hw. rewrite update_run. cbn zeta.
  pose proof (focus_tracked_validateValue i raw w Hw) as Hw1.
  destruct (PinItem.validation props raw) as [v|e]; [|done].
  destruct (_ && _); [done|]. destruct (_ <? _); [|done].
  by apply focus_tracked_commit.
Qed.

Lemma focus_tracked_dispatch e w :
  focus_tracked w -> focus_tracked (fst (PinInput.dispatch props e w)).
Proof.
  intros Hw. destruct e as [i v|i k|i text|i|i]; cbn [PinInput.dispatch].
  - by apply focus_tracked_update.
  - unfold PinItem.handleKeyDown, bind, PinItem.value, gets.
    destruct (_ && _); [|done].
    unfold PinInput.onBackspace, PinInput.handleBackspace.
    destruct (0 <? i); [|done]. by apply focus_tracked_focus_element.
  - unfold PinItem.handlePaste, PinInput.onPaste.
    destruct (i =? 0); [|done].
    unfold PinInput.handlePaste. destruct (negb _); [done|].
    unfold PinInput.forEach_element, bind at 1. unfold gets at 1.
    apply forEach_invariant; [|done]. intros j w0 Hw0.
    unfold bind, PinInput.element, gets.
    destruct (cell w0 j); [|done]. by apply focus_tracked_update.
  - rewrite input_focus_run. cbn [fst]. destruct (_ || _); [done|].
    by apply focus_tracked_focused.
  - unfold bind, gets.
    destruct (bool_decide_reflect (activeElement w = Some i)) as [Ha|Ha];
      [|done].
    unfold modify, PinItem.handleBlur, PinItem.setFocus. cbn [fst].
    pose proof (focus_tracked_blurred w Hw) as Hb. cbn zeta in Hb.
    rewrite Ha in Hb. intros k c Hc Hf.
    change (cell (modify_cell i ?g (set_activeElement None w)) k)
      with (cell (modify_cell i g w) k) in Hc.
    specialize (Hb k c Hc). congruence.
Qed.

Lemma focus_tracked_run_job j w :
  focus_tracked w -> focus_tracked (fst (PinInput.run_job props j w)).
Proof.
  intros Hw. destruct j as [i b|i v b]; cbn [PinInput.run_job].
  - unfold PinItem.setShowSecret, modify. cbn [fst].
    apply focus_tracked_cells; [|done]. intros c.
    by apply focus_view_setState.
  - rewrite onItemChange_run. cbn zeta. cbn [fst].
    match goal with
    | |- focus_tracked (set_calls _ ?w2) =>
        assert (focus_tracked w2) as Hw2; [|exact Hw2]
    end.
    destruct (_ && _); [|done]. by apply focus_tracked_focus_element.
Qed.

Lemma focus_tracked_turn limit w w' :
  focus_tracked w -> PinInput.turn props limit w = Some w' ->
  focus_tracked w'.
Proof.
  intros Hw. unfold PinInput.turn.
  destruct (PinInput.earliest (timers w)) as [t|]; [|done].
  destruct (due t <=? limit); [|done]. intros [= <-].
  by apply focus_tracked_run_job.
Qed.

Lemma focus_tracked_turns fuel : forall limit w,
  focus_tracked w -> focus_tracked (PinInput.turns props fuel limit w).
Proof.
  induction fuel as [|fuel IH]; intros limit w Hw; [done|].
  cbn [PinInput.turns].
  destruct (PinInput.turn props limit w) as [w'|] eqn:E; [|done].
  apply IH. by eapply focus_tracked_turn.
Qed.

Lemma focus_tracked_clear w :
  focus_tracked w -> focus_tracked (fst (PinInput.clear props w)).
Proof.
  intros Hw. rewrite clear_run. apply focus_tracked_focus_element.
  revert Hw. apply focus_tracked_same; [|done]. intros k.
  rewrite cell_cleared. destruct (cell w k) as [c|]; [|done]. cbn.
  by rewrite focus_view_setState.
Qed.

Lemma focus_tracked_unmount i w :
  focus_tracked w -> focus_tracked (fst (PinInput.unmount_item i w)).
Proof.
  intros Hw k c Hc Hf. rewrite unmount_item_run in *. cbn [fst] in *.
  assert (k <> i /\ cell w k = Some c) as [Hk Hc'].
  { assert (forall w0, elementsRef w0 = elementsRef w ->
              cell (set_elementsRef (<[i:=None]>) w0) k = Some c ->
              k <> i /\ cell w k = Some c) as Hgen.
    { intros w0 E. unfold cell. cbn. rewrite E.
      destruct (decide (k = i)) as [->|Hne].
      - destruct (decide (i < length (elementsRef w))).
        + by rewrite list_lookup_insert_eq.
        + by rewrite lookup_ge_None_2 by (rewrite length_insert; lia).
      - by rewrite list_lookup_insert_ne. }
    destruct (bool_decide _); by apply Hgen in Hc. }
  destruct (Hw k c Hc' Hf) as [Ha Hi]. split; [|done].
  rewrite bool_decide_eq_false_2 by congruence. done.
Qed.

(** X28. The focused style follows the focus. A cell's [focus] state, the
    one that adds [focusedStyle], is set for one cell at most, the cell
    that has the focus of the document: every event, every timer that
    runs, [clear()], [focus()] and the unmounting of a cell keep it so. *)
Theorem focused_style_follows_the_focus w :
  focus_tracked w ->
  (forall e, focus_tracked (fst (PinInput.dispatch props e w))) /\
  (forall limit w', PinInput.turn props limit w = Some w' ->
                    focus_tracked w') /\
  (forall ms, focus_tracked (PinInput.elapse props ms w)) /\
  focus_tracked (PinInput.settle props w) /\
  focus_tracked (fst (PinInput.clear props w)) /\
  focus_tracked (fst (PinInput.focusFirstInput props w)) /\
  (forall i, focus_tracked (fst (PinInput.unmount_item i w))) /\
  (forall j k c c', cell w j = Some c -> cell w k = Some c' ->
                    Cell.focus c = true -> Cell.focus c' = true -> j = k).
Proof.
  intros Hw. split_and!.
  - intros e. by apply focus_tracked_dispatch.
  - intros limit w'. by apply focus_tracked_turn.
  - intros ms. unfold PinInput.elapse.
    exact (focus_tracked_turns (length (timers w)) (now w + ms) w Hw).
  - by apply focus_tracked_turns.
  - by apply focus_tracked_clear.
  - unfold PinInput.focusFirstInput. destruct (_ <? _); [|done].
    by apply focus_tracked_focus_element.
  - intros i. by apply focus_tracked_unmount.
  - intros j k c c' Hc Hc' Hf Hf'.
    destruct (Hw j c Hc Hf) as [Hj _]. destruct (Hw k c' Hc' Hf') as [Hk _].
    congruence.
Qed.

End FocusState.

Section Started.
Context `{Host}.
Variable props : Props.t.

(** X29. The row after mounting. Without a secret delay, after mounting
    nothing is left to deliver, every handle has its cell in the tree,
    there are as many cells as slots, no hide is waiting and no cell but
    the one with the focus has the focused style. No slot and no cell
    holds more than one code unit exactly when validation returns one
    code unit at most for every character of the initial value: the
    first render does not pass through the guard of [update], so a
    validator that returns a longer string shows it in the cell. *)
Theorem mount_starts_a_settled_row initialValue clock w :
  Props.secretDelay props = 0 ->
  PinInput.mount props initialValue clock = Normal w ->
  let slot i := match initialValue !! i with Some c => [c] | None => [] end in
  quiet w = true /\ all_mounted w = true /\
  length (elementsRef w) = length (valuesRef w) /\
  hides_tracked w /\ focus_tracked w /\
  ((forall i v, i < Props.length props ->
      PinItem.validation props (str (slot i)) = Normal v -> length v <= 1)
   <-> row_short w).
Proof.
  intros Hd Hmount. cbn zeta.
  destruct (mount_run props initialValue clock Hd)
    as (cs & w' & Hw' & Hlen & Hcs & (E & Hor) & _).
  rewrite Hmount in Hw'. injection Hw' as <-. cbn zeta in *.
  set (w0 := {| valuesRef := PinInput.initial_values props initialValue;
                elementsRef := Some <$> cs; activeElement := None;
                now := clock; nextTimer := 1%positive; timers := [];
                calls := [] |}) in *.
  destruct (initial_values_short props initialValue) as (HL & Hshort).
  destruct (blur_all_fields _ _ E) as (Hv & _ & Ht & Hn & _ & Hl).
  cbn in Hv, Ht, Hn, Hl. rewrite length_fmap, Hlen in Hl.
  assert (Hcell : forall j c, cell w0 j = Some c ->
            j < Props.length props /\
            exists v, c = initial_cell props v /\
              PinItem.validation props
                (str (match initialValue !! j with
                      | Some c => [c] | None => [] end)) = Normal v).
  { intros j c Hc. apply cell_Some_lookup in Hc. cbn in Hc.
    pose proof (lookup_lt_Some _ _ _ Hc) as Hj.
    rewrite length_fmap, Hlen in Hj. split; [done|].
    destruct (Hcs j Hj) as (v & Hval & Hcj).
    rewrite list_lookup_fmap, Hcj in Hc. injection Hc as <-. by exists v. }
  assert (Hcell' : forall j, j < Props.length props ->
            exists v, cell w0 j = Some (initial_cell props v) /\
              PinItem.validation props
                (str (match initialValue !! j with
                      | Some c => [c] | None => [] end)) = Normal v).
  { intros j Hj. destruct (Hcs j Hj) as (v & Hval & Hcj). exists v.
    split; [|done]. unfold cell. cbn. by rewrite list_lookup_fmap, Hcj. }
  assert (Hpn : pending_notifications w = [])
    by (unfold pending_notifications; by rewrite Ht).
  split_and!.
  - apply quiet_intro; [rewrite Ht; constructor|rewrite Ht; constructor|
                        |done].
    intros j id. rewrite (blur_all_pending_hide _ _ j E).
    unfold pending_hide. destruct (cell w0 j) as [c|] eqn:Hc; [|done].
    by destruct (Hcell j c Hc) as (_ & v & -> & _).
  - apply all_mounted_intro. intros k Hk.
    rewrite (blur_all_mounted _ _ k E). unfold mounted.
    by destruct (Hcell' k ltac:(lia)) as (v & -> & _).
  - by rewrite Hl, Hv, HL.
  - split_and!; rewrite Ht; [constructor|constructor|].
    by intros t i b Hin%elem_of_nil.
  - assert (focus_tracked w0) as Hw0.
    { intros k c Hc Hf. by destruct (Hcell k c Hc) as (_ & v & -> & _). }
    destruct Hor as [->| ->]; [done|by apply focus_tracked_focused].
  - split.
    + intros Hvalid. apply (row_short_blur_all w0 w E).
      split_and!; cbn; [done| |constructor].
      apply list.Forall_forall. intros el Hel.
      apply list_elem_of_lookup in Hel as (j & Hj).
      destruct el as [c|]; [|done].
      apply (cell_Some_lookup w0 j c) in Hj.
      destruct (Hcell j c Hj) as (Hlt & v & -> & Hval). cbn.
      by eapply Hvalid.
    + intros Hw i v Hi Hval.
      assert (row_short w0) as (_ & Hc0 & _)
        by by apply (row_short_blur_all w w0).
      destruct (Hcell' i Hi) as (v' & Hc & Hval'). rewrite Hval in Hval'.
      injection Hval' as <-. apply cell_Some_lookup in Hc.
      rewrite list.Forall_forall in Hc0.
      exact (Hc0 _ (list_elem_of_lookup_2 _ _ _ Hc)).
Qed.

End Started.

(** ** Handles, path by path *)

Section AllPaths.
Context `{Host}.
Variable props : Props.t.











End AllPaths.

(** ** Worked instances *)

#[local] Existing Instance ascii_host.

(** The sample rows are what mounting gives: an empty row, an empty
    masked row, and the row of 1234 once its last cell is clicked. *)
Example mount_row :
  PinInput.mount (numeric_props 4) [] 0 = Normal (row 4 false) /\
  PinInput.mount (regex_props 4) [] 0 = Normal (row 4 false) /\
  PinInput.mount (masked_props 6) [] 0 = Normal (row 6 true) /\
  (exists w, PinInput.mount (numeric_props 4) (js "1234") 0 = Normal w /\
             fst (PinInput.dispatch (numeric_props 4) (PinInput.Focus 3) w)
             = row_1234).
Proof. split_and!; [reflexivity..|]. eexists. split; reflexivity. Qed.

(** The row without handles is what is left of a row once its items have
    left the tree, as when [clear] or [focus] is called through a
    reference to a container that is gone. *)
Example unmount_row :
  fst (forEach PinInput.unmount_item 0 4 (row 4 false)) = row_unmounted 4.
Proof. reflexivity. Qed.

(** Typing 1, 2, 3, 4 into a numeric row of four, each keystroke followed
    by its notification: [onChange] is called four times with the growing
    pin, [onComplete] once, after the fourth. *)
Example typing_1234 :
  let props := numeric_props 4 in
  let key i c w :=
    PinInput.settle props
      (fst (PinInput.dispatch props (PinInput.Change i c) w)) in
  let w := key 3 (js "4") (key 2 (js "3") (key 1 (js "2")
             (key 0 (js "1") (row 4 false)))) in
  calls w = [OnChange (js "1") 1; OnChange (js "12") 2;
             OnChange (js "123") 3; OnChange (js "1234") 3;
             OnComplete (js "1234") 3] /\
  valuesRef w = [js "1"; js "2"; js "3"; js "4"] /\
  activeElement w = Some 3.
Proof. cbn zeta. by vm_compute. Qed.

(** Masked entry with 500 ms of reveal: a 9 is shown at once and masked
    after 500 ms; a second keystroke after 300 ms takes the first hide off
    the queue and starts the 500 ms again. *)
Example reveal_then_mask :
  let props := secret_props 6 in
  let w1 := fst (PinInput.dispatch props (PinInput.Change 0 (js "9"))
                   (row 6 true)) in
  let w4 := fst (PinInput.dispatch props (PinInput.Change 0 (js "7"))
                   (fst (PinInput.dispatch props (PinInput.Focus 0)
                           (PinInput.elapse props 300 w1)))) in
  masked w1 0 = Some false /\
  masked (PinInput.elapse props 499 w1) 0 = Some false /\
  masked (PinInput.elapse props 500 w1) 0 = Some true /\
  job <$> timers w4 = [HideSecret 0 true; Notify 0 (js "7") false] /\
  due <$> timers w4 = [800; 300] /\
  masked (PinInput.elapse props 499 w4) 0 = Some false /\
  masked (PinInput.elapse props 500 w4) 0 = Some true.
Proof. cbn zeta. by vm_compute. Qed.

(** C6, where the code departs from it. Numeric row, masked, 500 ms of
    reveal: the letter x typed into the empty first cell is rejected, so
    the cell stays empty and is unmasked at once; the hide that was queued
    for it decides from the raw keystroke, and 500 ms later masks the cell
    although it is empty. *)
Theorem secret_hide_masks_an_empty_cell :
  let props := secret_props 6 in
  let w0 := row 6 true in
  let w1 := fst (PinInput.dispatch props
                   (PinInput.Change 0 (js "x")) w0) in
  let w2 := PinInput.elapse props 500 w1 in
  value_of w1 0 = Some [] /\ masked w1 0 = Some false /\
  timers w1 = [{| tid := 1%positive; due := 500;
                  job := HideSecret 0 true |}] /\
  now w2 = 500 /\ value_of w2 0 = Some [] /\ masked w2 0 = Some true.
Proof. cbn zeta. by vm_compute. Qed.

(** The same hide after a [clear]: a 9 is typed and accepted, the row is
    cleared 300 ms later, and when the 500 ms are over the emptied cell is
    masked. *)
Example hide_after_clear_masks_an_empty_cell :
  let props := secret_props 6 in
  let w1 := fst (PinInput.dispatch props (PinInput.Change 0 (js "9"))
                   (row 6 true)) in
  let w2 := fst (PinInput.clear props (PinInput.elapse props 300 w1)) in
  let w3 := PinInput.elapse props 200 w2 in
  value_of w2 0 = Some [] /\ masked w2 0 = Some false /\
  value_of w3 0 = Some [] /\ masked w3 0 = Some true.
Proof. cbn zeta. by vm_compute. Qed.

(** The claim C7 makes of [update] fails where validation returns two
    characters: with the validator that always answers AB, a keystroke on
    an empty cell validates to AB, which differs from the cell's value,
    and yet the cell neither adopts it nor queues a notification. *)
Lemma update_drops_long_validated :
  let props := doubling_props 4 in
  let w := row 4 false in
  let w' := fst (PinItem.update props 0 (str (js "7"))
                   false w) in
  ~ (forall v,
       snd (PinItem.validateValue props 0 (str (js "7")) w)
       = Normal v ->
       Some v <> value_of w 0 \/ false = true ->
       value_of w' 0 = Some v /\
       exists t, t ∈ timers w' /\ job t = Notify 0 v false).
Proof.
  cbn zeta. intros Hclaim.
  destruct (Hclaim (js "AB")) as [Hadopted _];
    [reflexivity|left; discriminate|].
  vm_compute in Hadopted. discriminate.
Qed.

Lemma paste_fills_row_and_completes_once_witness :
  let props := regex_props 4 in
  let w := row 4 false in
  let s := js "Ab12" in
  let w2 := PinInput.settle props
              (fst (PinInput.dispatch props
                      (PinInput.Paste 0 s) w)) in
  (0 < Props.length props /\
   length s = Props.length props /\
   length (valuesRef w) = Props.length props /\
   length (elementsRef w) = Props.length props /\
   all_mounted w = true /\
   quiet w = true /\
   Forall (fun c => length (validated props c) = 1) s) /\
  valuesRef w2 = [js "A"; js "B"; js "1"; js "2"] /\
  calls w2 = [OnComplete (js "AB12") 3].
Proof.
  cbn zeta.
  assert (Hvalid : Forall (fun c => length (validated
                                              (regex_props 4) c) = 1)
                     (js "Ab12")) by (repeat constructor).
  split; [split_and!; [cbn; lia|reflexivity..|exact Hvalid]|].
  destruct (paste_fills_row_and_completes_once
              (regex_props 4) (js "Ab12") (row 4 false)
              ltac:(cbn; lia) eq_refl eq_refl eq_refl eq_refl eq_refl Hvalid)
    as (_ & _ & _ & _ & _ & Hvalues & _ & Hcalls & _).
  split; [exact Hvalues|exact Hcalls].
Defined.

Lemma numeric_validateValue_digits_only_witness :
  let props := numeric_props 4 in
  (Props.validate props = None /\ Props.type props = numeric /\
   at_most_one_character (js "7")) /\
  snd (PinItem.validateValue props 0 (str (js "7"))
         (row 4 false)) = Normal (js "7").
Proof.
  cbn zeta.
  assert (Hone : at_most_one_character (js "7"))
    by (right; left; by exists 55%Z).
  split; [split_and!; [reflexivity|reflexivity|exact Hone]|].
  destruct (numeric_validateValue_digits_only
              (numeric_props 4) 0 (js "7") (row 4 false) eq_refl eq_refl
              Hone) as (Hdigit & _).
  apply Hdigit. exists 55%Z. split; [reflexivity|lia].
Defined.

Lemma default_regex_validateValue_uppercases_witness :
  let props := regex_props 4 in
  (Props.validate props = None /\ Props.type props = other /\
   Props.regexCriteria props = Some default_regexCriteria /\
   one_character (js "a")) /\
  snd (PinItem.validateValue props 0 (str (js "a"))
         (row 4 false)) = Normal (js "A").
Proof.
  cbn zeta.
  assert (Hone : one_character (js "a")) by (left; by exists 97%Z).
  split; [by split_and!|].
  destruct (default_regex_validateValue_uppercases
              (regex_props 4) 0 (js "a") (row 4 false) eq_refl eq_refl
              eq_refl Hone) as (Halnum & _).
  destruct (Halnum 97%Z eq_refl eq_refl) as [Hret _]. exact Hret.
Defined.

Lemma onItemChange_single_char_advances_witness :
  let props := numeric_props 4 in
  let w' := fst (PinInput.onItemChange props (js "1")
                   false 0 (row 4 false)) in
  length (js "1") = 1 /\ activeElement w' = Some 1.
Proof.
  cbn zeta. split; [reflexivity|].
  destruct (onItemChange_single_char_advances
              (numeric_props 4) (js "1") false 0 (row 4 false) eq_refl)
    as (Hadvance & _).
  destruct (Hadvance ltac:(cbn; lia)) as (Hfocus & _).
  apply Hfocus; reflexivity.
Defined.

Lemma handlePaste_wrong_length_noop_witness :
  let props := numeric_props 4 in
  length (js "12345") <> Props.length props /\
  PinInput.dispatch props (PinInput.Paste 0 (js "12345"))
    (row 4 false) = (row 4 false, Normal tt).
Proof.
  cbn zeta.
  assert (Hlen : length (js "12345") <> Props.length (numeric_props 4))
    by (cbn; lia).
  split; [exact Hlen|].
  exact (proj2 (handlePaste_wrong_length_noop
                  (numeric_props 4) (js "12345") (row 4 false) Hlen)).
Defined.

Lemma update_adopts_short_validated_witness :
  let props := numeric_props 4 in
  let w := row 4 false in
  let w' := fst (PinItem.update props 0 (str (js "5"))
                   false w) in
  (value_of w 0 = Some [] /\ mounted w 0 = true /\
   PinItem.validation props (str (js "5"))
   = Normal (js "5")) /\
  value_of w' 0 = Some (js "5") /\
  timers w' = [{| tid := 1%positive; due := 0;
                  job := Notify 0 (js "5") false |}].
Proof.
  cbn zeta. split; [by split_and!|].
  destruct (update_adopts_short_validated
              (numeric_props 4) 0 (str (js "5")) false (row 4 false) []
              (js "5") eq_refl eq_refl eq_refl) as (Hadopt & _).
  destruct (Hadopt ltac:(left; discriminate) ltac:(cbn; lia))
    as (Hvalue & Htimers & _).
  split; [exact Hvalue|exact Htimers].
Defined.

Lemma backspace_routes_focus_witness :
  let props := numeric_props 4 in
  let w := row 4 false in
  let w' := fst (PinItem.handleKeyDown
                   (PinInput.onBackspace props 2) 2 8 w) in
  cell w 2 = Some (empty_cell false) /\ activeElement w' = Some 1.
Proof.
  cbn zeta. split; [reflexivity|].
  destruct (backspace_routes_focus (numeric_props 4) 2
              (empty_cell false) (row 4 false) eq_refl) as (Hempty & _).
  destruct (Hempty eq_refl ltac:(lia)) as (Hfocus & _).
  apply Hfocus; reflexivity.
Defined.

Lemma onItemChange_fires_onComplete_when_full_witness :
  let props := numeric_props 4 in
  let w := row_1234 in
  let w' := fst (PinInput.onItemChange props (js "7")
                   false 0 w) in
  (length (valuesRef w) = Props.length props /\ 0 < Props.length props /\
   Forall (fun s => length s <= 1) (valuesRef w) /\ length (js "7") <= 1) /\
  calls w' = [OnChange (js "7234") 1; OnComplete (js "7234") 1].
Proof.
  cbn zeta.
  assert (Hslots : Forall (fun s : jsstring => length s <= 1)
                     (valuesRef row_1234))
    by (repeat constructor).
  split; [split_and!; [reflexivity|cbn; lia|exact Hslots|cbn; lia]|].
  destruct (onItemChange_fires_onComplete_when_full
              (numeric_props 4) (js "7") 0 row_1234 eq_refl
              ltac:(cbn; lia) Hslots ltac:(cbn; lia)) as (_ & Hagain).
  apply Hagain; [|discriminate].
  repeat constructor; discriminate.
Defined.

Lemma validated_value_revalidates_witness :
  let props := regex_props 4 in
  (Props.validate props = None /\
   (Props.type props = numeric \/
    Props.regexCriteria props = Some default_regexCriteria) /\
   PinItem.validation props (str (js "a")) = Normal (js "A")) /\
  PinItem.validation props (str (js "A")) = Normal (js "A").
Proof.
  cbn zeta. split; [split_and!; [reflexivity|by right|reflexivity]|].
  exact (validated_value_revalidates (regex_props 4) (js "a") (js "A")
           eq_refl (or_intror eq_refl) eq_refl).
Defined.

Lemma default_regex_validation_never_lower_witness :
  let props := regex_props 4 in
  (Props.validate props = None /\ Props.type props = other /\
   Props.regexCriteria props = Some default_regexCriteria /\
   PinItem.validation props (str (js "aB3")) = Normal (js "AB3")) /\
  Forall (fun c => is_lower c = false) (js "AB3").
Proof.
  cbn zeta. split; [by split_and!|].
  exact (proj2 (proj2 (default_regex_validation_never_lower
                         (regex_props 4) (js "aB3") (js "AB3")
                         eq_refl eq_refl eq_refl eq_refl))).
Defined.

Lemma row_short_row n secret : row_short (row n secret).
Proof.
  split_and!; cbn.
  - apply list.Forall_forall. intros s [-> _]%elem_of_replicate. cbn. lia.
  - apply list.Forall_forall. intros el [-> _]%elem_of_replicate. cbn. lia.
  - constructor.
Qed.

Lemma row_stays_short_witness :
  row_short (row 4 false) /\
  row_short (fst (PinInput.dispatch (numeric_props 4)
                    (PinInput.Paste 0 (js "1234")) (row 4 false))).
Proof.
  split; [apply row_short_row|].
  exact (proj1 (proj2 (row_stays_short (numeric_props 4) (row 4 false)
                         (row_short_row 4 false)))
           (PinInput.Paste 0 (js "1234"))).
Defined.

Lemma settle_delivers_in_order_witness :
  let props := secret_props 4 in
  let w := fst (PinInput.dispatch props (PinInput.Paste 0 (js "1234"))
                  (row 4 true)) in
  (NoDup (tid <$> timers w) /\
   Forall (fun t => is_notify t = true -> due t = now w) (timers w)) /\
  pending_notifications w
  = [Notify 0 (js "1") true; Notify 1 (js "2") true;
     Notify 2 (js "3") true; Notify 3 (js "4") true] /\
  calls (PinInput.settle props w) = [OnComplete (js "1234") 3] /\
  valuesRef (PinInput.settle props w) = [js "1"; js "2"; js "3"; js "4"] /\
  job <$> timers (PinInput.settle props w)
  = [HideSecret 0 true; HideSecret 1 true; HideSecret 2 true;
     HideSecret 3 true] /\
  calls (PinInput.elapse props 500 w) = [OnComplete (js "1234") 3] /\
  timers (PinInput.elapse props 500 w) = [].
Proof.
  cbn zeta.
  set (w := fst (PinInput.dispatch (secret_props 4)
                   (PinInput.Paste 0 (js "1234")) (row 4 true))).
  assert (Hnd : NoDup (tid <$> timers w)).
  { apply (bool_decide_eq_true_1 (NoDup (tid <$> timers w))).
    vm_compute. reflexivity. }
  assert (Hdue : Forall (fun t => is_notify t = true -> due t = now w)
                   (timers w)).
  { vm_compute. repeat (constructor; [first [discriminate|reflexivity]|]).
    constructor. }
  split; [by split|].
  destruct (settle_delivers_in_order (secret_props 4) w Hnd Hdue)
    as ((Hv & Hc & _ & _ & Ht & _) & Hlater).
  destruct (Hlater 500) as (_ & Hc' & _ & _ & Ht' & _).
  split_and!.
  - reflexivity.
  - rewrite Hc. reflexivity.
  - rewrite Hv. reflexivity.
  - rewrite Ht. reflexivity.
  - rewrite Hc'. reflexivity.
  - rewrite Ht'. reflexivity.
Defined.

Lemma keystroke_is_reported_once_witness :
  let props := numeric_props 4 in
  let w := row 4 false in
  let w2 := PinInput.settle props
              (fst (PinInput.dispatch props (PinInput.Change 0 (js "5")) w)) in
  (quiet w = true /\ value_of w 0 = Some [] /\ mounted w 0 = true /\
   0 < length (valuesRef w) /\
   PinItem.validation props (str (js "5")) = Normal (js "5")) /\
  calls w2 = [OnChange (js "5") 1] /\ activeElement w2 = Some 1.
Proof.
  cbn zeta. split; [split_and!; [reflexivity..|cbn; lia|reflexivity]|].
  destruct (keystroke_is_reported_once (numeric_props 4) 0 (js "5") (js "5")
              [] (row 4 false) eq_refl eq_refl eq_refl ltac:(cbn; lia)
              eq_refl) as [Hnew _].
  destruct (Hnew ltac:(discriminate) ltac:(cbn; lia))
    as (_ & _ & Hcalls & _ & Hfocus & _).
  split; [exact Hcalls|].
  apply Hfocus; [reflexivity|cbn; lia|reflexivity|reflexivity].
Defined.

Lemma paste_reports_only_a_complete_pin_witness :
  let props := numeric_props 4 in
  let w := row 4 false in
  let s := js "12a4" in
  let w2 := PinInput.settle props
              (fst (PinInput.dispatch props (PinInput.Paste 0 s) w)) in
  (0 < Props.length props /\ length s = Props.length props /\
   length (valuesRef w) = Props.length props /\
   length (elementsRef w) = Props.length props /\
   all_mounted w = true /\ quiet w = true /\
   Forall (fun c => length (validated props c) <= 1) s /\
   Exists (fun c => validated props c = []) s) /\
  valuesRef w2 = [js "1"; js "2"; []; js "4"] /\ calls w2 = [].
Proof.
  cbn zeta.
  assert (Hvalid : Forall (fun c => length (validated (numeric_props 4) c)
                                    <= 1) (js "12a4"))
    by (repeat constructor).
  assert (Hex : Exists (fun c => validated (numeric_props 4) c = [])
                  (js "12a4"))
    by (do 2 apply Exists_cons_tl; by apply Exists_cons_hd).
  split; [split_and!; [cbn; lia|reflexivity..|exact Hvalid|exact Hex]|].
  destruct (paste_reports_only_a_complete_pin (numeric_props 4) (js "12a4")
              (row 4 false) ltac:(cbn; lia) eq_refl eq_refl eq_refl eq_refl
              eq_refl Hvalid)
    as (_ & Hvalues & _ & _ & _ & Hsilent & _).
  split; [exact Hvalues|exact (Hsilent Hex)].
Defined.

Lemma paste_leaves_focus_on_last_cell_witness :
  let props := numeric_props 4 in
  let w := row 4 false in
  let s := js "1234" in
  (2 <= Props.length props /\ length s = Props.length props /\
   length (elementsRef w) = Props.length props /\
   all_mounted w = true /\ quiet w = true /\
   Forall (fun c => length (validated props c) = 1) s /\
   Props.disabled props = false) /\
  activeElement (PinInput.settle props
                   (fst (PinInput.dispatch props (PinInput.Paste 0 s) w)))
  = Some 3.
Proof.
  cbn zeta.
  assert (Hvalid : Forall (fun c => length (validated (numeric_props 4) c)
                                    = 1) (js "1234"))
    by (repeat constructor).
  split; [split_and!; [cbn; lia|reflexivity..|exact Hvalid|reflexivity]|].
  exact (paste_leaves_focus_on_last_cell (numeric_props 4) (js "1234")
           (row 4 false) ltac:(cbn; lia) eq_refl eq_refl eq_refl eq_refl
           Hvalid eq_refl).
Defined.

Lemma hides_tracked_row n secret : hides_tracked (row n secret).
Proof.
  split_and!; cbn; [apply NoDup_nil_2|constructor|].
  by intros t i b ?%elem_of_nil.
Qed.

Lemma hides_stay_tracked_witness :
  hides_tracked (row 6 true) /\
  hides_tracked (fst (PinInput.dispatch (secret_props 6)
                        (PinInput.Change 0 (js "9")) (row 6 true))).
Proof.
  split; [apply hides_tracked_row|].
  apply (proj1 (hides_stay_tracked (secret_props 6) (row 6 true)
                  (hides_tracked_row 6 true))
           (PinInput.Change 0 (js "9"))).
  by eexists.
Defined.

Lemma unmount_cancels_the_pending_hide_witness :
  let w := fst (PinInput.dispatch (secret_props 6)
                  (PinInput.Change 0 (js "9")) (row 6 true)) in
  hides_tracked w /\
  (exists t, t ∈ timers w /\ job t = HideSecret 0 true) /\
  forall t b, t ∈ timers (fst (PinInput.unmount_item 0 w)) ->
              job t <> HideSecret 0 b.
Proof.
  cbn zeta.
  set (w := fst (PinInput.dispatch (secret_props 6)
                   (PinInput.Change 0 (js "9")) (row 6 true))).
  assert (Hw : hides_tracked w).
  { apply hides_tracked_dispatch; [apply hides_tracked_row|by eexists]. }
  split_and!; [exact Hw| |].
  - eexists. split; [by left|reflexivity].
  - exact (proj1 (proj2 (unmount_cancels_the_pending_hide 0 w Hw))).
Defined.

Lemma reveal_lasts_secretDelay_witness :
  let props := secret_props 6 in
  let w := row 6 true in
  let w1 := fst (PinInput.dispatch props (PinInput.Change 0 (js "9")) w) in
  (hides_tracked w /\ mounted w 0 = true /\ Props.secretDelay props <> 0) /\
  masked (PinInput.elapse props 499 w1) 0 = Some false /\
  masked (PinInput.elapse props 500 w1) 0 = Some true.
Proof.
  cbn zeta.
  assert (Hd : Props.secretDelay (secret_props 6) <> 0) by (cbn; lia).
  split; [split_and!; [apply hides_tracked_row|reflexivity|exact Hd]|].
  destruct (reveal_lasts_secretDelay (secret_props 6) 0 (js "9") (row 6 true)
              (hides_tracked_row 6 true) eq_refl Hd) as (_ & Hopen & Hshut).
  split; [apply Hopen; cbn; lia|apply (Hshut 500); cbn; lia].
Defined.

Lemma masks_are_fixed_without_secretDelay_witness :
  let props := masked_props 6 in
  let w := row 6 true in
  (Props.secretDelay props = 0 /\
   Forall (fun t => is_notify t = true) (timers w)) /\
  masks_kept w (fst (PinInput.dispatch props (PinInput.Change 0 (js "9")) w)).
Proof.
  cbn zeta.
  assert (Hts : Forall (fun t => is_notify t = true) (timers (row 6 true)))
    by constructor.
  split; [by split|].
  exact (proj1 (masks_are_fixed_without_secretDelay (masked_props 6)
                  eq_refl (row 6 true) Hts)
           (PinInput.Change 0 (js "9"))).
Defined.

Lemma mount_without_secretDelay_witness :
  let props := autofocus_props 4 in
  Props.secretDelay props = 0 /\
  exists w, PinInput.mount props (js "12") 0 = Normal w /\
            valuesRef w = [js "1"; js "2"; []; []] /\
            calls w = [] /\ activeElement w = Some 0.
Proof.
  cbn zeta. split; [reflexivity|].
  destruct (mount_without_secretDelay (autofocus_props 4) (js "12") 0 eq_refl)
    as (w & Hmount & Hvalues & _ & _ & _ & Hcalls & _ & Hfocus).
  exists w. split_and!; [exact Hmount|exact Hvalues|exact Hcalls|exact Hfocus].
Defined.

Lemma paste_outside_first_cell_is_ignored_witness :
  2 <> 0 /\
  PinInput.dispatch (numeric_props 4) (PinInput.Paste 2 (js "1234"))
    (row 4 false) = (row 4 false, Normal tt).
Proof.
  assert (Hi : 2 <> 0) by lia.
  split; [exact Hi|].
  exact (paste_outside_first_cell_is_ignored (numeric_props 4) 2 (js "1234")
           (row 4 false) Hi).
Defined.

Lemma paste_into_longer_row_throws_witness :
  let props := regex_props 4 in
  let w := row 6 false in
  (Props.validate props = None /\ Props.type props = other /\
   Props.regexCriteria props = Some default_regexCriteria /\
   test default_regexCriteria (js "undefined") = true /\
   length (js "AB12") = Props.length props /\
   is_Some (cell w (Props.length props))) /\
  snd (PinInput.handlePaste props (js "AB12") w) = Throw TypeError.
Proof.
  cbn zeta.
  assert (Hcell : is_Some (cell (row 6 false) (Props.length (regex_props 4))))
    by by eexists.
  split; [split_and!; [reflexivity..|exact Hcell]|].
  exact (paste_into_longer_row_throws (regex_props 4) (js "AB12")
           default_regexCriteria (row 6 false) eq_refl eq_refl eq_refl
           eq_refl eq_refl Hcell).
Defined.

Lemma onItemChange_never_completes_a_short_pin_witness :
  let props := numeric_props 4 in
  let w := row_1234 in
  let w' := fst (PinInput.onItemChange props [] false 3 w) in
  (length (valuesRef w) = Props.length props /\ 3 < Props.length props /\
   Forall (fun s => length s <= 1) (valuesRef w) /\
   length ([] : jsstring) <= 1) /\
  calls w' = [OnChange (js "123") 3] /\ activeElement w' = Some 3.
Proof.
  cbn zeta.
  assert (Hslots : Forall (fun s : jsstring => length s <= 1)
                     (valuesRef row_1234))
    by (repeat constructor).
  split; [split_and!; [reflexivity|cbn; lia|exact Hslots|cbn; lia]|].
  destruct (onItemChange_never_completes_a_short_pin (numeric_props 4) []
              false 3 row_1234 eq_refl ltac:(cbn; lia) Hslots
              ltac:(cbn; lia)) as (_ & _ & Hempty).
  destruct (Hempty eq_refl) as (Hcalls & Hfocus & _).
  split; [exact Hcalls|exact Hfocus].
Defined.

Lemma guarded_paths_skip_absent_witness :
  (forall i, cell (row_unmounted 4) i = None) /\
  PinInput.handlePaste (numeric_props 4) (js "1234") (row_unmounted 4)
  = (row_unmounted 4, Normal tt).
Proof.
  assert (Hnone : forall i, cell (row_unmounted 4) i = None).
  { intros i. unfold cell, row_unmounted. cbn [elementsRef].
    destruct (replicate 4 (@None Cell.t) !! i) as [el|] eqn:E; [|done].
    by apply lookup_replicate in E as [-> _]. }
  split; [exact Hnone|].
  destruct (guarded_paths_skip_absent (numeric_props 4) (row_unmounted 4)
              Hnone) as (_ & _ & _ & Hpaste & _).
  apply Hpaste.
Defined.

Lemma mount_with_secretDelay_throws_witness :
  let props := secret_props 6 in
  (Props.secretDelay props <> 0 /\ Props.length props <> 0) /\
  PinInput.mount props [] 0 = Throw ReferenceError.
Proof.
  cbn zeta.
  assert (Hd : Props.secretDelay (secret_props 6) <> 0) by (cbn; lia).
  assert (Hl : Props.length (secret_props 6) <> 0) by (cbn; lia).
  split; [by split|].
  exact (mount_with_secretDelay_throws (secret_props 6) [] 0 Hd Hl).
Defined.

Lemma keystroke_restarts_reveal_witness :
  let props := secret_props 6 in
  let w := row 6 true in
  let w' := fst (PinItem.handleChange props 0 (js "9") w) in
  (Props.secretDelay props <> 0 /\ mounted w 0 = true /\
   forall id, pending_hide w 0 = Some id -> (id < nextTimer w)%positive) /\
  masked w' 0 = Some false.
Proof.
  cbn zeta.
  assert (Hd : Props.secretDelay (secret_props 6) <> 0) by (cbn; lia).
  assert (Hp : forall id, pending_hide (row 6 true) 0 = Some id ->
                          (id < nextTimer (row 6 true))%positive)
    by (intros id; discriminate).
  split; [split_and!; [exact Hd|reflexivity|exact Hp]|].
  exact (proj1 (keystroke_restarts_reveal (secret_props 6) 0 (js "9")
                  (row 6 true) Hd eq_refl Hp)).
Defined.

Lemma mirrored_row n secret : mirrored (row n secret).
Proof.
  assert (Hcell : forall i, i < n ->
            cell (row n secret) i = Some (empty_cell secret)).
  { intros i Hi. unfold cell, row; cbn.
    by rewrite lookup_replicate_2. }
  split_and!; cbn.
  - by rewrite !length_replicate.
  - rewrite length_replicate. intros i Hi. unfold mounted.
    by rewrite Hcell.
  - constructor.
  - constructor.
  - intros j id. unfold pending_hide, cell; cbn.
    destruct (replicate n (Some (empty_cell secret)) !! j) as [el|] eqn:E;
      [|done].
    by apply lookup_replicate in E as [-> _].
  - constructor.
  - rewrite length_replicate. intros i Hi. unfold value_of.
    rewrite Hcell by done. cbn. by rewrite lookup_replicate_2.
Qed.

Lemma code_array_mirrors_the_cells_witness :
  let props := numeric_props 4 in
  let w := row 4 false in
  let typed := fst (PinInput.dispatch props (PinInput.Change 2 (js "7")) w) in
  mirrored w /\
  (event_cell (PinInput.Change 2 (js "7")) < length (valuesRef w) /\
   mirrored typed).
Proof.
  cbn zeta. split; [apply mirrored_row|].
  assert (Hi : event_cell (PinInput.Change 2 (js "7"))
               < length (valuesRef (row 4 false))) by (cbn; lia).
  split; [exact Hi|].
  exact (proj2 (proj1 (code_array_mirrors_the_cells (numeric_props 4)
                         (row 4 false) (mirrored_row 4 false))
                  (PinInput.Change 2 (js "7"))) Hi).
Defined.

Lemma mount_mirrors_a_valid_initial_value_witness :
  let props := numeric_props 4 in
  let w := {| valuesRef := [js "1"; js "2"; []; []];
              elementsRef := [Some (cell_with (js "1"));
                              Some (cell_with (js "2"));
                              Some (cell_with []); Some (cell_with [])];
              activeElement := None; now := 0; nextTimer := 1%positive;
              timers := []; calls := [] |} in
  (Props.secretDelay props = 0 /\
   PinInput.mount props (js "12") 0 = Normal w) /\
  mirrored w.
Proof.
  cbn zeta. split; [split; reflexivity|].
  apply (mount_mirrors_a_valid_initial_value (numeric_props 4) (js "12") 0 _
           eq_refl eq_refl).
  intros [|[|[|[|i]]]] Hi; [reflexivity..|cbn in Hi; lia].
Defined.

Lemma clear_does_not_cancel_a_notification_witness :
  let props := numeric_props 4 in
  let w := row 4 false in
  let typed := fst (PinInput.dispatch props (PinInput.Change 0 (js "5")) w) in
  let w' := PinInput.settle props (fst (PinInput.clear props typed)) in
  (mirrored w /\ pending_notifications w = [] /\
   0 < length (valuesRef w) /\ value_of w 0 = Some [] /\
   PinItem.validation props (str (js "5")) = Normal (js "5") /\
   js "5" <> [] /\ length (js "5") = 1) /\
  value_of w' 0 = Some [] /\
  valuesRef w' = [js "5"; []; []; []] /\
  calls w' = [OnChange (js "5") 1].
Proof.
  cbn zeta.
  assert (Hi : 0 < length (valuesRef (row 4 false))) by (cbn; lia).
  assert (Hne : js "5" <> []) by discriminate.
  split; [split_and!; [apply mirrored_row|reflexivity|exact Hi
                      |reflexivity..|exact Hne|reflexivity]|].
  destruct (clear_does_not_cancel_a_notification (numeric_props 4) 0
              (js "5") (js "5") [] (row 4 false) (mirrored_row 4 false)
              eq_refl Hi eq_refl eq_refl Hne eq_refl)
    as (Hcells & Hvalues & _ & Hcalls & _).
  split_and!; [exact (Hcells 0 Hi)|exact Hvalues|exact Hcalls].
Defined.

Lemma unmount_cancels_the_pending_notification_witness :
  let props := numeric_props 4 in
  let w := row 4 false in
  let typed := fst (PinInput.dispatch props (PinInput.Change 1 (js "5")) w) in
  let w' := PinInput.settle props (fst (PinInput.unmount_item 1 typed)) in
  (mirrored w /\ pending_notifications w = [] /\
   1 < length (valuesRef w) /\ value_of w 1 = Some [] /\
   PinItem.validation props (str (js "5")) = Normal (js "5") /\
   js "5" <> [] /\ length (js "5") < 2) /\
  calls w' = [] /\ valuesRef w' = [[]; []; []; []].
Proof.
  cbn zeta.
  assert (Hi : 1 < length (valuesRef (row 4 false))) by (cbn; lia).
  assert (Hne : js "5" <> []) by discriminate.
  assert (Hlen : length (js "5") < 2) by (cbn; lia).
  split; [split_and!; [apply mirrored_row|reflexivity|exact Hi
                      |reflexivity..|exact Hne|exact Hlen]|].
  destruct (unmount_cancels_the_pending_notification (numeric_props 4) 1
              (js "5") (js "5") [] (row 4 false) (mirrored_row 4 false)
              eq_refl Hi eq_refl eq_refl Hne Hlen)
    as (_ & _ & _ & Hcalls & Hvalues).
  split; [exact Hcalls|exact Hvalues].
Defined.

Lemma unmount_keeps_an_earlier_notification_witness :
  let props := numeric_props 4 in
  let w := row 4 false in
  let typed := fst (PinInput.dispatch props (PinInput.Change 1 (js "6"))
                 (fst (PinInput.dispatch props
                         (PinInput.Change 1 (js "5")) w))) in
  let w' := PinInput.settle props (fst (PinInput.unmount_item 1 typed)) in
  (mirrored w /\ pending_notifications w = [] /\
   1 < length (valuesRef w) /\ value_of w 1 = Some [] /\
   PinItem.validation props (str (js "5")) = Normal (js "5") /\
   PinItem.validation props (str (js "6")) = Normal (js "6") /\
   js "5" <> [] /\ js "6" <> js "5" /\
   length (js "5") < 2 /\ length (js "6") < 2) /\
  valuesRef w' = [[]; js "5"; []; []] /\
  calls w' = [OnChange (js "5") 2].
Proof.
  cbn zeta.
  assert (Hi : 1 < length (valuesRef (row 4 false))) by (cbn; lia).
  assert (Hne1 : js "5" <> []) by discriminate.
  assert (Hne2 : js "6" <> js "5") by discriminate.
  assert (Hlen1 : length (js "5") < 2) by (cbn; lia).
  assert (Hlen2 : length (js "6") < 2) by (cbn; lia).
  split; [split_and!; [apply mirrored_row|reflexivity|exact Hi
                      |reflexivity..|exact Hne1|exact Hne2
                      |exact Hlen1|exact Hlen2]|].
  destruct (unmount_keeps_an_earlier_notification (numeric_props 4) 1
              (js "5") (js "6") (js "5") (js "6") [] (row 4 false)
              (mirrored_row 4 false) eq_refl Hi eq_refl eq_refl eq_refl
              Hne1 Hne2 Hlen1 Hlen2)
    as (_ & _ & _ & Hvalues & Hcalls).
  split; [exact Hvalues|exact Hcalls].
Defined.

Lemma focus_tracked_row_1234 : focus_tracked row_1234.
Proof.
  intros [|[|[|[|k]]]] c; cbn; try done; by intros [= <-].
Qed.

Lemma focused_style_follows_the_focus_witness :
  focus_tracked row_1234 /\
  focus_tracked (fst (PinInput.dispatch (numeric_props 4) (PinInput.Focus 0)
                        row_1234)).
Proof.
  split; [apply focus_tracked_row_1234|].
  exact (proj1 (focused_style_follows_the_focus (numeric_props 4) row_1234
                  focus_tracked_row_1234) (PinInput.Focus 0)).
Defined.

Lemma mount_starts_a_settled_row_witness :
  let props := autofocus_props 4 in
  let w := {| valuesRef := [js "1"; js "2"; []; []];
              elementsRef := [Some (Cell.set_focus true (cell_with (js "1")));
                              Some (cell_with (js "2"));
                              Some (cell_with []); Some (cell_with [])];
              activeElement := Some 0; now := 0; nextTimer := 1%positive;
              timers := []; calls := [] |} in
  (Props.secretDelay props = 0 /\
   PinInput.mount props (js "12") 0 = Normal w) /\
  quiet w = true /\ all_mounted w = true /\ focus_tracked w.
Proof.
  cbn zeta. split; [split; reflexivity|].
  destruct (mount_starts_a_settled_row (autofocus_props 4) (js "12") 0 _
              eq_refl eq_refl) as (Hq & Hall & _ & _ & Hf & _).
  split_and!; [exact Hq|exact Hall|exact Hf].
Defined.

